(** * Data-Insight-Agent: the planning-and-execution loop, embedded in Rocq

    A shallow embedding of the orchestration core of the repository:
    - [core/dialogue_context.py]   (module [DialogueContext]),
    - [core/llm_client.py]         (module [LLMClient]),
    - [tools/base_tool.py]         (module [BaseTool]),
    - [tools/data_visualization.py], [tools/statistical_analysis.py]
                                   (modules [DataVisualizationTool],
                                    [StatisticalAnalysisTool]),
    - [agent/tool_registry.py]     (module [ToolRegistry]),
    - [agent/data_agent.py]        (module [DataAnalysisAgent]).

    Conventions.
    - A Python [str] is a [string] holding its UTF-8 encoding; searching for
      an ASCII substring and splitting on it commute with that encoding.
    - A Python [dict] with string keys is a [gmap string _].
    - A Python call either returns or raises: [Outcome].  Code that talks
      to the language model, the database, the clock or the file system runs
      in the state-and-exception monad [SE] over an abstract [World].
    - Library functions whose tables are not part of the repository
      ([str.lower], [str.upper], [repr], pandas, matplotlib) are fields of
      the interface [Collaborators]; [json.loads] is the interface
      [JSONDecoder], with the decoder [Json.decode] as instance. *)

From stdpp Require Import gmap strings list pretty.
From Stdlib Require Import ZArith Ascii Lia.

Open Scope Z_scope.

(* ===================================================================== *)
(** * Outcomes and the state-and-exception monad                          *)
(* ===================================================================== *)

(** A raised exception: its class and its [str(e)].  Every class used below
    derives from [Exception], which is what [except Exception] catches. *)
Record PyExc := mkExc { exc_class : string; exc_msg : string }.

Inductive Outcome (A : Type) : Type :=
| Ret (a : A)
| Raise (e : PyExc).
Arguments Ret {A} a.
Arguments Raise {A} e.

Definition is_Ret {A} (o : Outcome A) : bool :=
  match o with Ret _ => true | Raise _ => false end.

Definition SE (S A : Type) : Type := S -> Outcome A * S.

Definition ret {S A} (a : A) : SE S A := fun s => (Ret a, s).

Definition raise {S A} (e : PyExc) : SE S A := fun s => (Raise e, s).

Definition bind {S A B} (m : SE S A) (k : A -> SE S B) : SE S B :=
  fun s => match m s with
           | (Ret a, s') => k a s'
           | (Raise e, s') => (Raise e, s')
           end.

(** [try: m  except <classes accepted by catches>: h]. State changes made
    before the exception stay, as in Python. *)
Definition try_except {S A} (m : SE S A) (catches : PyExc -> bool)
    (h : PyExc -> SE S A) : SE S A :=
  fun s => match m s with
           | (Ret a, s') => (Ret a, s')
           | (Raise e, s') => if catches e then h e s' else (Raise e, s')
           end.

Definition get_state {S} : SE S S := fun s => (Ret s, s).
Definition put_state {S} (s : S) : SE S unit := fun _ => (Ret tt, s).
Definition lift_outcome {S A} (o : Outcome A) : SE S A := fun s => (o, s).

Declare Scope se_scope.
Delimit Scope se_scope with se.
Notation "x <- m ;; k" := (bind m (fun x => k))
  (at level 100, m at next level, right associativity) : se_scope.
Notation "m ;;; k" := (bind m (fun _ => k))
  (at level 100, right associativity) : se_scope.

(** [except Exception]: every modelled exception. *)
Definition any_Exception (e : PyExc) : bool := true.

(** [except json.JSONDecodeError]. *)
Definition is_JSONDecodeError (e : PyExc) : bool :=
  String.eqb (exc_class e) "JSONDecodeError".

Definition TypeError (msg : string) : PyExc := mkExc "TypeError" msg.
Definition AttributeError (msg : string) : PyExc := mkExc "AttributeError" msg.
Definition IndexError (msg : string) : PyExc := mkExc "IndexError" msg.
Definition JSONDecodeError (msg : string) : PyExc := mkExc "JSONDecodeError" msg.
Definition ValueError (msg : string) : PyExc := mkExc "ValueError" msg.
Definition RecursionError (msg : string) : PyExc := mkExc "RecursionError" msg.

(* ===================================================================== *)
(** * Python string operations used by the sources                        *)
(* ===================================================================== *)

Module PyStr.

Definition code (c : ascii) : N := N_of_ascii c.

(** The code points below 128 for which [str.isspace] holds. *)
Definition is_ascii_space (c : ascii) : bool :=
  let n := code c in
  ((9 <=? n) && (n <=? 13) || (28 <=? n) && (n <=? 32))%N.

(** UTF-8 encodings of the other white-space code points:
    U+0085, U+00A0 (two bytes); U+1680, U+2000..U+200A, U+2028, U+2029,
    U+202F, U+205F, U+3000 (three bytes). *)
Definition ws2 (a b : ascii) : bool :=
  ((code a =? 0xC2) && ((code b =? 0x85) || (code b =? 0xA0)))%N.

Definition ws3 (a b c : ascii) : bool :=
  ((code a =? 0xE1) && (code b =? 0x9A) && (code c =? 0x80)
   || (code a =? 0xE2) && (code b =? 0x80)
      && ((0x80 <=? code c) && (code c <=? 0x8A)
          || (code c =? 0xA8) || (code c =? 0xA9) || (code c =? 0xAF))
   || (code a =? 0xE2) && (code b =? 0x81) && (code c =? 0x9F)
   || (code a =? 0xE3) && (code b =? 0x80) && (code c =? 0x80))%N.

(** A character below 128 is a code point of its own: it is not part of
    the encoding of another one. It is solid when it is not white space. *)
Definition plain (c : ascii) : bool := (code c <? 128)%N.

Definition solid (c : ascii) : bool := plain c && negb (is_ascii_space c).

(** [s.lstrip()] *)
Fixpoint lstrip (s : string) : string :=
  match s with
  | String a r =>
      if is_ascii_space a then lstrip r
      else match r with
           | String b r1 =>
               if ws2 a b then lstrip r1
               else match r1 with
                    | String c r2 => if ws3 a b c then lstrip r2 else s
                    | EmptyString => s
                    end
           | EmptyString => s
           end
  | EmptyString => s
  end.

(** [s.isspace() or s == ''] *)
Definition is_blank (s : string) : bool :=
  match lstrip s with EmptyString => true | String _ _ => false end.

(** [s.rstrip()]: the shortest prefix whose remainder is blank. *)
Fixpoint rstrip (s : string) : string :=
  match s with
  | String a r => if is_blank s then EmptyString else String a (rstrip r)
  | EmptyString => EmptyString
  end.

(** [s.strip()] *)
Definition strip (s : string) : string := lstrip (rstrip s).

(** [s.rstrip(c)] for a one-character argument. *)
Fixpoint all_char (c : ascii) (s : string) : bool :=
  match s with
  | String a r => Ascii.eqb a c && all_char c r
  | EmptyString => true
  end.

Fixpoint rstrip_char (c : ascii) (s : string) : string :=
  match s with
  | String a r => if all_char c s then EmptyString else String a (rstrip_char c r)
  | EmptyString => EmptyString
  end.

Fixpoint drop (n : nat) (s : string) : string :=
  match n, s with
  | S n', String _ r => drop n' r
  | _, _ => s
  end.

(** [s.startswith(p)] *)
Fixpoint starts_with (p s : string) : bool :=
  match p with
  | EmptyString => true
  | String a p' =>
      match s with
      | String b s' => Ascii.eqb a b && starts_with p' s'
      | EmptyString => false
      end
  end.

(** [s.split(sep, 1)] when [sep] occurs in [s]: the text before and after
    the first occurrence. *)
Fixpoint split_once (sep s : string) : option (string * string) :=
  if starts_with sep s then Some (EmptyString, drop (String.length sep) s)
  else match s with
       | String c r =>
           match split_once sep r with
           | Some (a, b) => Some (String c a, b)
           | None => None
           end
       | EmptyString => None
       end.

(** [sub in s] *)
Definition contains (sub s : string) : bool :=
  match split_once sub s with Some _ => true | None => false end.

(** [s.split(sep, 1)[1]]; [IndexError] without an occurrence. *)
Definition split_after (sep s : string) : Outcome string :=
  match split_once sep s with
  | Some (_, b) => Ret b
  | None => Raise (IndexError "list index out of range")
  end.

(** [s.split(sep, 1)[0]] and [s.split(sep)[0]]. *)
Definition split_before (sep s : string) : string :=
  match split_once sep s with
  | Some (a, _) => a
  | None => s
  end.

(** Code points: a byte [10xxxxxx] continues the code point before it. *)
Definition is_cont (c : ascii) : bool :=
  ((0x80 <=? code c) && (code c <? 0xC0))%N.

Fixpoint cp_length (s : string) : nat :=
  match s with
  | String c r => if is_cont c then cp_length r else S (cp_length r)
  | EmptyString => O
  end.

Fixpoint drop_cont (s : string) : string :=
  match s with
  | String c r => if is_cont c then drop_cont r else s
  | EmptyString => s
  end.

(** [s[n:]] for [n >= 0] *)
Fixpoint cp_drop (n : nat) (s : string) : string :=
  match n, s with
  | S n', String _ r => cp_drop n' (drop_cont r)
  | _, _ => s
  end.

Fixpoint take_cont (s : string) : string :=
  match s with
  | String c r => if is_cont c then String c (take_cont r) else EmptyString
  | EmptyString => EmptyString
  end.

(** [s[:n]] for [n >= 0] *)
Fixpoint cp_take (n : nat) (s : string) : string :=
  match n, s with
  | S n', String c r => String c (take_cont r +:+ cp_take n' (drop_cont r))
  | _, _ => EmptyString
  end.

(** [s.find(sub)] when [sub] occurs in [s]. *)
Definition cp_find (sub s : string) : option nat :=
  match split_once sub s with
  | Some (a, _) => Some (cp_length a)
  | None => None
  end.

(** [sep.join(l)] *)
Fixpoint join (sep : string) (l : list string) : string :=
  match l with
  | [] => EmptyString
  | [x] => x
  | x :: l' => x +:+ sep +:+ join sep l'
  end.

(** The suffix of [s] that starts at the first occurrence of [c]. *)
Fixpoint from_first (c : ascii) (s : string) : option string :=
  match s with
  | String a r => if Ascii.eqb a c then Some s else from_first c r
  | EmptyString => None
  end.

(** The prefix of [s] that ends with the last occurrence of [c]. *)
Fixpoint upto_last (c : ascii) (s : string) : option string :=
  match s with
  | String a r =>
      match upto_last c r with
      | Some p => Some (String a p)
      | None => if Ascii.eqb a c then Some (String a EmptyString) else None
      end
  | EmptyString => None
  end.

(** [re.search(r'\[.*\]', s, re.DOTALL)]: the leftmost match starts at the
    first ["["] that has a ["]"] after it, which is the first ["["] of [s] if
    any does; [.*] is greedy and, with DOTALL, crosses newlines, so the match
    runs to the last ["]"] of [s].  [None] when there is no match, else
    [match.group()]. *)
Definition re_search_brackets (s : string) : option string :=
  match from_first "[" s with
  | Some (String a r) =>
      match upto_last "]" r with
      | Some p => Some (String a p)
      | None => None
      end
  | _ => None
  end.

End PyStr.

(** The line break and the double quote, for the literals that contain
    them. *)
Definition nl : string := String "010"%char EmptyString.
Definition dq : string := String "034"%char EmptyString.

(* ===================================================================== *)
(** * Python values                                                       *)
(* ===================================================================== *)

(** pandas: a frame is an index (its length is the number of rows) and a
    sequence of typed columns. *)
Inductive Dtype := DtInt64 | DtFloat64 | DtBool | DtObject | DtDatetime64.

Inductive Cell :=
| CNull
| CInt (n : Z)
| CReal (mantissa exponent10 : Z)
| CText (s : string)
| CTime (t : Z).

Record Series := mkSeries {
  s_name : string;
  s_dtype : Dtype;
  s_values : list Cell
}.

Record DataFrame := mkFrame {
  df_index : nat;
  df_columns : list Series
}.

(** [len(df)] *)
Definition df_len (df : DataFrame) : nat := df_index df.

(** [df.empty]: some axis has length 0. *)
Definition df_empty (df : DataFrame) : bool :=
  (Nat.eqb (df_index df) 0 || Nat.eqb (length (df_columns df)) 0)%bool.

(** [pd.api.types.is_datetime64_any_dtype] *)
Definition is_datetime64_any_dtype (s : Series) : bool :=
  match s_dtype s with DtDatetime64 => true | _ => false end.

(** A float read from a decimal literal, or one of the constants that
    [json.loads] accepts. Rounding to binary64 is not modelled. *)
Inductive PyFloat :=
| FDec (mantissa exponent10 : Z)
| FNaN
| FInf (negative : bool).

#[warnings="-register-all"]
Inductive pyval :=
| PNone
| PBool (b : bool)
| PInt (n : Z)
| PFloat (f : PyFloat)
| PStr (s : string)
| PList (l : list pyval)
| PDict (d : gmap string pyval)
| PFrame (df : DataFrame).

Abbreviation pydict := (gmap string pyval).

(** [bool(v)] *)
Definition truthy (v : pyval) : bool :=
  match v with
  | PNone => false
  | PBool b => b
  | PInt n => negb (n =? 0)
  | PFloat (FDec m _) => negb (m =? 0)
  | PFloat _ => true
  | PStr s => negb (String.eqb s "")
  | PList l => match l with [] => false | _ => true end
  | PDict d => negb (Nat.eqb (size d) 0)
  | PFrame _ => true
  end.

(** [v == s] for a string literal [s]: only a [str] equals a [str]. *)
Definition is_str (v : pyval) (s : string) : bool :=
  match v with PStr t => String.eqb t s | _ => false end.

(** [d.get(k, default)] *)
Definition dict_get (d : pydict) (k : string) (default : pyval) : pyval :=
  match d !! k with Some v => v | None => default end.

(** [d.setdefault(k, v)] (the statement form: the returned value is dropped) *)
Definition dict_setdefault (d : pydict) (k : string) (v : pyval) : pydict :=
  match d !! k with Some _ => d | None => <[k := v]> d end.

(** [k in d] *)
Definition dict_mem (d : pydict) (k : string) : bool :=
  match d !! k with Some _ => true | None => false end.

(** [type(v).__name__] *)
Definition py_type_name (v : pyval) : string :=
  match v with
  | PNone => "NoneType"
  | PBool _ => "bool"
  | PInt _ => "int"
  | PFloat _ => "float"
  | PStr _ => "str"
  | PList _ => "list"
  | PDict _ => "dict"
  | PFrame _ => "DataFrame"
  end.

(** The message of the [AttributeError] for a method that [v] lacks. *)
Definition no_attribute (v : pyval) (attr : string) : PyExc :=
  AttributeError ("'" +:+ py_type_name v +:+ "' object has no attribute '" +:+ attr +:+ "'").

(** The message of the [TypeError] for [v] used as the key of a dict. *)
Definition unhashable (v : pyval) : PyExc :=
  TypeError ("unhashable type: '" +:+ py_type_name v +:+ "'").

(** The four operations below act on what a decoded plan holds: [None],
    booleans, numbers, strings, lists and dicts. *)

(** [v.get(k, default)]: only a dict has [get]. *)
Definition py_get (v : pyval) (k : string) (default : pyval) : Outcome pyval :=
  match v with
  | PDict d => Ret (dict_get d k default)
  | _ => Raise (no_attribute v "get")
  end.

(** [v.setdefault(k, x)] *)
Definition py_setdefault (v : pyval) (k : string) (x : pyval) : Outcome pyval :=
  match v with
  | PDict d => Ret (PDict (dict_setdefault d k x))
  | _ => Raise (no_attribute v "setdefault")
  end.

(** [k in v] for a string literal [k]: a key of a dict, an element of a
    list, a substring of a string; the other values are not iterable. *)
Definition py_contains (k : string) (v : pyval) : Outcome bool :=
  match v with
  | PDict d => Ret (dict_mem d k)
  | PList l => Ret (existsb (fun x => is_str x k) l)
  | PStr s => Ret (PyStr.contains k s)
  | _ => Raise (TypeError ("argument of type '" +:+ py_type_name v +:+ "' is not iterable"))
  end.

(** [v[k] = x] for a string key [k]. *)
Definition py_setitem (v : pyval) (k : string) (x : pyval) : Outcome pyval :=
  match v with
  | PDict d => Ret (PDict (<[k := x]> d))
  | PList _ => Raise (TypeError "list indices must be integers or slices, not str")
  | _ => Raise (TypeError ("'" +:+ py_type_name v
                           +:+ "' object does not support item assignment"))
  end.

(** Passing [v] as keyword arguments of [callee]: what follows the double
    star must be a mapping. *)
Definition py_kwargs (callee : string) (v : pyval) : Outcome pydict :=
  match v with
  | PDict d => Ret d
  | _ => Raise (TypeError (callee +:+ "() argument after ** must be a mapping, not "
                           +:+ py_type_name v))
  end.

(* ===================================================================== *)
(** * Collaborators                                                       *)
(* ===================================================================== *)

(** What the core needs from outside the repository. [World] is the state
    of the language-model service, the database, the clock, the file system
    and the plotting backend. *)
Class Collaborators := {
  World : Type;
  (** [client.chat.completions.create(...)] for one user message; the
      content of the first choice. *)
  llm_chat : string -> SE World string;
  (** [datetime.now()], [strftime("%Y%m%d_%H%M%S")], [isoformat()] *)
  clock_now : World -> Z * World;
  strftime_compact : Z -> string;
  isoformat : Z -> string;
  (** [str.lower], [str.upper] (Unicode case tables) *)
  str_lower : string -> string;
  str_upper : string -> string;
  (** [repr] of the values whose [str] is not spelled out in [py_str] *)
  py_repr : pyval -> string;
  (** [DatabaseManager.get_table_info], [DatabaseManager.execute_sql_df] *)
  db_get_table_info : SE World string;
  db_execute_sql_df : pyval -> SE World DataFrame;
  (** pandas: [pd.to_numeric(.., errors="ignore")] followed by the
      more-than-half [pd.to_datetime] test, on one column *)
  pd_coerce_column : Series -> Series;
  (** matplotlib: [_create_chart] draws, saves and returns the path, or
      [None] when drawing failed *)
  plt_create_chart : DataFrame -> pyval -> pyval -> World -> option string * World;
  (** pandas aggregates and [to_markdown]: the bodies of [_summarise_data],
      [_descriptive], [_correlation], [_trend], [_top_n], [_comparison] *)
  pd_summarise_data : DataFrame -> Outcome string;
  pd_descriptive : DataFrame -> pyval -> Outcome pydict;
  pd_correlation : DataFrame -> pyval -> Outcome pydict;
  pd_trend : DataFrame -> pyval -> Outcome pydict;
  pd_top_n : DataFrame -> pyval -> Outcome pydict;
  pd_comparison : DataFrame -> pyval -> Outcome pydict
}.

(** [str(v)], as used by f-strings. *)
Definition py_str `{Collaborators} (v : pyval) : string :=
  match v with
  | PStr s => s
  | PNone => "None"
  | PBool true => "True"
  | PBool false => "False"
  | _ => py_repr v
  end.


(* ===================================================================== *)
(** * json.loads                                                          *)
(* ===================================================================== *)

(** The JSON documents that Python's [json.loads] accepts (RFC 8259 plus
    [NaN], [Infinity], [-Infinity]): first the grammar, [parse_value] and
    [loads], where [None] is a text that is no document; then the decoder
    of the interpreter, [scan_value] and [decode], which raises
    [json.JSONDecodeError] for such a text and, on its way through the
    text, [RecursionError] or [ValueError] where it meets a limit of the
    interpreter. *)
Module Json.

Definition is_ws (c : ascii) : bool :=
  let n := PyStr.code c in ((n =? 32) || (n =? 9) || (n =? 10) || (n =? 13))%N.

Fixpoint skip_ws (s : string) : string :=
  match s with
  | String c r => if is_ws c then skip_ws r else s
  | EmptyString => s
  end.

Definition all_ws (s : string) : bool :=
  match skip_ws s with EmptyString => true | String _ _ => false end.

Fixpoint rtrim (s : string) : string :=
  match s with
  | String a r => if all_ws s then EmptyString else String a (rtrim r)
  | EmptyString => EmptyString
  end.

Definition trim (s : string) : string := skip_ws (rtrim s).

Definition is_digit (c : ascii) : bool :=
  let n := PyStr.code c in ((48 <=? n) && (n <=? 57))%N.

Definition digit_val (c : ascii) : Z := Z.of_N (PyStr.code c) - 48.

Definition hex_val (c : ascii) : option N :=
  let n := PyStr.code c in
  if ((48 <=? n) && (n <=? 57))%N then Some (n - 48)%N
  else if ((65 <=? n) && (n <=? 70))%N then Some (n - 55)%N
  else if ((97 <=? n) && (n <=? 102))%N then Some (n - 87)%N
  else None.

Definition byte (n : N) : string := String (ascii_of_N n) EmptyString.

(** UTF-8 encoding of a code point (a lone surrogate is encoded like any
    other three-byte code point). *)
Definition utf8 (cp : N) : string :=
  (if cp <? 0x80 then byte cp
   else if cp <? 0x800 then byte (0xC0 + cp / 64) +:+ byte (0x80 + cp mod 64)
   else if cp <? 0x10000 then
     byte (0xE0 + cp / 4096) +:+ byte (0x80 + (cp / 64) mod 64)
     +:+ byte (0x80 + cp mod 64)
   else
     byte (0xF0 + cp / 262144) +:+ byte (0x80 + (cp / 4096) mod 64)
     +:+ byte (0x80 + (cp / 64) mod 64) +:+ byte (0x80 + cp mod 64))%N.

Definition is_high (cp : N) : bool := ((0xD800 <=? cp) && (cp <=? 0xDBFF))%N.
Definition is_low (cp : N) : bool := ((0xDC00 <=? cp) && (cp <=? 0xDFFF))%N.
Definition combine (hi lo : N) : N :=
  (0x10000 + (hi - 0xD800) * 0x400 + (lo - 0xDC00))%N.

Definition simple_escape (c : ascii) : option string :=
  let n := PyStr.code c in
  (if n =? 34 then Some (byte 34)          (* quote *)
   else if n =? 92 then Some (byte 92)     (* backslash *)
   else if n =? 47 then Some (byte 47)     (* slash *)
   else if n =? 98 then Some (byte 8)      (* b *)
   else if n =? 102 then Some (byte 12)    (* f *)
   else if n =? 110 then Some (byte 10)    (* n *)
   else if n =? 114 then Some (byte 13)    (* r *)
   else if n =? 116 then Some (byte 9)     (* t *)
   else None)%N.

Inductive sstate :=
| SNorm
| SEsc
| SUni (remaining : nat) (acc : N).

Definition flush (pend : option N) : string :=
  match pend with Some hi => utf8 hi | None => EmptyString end.

Definition prepend {A} (x : string) (o : option (string * A)) : option (string * A) :=
  match o with Some (t, rest) => Some (x +:+ t, rest) | None => None end.

(** The characters of a string literal after its opening quote; [pend] is a
    high surrogate that waits for its low half. *)
Fixpoint parse_string (st : sstate) (pend : option N) (s : string)
    : option (string * string) :=
  match s with
  | EmptyString => None
  | String c r =>
      match st with
      | SNorm =>
          if (PyStr.code c =? 34)%N then Some (flush pend, r)
          else if (PyStr.code c =? 92)%N then parse_string SEsc pend r
          else if (PyStr.code c <? 32)%N then None
          else prepend (flush pend +:+ String c EmptyString) (parse_string SNorm None r)
      | SEsc =>
          if (PyStr.code c =? 117)%N then parse_string (SUni 4 0) pend r
          else match simple_escape c with
               | Some x => prepend (flush pend +:+ x) (parse_string SNorm None r)
               | None => None
               end
      | SUni k acc =>
          match hex_val c with
          | None => None
          | Some h =>
              let v := (acc * 16 + h)%N in
              match k with
              | O => None
              | S O =>
                  match pend with
                  | Some hi =>
                      if is_low v then
                        prepend (utf8 (combine hi v)) (parse_string SNorm None r)
                      else if is_high v then
                        prepend (utf8 hi) (parse_string SNorm (Some v) r)
                      else prepend (utf8 hi +:+ utf8 v) (parse_string SNorm None r)
                  | None =>
                      if is_high v then parse_string SNorm (Some v) r
                      else prepend (utf8 v) (parse_string SNorm None r)
                  end
              | S k' => parse_string (SUni k' v) pend r
              end
          end
      end
  end.

(** The longest run of digits at the head of [s], its value, its length. *)
Fixpoint span_digits (acc : Z) (n : Z) (s : string) : Z * Z * string :=
  match s with
  | String c r =>
      if is_digit c then span_digits (acc * 10 + digit_val c) (n + 1) r
      else (acc, n, s)
  | EmptyString => (acc, n, s)
  end.

(** [(\.\d+)?] applied to the mantissa read so far *)
Definition parse_frac (m : Z) (s : string) : option (Z * Z) * string :=
  match s with
  | String c r =>
      if (PyStr.code c =? 46)%N then
        match span_digits m 0 r with
        | (m', n, r') => if n =? 0 then (None, s) else (Some (m', n), r')
        end
      else (None, s)
  | EmptyString => (None, s)
  end.

(** [([eE][-+]?\d+)?] *)
Definition parse_exp (s : string) : option Z * string :=
  match s with
  | String c r =>
      if ((PyStr.code c =? 101) || (PyStr.code c =? 69))%N then
        let '(neg, r1) :=
          match r with
          | String sg r0 =>
              if (PyStr.code sg =? 45)%N then (true, r0)
              else if (PyStr.code sg =? 43)%N then (false, r0)
              else (false, r)
          | EmptyString => (false, r)
          end in
        match span_digits 0 0 r1 with
        | (e, n, r') =>
            if n =? 0 then (None, s) else (Some (if neg then - e else e), r')
        end
      else (None, s)
  | EmptyString => (None, s)
  end.

(** The integer part ([0], or a digit 1-9 and more digits), then fraction
    and exponent; [neg] is the leading minus. *)
Definition parse_number (neg : bool) (s : string) : option (pyval * string) :=
  match s with
  | String c r =>
      if is_digit c then
        let '(m, _, r1) :=
          if (PyStr.code c =? 48)%N then (0, 1, r) else span_digits (digit_val c) 1 r in
        let sgn (z : Z) := if neg then - z else z in
        match parse_frac m r1 with
        | (Some (m', n), r2) =>
            match parse_exp r2 with
            | (Some e, r3) => Some (PFloat (FDec (sgn m') (e - n)), r3)
            | (None, r3) => Some (PFloat (FDec (sgn m') (- n)), r3)
            end
        | (None, r2) =>
            match parse_exp r2 with
            | (Some e, r3) => Some (PFloat (FDec (sgn m) e), r3)
            | (None, r3) => Some (PInt (sgn m), r3)
            end
        end
      else None
  | EmptyString => None
  end.

(** The constant [lit] at the head of [s]. *)
Definition literal (lit : string) (v : pyval) (s : string) : option (pyval * string) :=
  if PyStr.starts_with lit s then Some (v, PyStr.drop (String.length lit) s) else None.

Definition first_some {A} (a b : option A) : option A :=
  match a with Some _ => a | None => b end.

Definition parse_scalar (s : string) : option (pyval * string) :=
  match s with
  | String c r =>
      if (PyStr.code c =? 34)%N then
        match parse_string SNorm None r with
        | Some (t, rest) => Some (PStr t, rest)
        | None => None
        end
      else if (PyStr.code c =? 45)%N then
        first_some (literal "Infinity" (PFloat (FInf true)) r) (parse_number true r)
      else
        first_some (literal "null" PNone s)
        (first_some (literal "true" (PBool true) s)
        (first_some (literal "false" (PBool false) s)
        (first_some (literal "NaN" (PFloat FNaN) s)
        (first_some (literal "Infinity" (PFloat (FInf false)) s)
                    (parse_number false s)))))
  | EmptyString => None
  end.

Fixpoint parse_value (fuel : nat) (s : string) {struct fuel}
    : option (pyval * string) :=
  match fuel with
  | O => None
  | S f =>
      match s with
      | String c r =>
          if (PyStr.code c =? 91)%N then                    (* [ *)
            match skip_ws r with
            | String c1 r1 =>
                if (PyStr.code c1 =? 93)%N then Some (PList [], r1)
                else match parse_elems f (String c1 r1) with
                     | Some (vs, rest) => Some (PList vs, rest)
                     | None => None
                     end
            | EmptyString => None
            end
          else if (PyStr.code c =? 123)%N then              (* { *)
            match skip_ws r with
            | String c1 r1 =>
                if (PyStr.code c1 =? 125)%N then Some (PDict ∅, r1)
                else match parse_members f ∅ (String c1 r1) with
                     | Some (d, rest) => Some (PDict d, rest)
                     | None => None
                     end
            | EmptyString => None
            end
          else parse_scalar s
      | EmptyString => None
      end
  end
with parse_elems (fuel : nat) (s : string) {struct fuel}
    : option (list pyval * string) :=
  match fuel with
  | O => None
  | S f =>
      match parse_value f s with
      | Some (v, r) =>
          match skip_ws r with
          | String c r1 =>
              if (PyStr.code c =? 93)%N then Some ([v], r1)       (* ] *)
              else if (PyStr.code c =? 44)%N then                 (* , *)
                match parse_elems f (skip_ws r1) with
                | Some (vs, rest) => Some (v :: vs, rest)
                | None => None
                end
              else None
          | EmptyString => None
          end
      | None => None
      end
  end
with parse_members (fuel : nat) (acc : gmap string pyval) (s : string)
    {struct fuel} : option (gmap string pyval * string) :=
  match fuel with
  | O => None
  | S f =>
      match s with
      | String q r =>
          if (PyStr.code q =? 34)%N then
            match parse_string SNorm None r with
            | Some (k, r1) =>
                match skip_ws r1 with
                | String colon r2 =>
                    if (PyStr.code colon =? 58)%N then
                      match parse_value f (skip_ws r2) with
                      | Some (v, r3) =>
                          match skip_ws r3 with
                          | String c r4 =>
                              if (PyStr.code c =? 125)%N then     (* } *)
                                Some (<[k := v]> acc, r4)
                              else if (PyStr.code c =? 44)%N then
                                parse_members f (<[k := v]> acc) (skip_ws r4)
                              else None
                          | EmptyString => None
                          end
                      | None => None
                      end
                    else None
                | EmptyString => None
                end
            | None => None
            end
          else None
      | EmptyString => None
      end
  end.

(** Where a parsed value lies in the text: [rest] is what is left of [s]
    after some prefix; [s] ends, before [rest], with a solid character; an
    array starts with an opening and ends with a closing bracket. *)
Definition suffix_of (rest s : string) : Prop := exists body, s = body +:+ rest.

Definition tail_ok (s rest : string) : Prop :=
  exists c, PyStr.solid c = true /\ suffix_of (String c rest) s.

Definition not_list (v : pyval) : Prop := forall l, v <> PList l.

Definition value_span (s : string) (v : pyval) (rest : string) : Prop :=
  tail_ok s rest
  /\ forall l, v = PList l ->
       suffix_of (String "]" rest) s /\ exists r, s = String "[" r.

(** The documents: white space, one value, white space, end of input. *)
Definition loads (s : string) : option pyval :=
  let t := trim s in
  match parse_value (2 * String.length t + 2) t with
  | Some (v, EmptyString) => Some v
  | _ => None
  end.

(** ** The decoder of the interpreter *)

(** The two limits that the scanner of CPython meets:
    - [nesting]: how many arrays and objects may be open at once, which is
      what the recursion limit ([sys.getrecursionlimit()], 1000 unless
      changed) leaves at the call of [json.loads];
    - [max_str_digits]: the digits an integer literal may have
      ([sys.get_int_max_str_digits()], 4300 unless changed; 0 is no limit). *)
Record Limits := mkLimits {
  nesting : nat;
  max_str_digits : Z
}.

(** The outcome of a scan: a value and the rest of the text, a text that is
    no JSON ([json.JSONDecodeError]), or an exception of the interpreter. *)
Inductive Scan (A : Type) : Type :=
| Ok (x : A)
| Bad
| Stop (e : PyExc).
Arguments Ok {A} x.
Arguments Bad {A}.
Arguments Stop {A} e.

Definition of_option {A} (o : option A) : Scan A :=
  match o with Some x => Ok x | None => Bad end.

Definition too_deep (kind : string) : PyExc :=
  RecursionError ("maximum recursion depth exceeded while decoding a JSON "
                  +:+ kind +:+ " from a unicode string").

Definition too_many_digits (limit digits : Z) : PyExc :=
  ValueError ("Exceeds the limit (" +:+ pretty limit
              +:+ " digits) for integer string conversion: value has "
              +:+ pretty digits
              +:+ " digits; use sys.set_int_max_str_digits() to increase the limit").

Section Scanner.
Variable lim : Limits.

(** [int(literal)] for a literal of [digits] digits *)
Definition int_of_literal (digits : Z) (n : Z) : Outcome pyval :=
  if (0 <? max_str_digits lim) && (max_str_digits lim <? digits)
  then Raise (too_many_digits (max_str_digits lim) digits)
  else Ret (PInt n).

(** [parse_number], with the conversion of an integer literal. *)
Definition scan_number (neg : bool) (s : string) : Scan (pyval * string) :=
  match s with
  | String c r =>
      if is_digit c then
        let '(m, digits, r1) :=
          if (PyStr.code c =? 48)%N then (0, 1, r) else span_digits (digit_val c) 1 r in
        let sgn (z : Z) := if neg then - z else z in
        match parse_frac m r1 with
        | (Some (m', n), r2) =>
            match parse_exp r2 with
            | (Some e, r3) => Ok (PFloat (FDec (sgn m') (e - n)), r3)
            | (None, r3) => Ok (PFloat (FDec (sgn m') (- n)), r3)
            end
        | (None, r2) =>
            match parse_exp r2 with
            | (Some e, r3) => Ok (PFloat (FDec (sgn m) e), r3)
            | (None, r3) =>
                match int_of_literal digits (sgn m) with
                | Ret v => Ok (v, r3)
                | Raise e => Stop e
                end
            end
        end
      else Bad
  | EmptyString => Bad
  end.

Definition scan_scalar (s : string) : Scan (pyval * string) :=
  match s with
  | String c r =>
      if (PyStr.code c =? 34)%N then
        match parse_string SNorm None r with
        | Some (t, rest) => Ok (PStr t, rest)
        | None => Bad
        end
      else if (PyStr.code c =? 45)%N then
        match literal "Infinity" (PFloat (FInf true)) r with
        | Some x => Ok x
        | None => scan_number true r
        end
      else
        match first_some (literal "null" PNone s)
              (first_some (literal "true" (PBool true) s)
              (first_some (literal "false" (PBool false) s)
              (first_some (literal "NaN" (PFloat FNaN) s)
                          (literal "Infinity" (PFloat (FInf false)) s)))) with
        | Some x => Ok x
        | None => scan_number false s
        end
  | EmptyString => Bad
  end.

(** [depth] is the number of arrays and objects that may still be opened:
    the scanner enters a recursive call at every opening bracket, before it
    looks at what follows. *)
Fixpoint scan_value (fuel depth : nat) (s : string) {struct fuel}
    : Scan (pyval * string) :=
  match fuel with
  | O => Bad
  | S f =>
      match s with
      | String c r =>
          if (PyStr.code c =? 91)%N then                    (* [ *)
            match depth with
            | O => Stop (too_deep "array")
            | S d =>
                match skip_ws r with
                | String c1 r1 =>
                    if (PyStr.code c1 =? 93)%N then Ok (PList [], r1)
                    else match scan_elems f d (String c1 r1) with
                         | Ok (vs, rest) => Ok (PList vs, rest)
                         | Bad => Bad
                         | Stop e => Stop e
                         end
                | EmptyString => Bad
                end
            end
          else if (PyStr.code c =? 123)%N then              (* { *)
            match depth with
            | O => Stop (too_deep "object")
            | S d =>
                match skip_ws r with
                | String c1 r1 =>
                    if (PyStr.code c1 =? 125)%N then Ok (PDict ∅, r1)
                    else match scan_members f d ∅ (String c1 r1) with
                         | Ok (m, rest) => Ok (PDict m, rest)
                         | Bad => Bad
                         | Stop e => Stop e
                         end
                | EmptyString => Bad
                end
            end
          else scan_scalar s
      | EmptyString => Bad
      end
  end
with scan_elems (fuel depth : nat) (s : string) {struct fuel}
    : Scan (list pyval * string) :=
  match fuel with
  | O => Bad
  | S f =>
      match scan_value f depth s with
      | Ok (v, r) =>
          match skip_ws r with
          | String c r1 =>
              if (PyStr.code c =? 93)%N then Ok ([v], r1)         (* ] *)
              else if (PyStr.code c =? 44)%N then                 (* , *)
                match scan_elems f depth (skip_ws r1) with
                | Ok (vs, rest) => Ok (v :: vs, rest)
                | Bad => Bad
                | Stop e => Stop e
                end
              else Bad
          | EmptyString => Bad
          end
      | Bad => Bad
      | Stop e => Stop e
      end
  end
with scan_members (fuel depth : nat) (acc : gmap string pyval) (s : string)
    {struct fuel} : Scan (gmap string pyval * string) :=
  match fuel with
  | O => Bad
  | S f =>
      match s with
      | String q r =>
          if (PyStr.code q =? 34)%N then
            match parse_string SNorm None r with
            | Some (k, r1) =>
                match skip_ws r1 with
                | String colon r2 =>
                    if (PyStr.code colon =? 58)%N then
                      match scan_value f depth (skip_ws r2) with
                      | Ok (v, r3) =>
                          match skip_ws r3 with
                          | String c r4 =>
                              if (PyStr.code c =? 125)%N then     (* } *)
                                Ok (<[k := v]> acc, r4)
                              else if (PyStr.code c =? 44)%N then
                                scan_members f depth (<[k := v]> acc) (skip_ws r4)
                              else Bad
                          | EmptyString => Bad
                          end
                      | Bad => Bad
                      | Stop e => Stop e
                      end
                    else Bad
                | EmptyString => Bad
                end
            | None => Bad
            end
          else Bad
      | EmptyString => Bad
      end
  end.

(** [json.loads(s)]: the value of the document [s]; [JSONDecodeError] for a
    text that is no document; or the exception of the limit that the
    scanner meets before it has seen either.  The message of a
    [JSONDecodeError] names the cause and the position; it is not
    modelled beyond telling text after the document from every other
    cause, and the plan parser does not read it. *)
Definition decode (s : string) : Outcome pyval :=
  let t := trim s in
  match scan_value (2 * String.length t + 2) (nesting lim) t with
  | Ok (v, EmptyString) => Ret v
  | Ok (_, String _ _) => Raise (JSONDecodeError "Extra data")
  | Bad => Raise (JSONDecodeError "Expecting value")
  | Stop e => Raise e
  end.

End Scanner.

(** The limits of an interpreter that has changed neither; of the thousand
    frames, twenty are taken to be in use where the planner calls
    [json.loads]. *)
Definition default_limits : Limits := mkLimits 980 4300.

End Json.

(** What the plan parser relies on from [json.loads]: it returns a value
    or raises, [JSONDecodeError] or another exception; and four facts about
    the texts for which it returns. *)
Class JSONDecoder := {
  json_loads : string -> Outcome pyval;
  (** surrounding white space is not part of the document *)
  loads_strip : forall s v,
    json_loads s = Ret v -> json_loads (PyStr.strip s) = Ret v;
  (** an array document runs from its first ["["] to its last ["]"] *)
  loads_array_core : forall s l,
    json_loads s = Ret (PList l) ->
    exists core, PyStr.re_search_brackets s = Some core
                 /\ json_loads core = Ret (PList l);
  (** the empty text is not a document *)
  loads_empty : exists e,
    json_loads EmptyString = Raise e /\ is_JSONDecodeError e = true;
  (** a document that starts with ["["] is an array *)
  loads_bracket : forall s v,
    json_loads (String "["%char s) = Ret v -> exists l, v = PList l
}.

(** The pure fragment: [Outcome] as an exception monad. *)
Definition obind {A B} (o : Outcome A) (k : A -> Outcome B) : Outcome B :=
  match o with Ret a => k a | Raise e => Raise e end.

Definition otry {A} (o : Outcome A) (catches : PyExc -> bool)
    (h : PyExc -> Outcome A) : Outcome A :=
  match o with
  | Ret a => Ret a
  | Raise e => if catches e then h e else Raise e
  end.

Declare Scope outcome_scope.
Delimit Scope outcome_scope with out.
Notation "x <- m ;; k" := (obind m (fun x => k))
  (at level 100, m at next level, right associativity) : outcome_scope.

(** [l[start:]] for a Python integer [start] *)
Definition py_slice_from {A} (start : Z) (l : list A) : list A :=
  if start <? 0
  then drop (Z.to_nat (Z.max 0 (Z.of_nat (length l) + start))) l
  else drop (Z.to_nat start) l.

(* ===================================================================== *)
(** * core/dialogue_context.py                                            *)
(* ===================================================================== *)

Module DialogueContext.
Section WithCollaborators.
Context `{Collaborators}.

Record Message := mkMessage {
  role : string;
  content : string;
  timestamp : string;
  metadata : pydict
}.

Record t := mkContext {
  messages : list Message;
  max_history : Z;
  current_session_id : option string;
  session_start_time : option Z
}.

Definition default_max_history : Z := 50.

(** [DialogueContext(max_history)] *)
Definition __init__ (max_history : Z) : t :=
  mkContext [] max_history None None.

(** [start_new_session]; the session id it returns is the new
    [current_session_id]. *)
Definition start_new_session (self : t) (w : World) : t * World :=
  let '(t1, w1) := clock_now w in
  let '(t2, w2) := clock_now w1 in
  (mkContext [] (max_history self) (Some (strftime_compact t1)) (Some t2), w2).

(** [not self.current_session_id] *)
Definition no_session (self : t) : bool :=
  match current_session_id self with
  | None => true
  | Some id => String.eqb id ""
  end.

(** [metadata or {}] *)
Definition metadata_or_empty (metadata : option pydict) : pydict :=
  match metadata with Some d => d | None => ∅ end.

Definition add_message (self : t) (role content : string)
    (metadata : option pydict) (w : World) : t * World :=
  let '(self1, w1) :=
    if no_session self then start_new_session self w else (self, w) in
  let '(now, w2) := clock_now w1 in
  let message := mkMessage role content (isoformat now) (metadata_or_empty metadata) in
  let msgs := messages self1 ++ [message] in
  let msgs' :=
    if Z.of_nat (length msgs) >? max_history self1
    then py_slice_from (- max_history self1) msgs
    else msgs in
  (mkContext msgs' (max_history self1) (current_session_id self1)
             (session_start_time self1), w2).

(** [self.messages[-window_size:] if self.messages else []] *)
Definition get_context_window (self : t) (window_size : Z) : list Message :=
  match messages self with
  | [] => []
  | _ => py_slice_from (- window_size) (messages self)
  end.

Definition format_message (msg : Message) : string :=
  (if String.eqb (role msg) "user" then "用户" else "助手")
  +:+ ": " +:+ content msg.

Definition get_formatted_history (self : t) (window_size : Z) : string :=
  match get_context_window self window_size with
  | [] => "无历史对话"
  | recent => PyStr.join nl (map format_message recent)
  end.

Definition get_all_messages (self : t) : list Message := messages self.

Definition clear_context (self : t) : t :=
  mkContext [] (max_history self) None None.

End WithCollaborators.
End DialogueContext.

(* ===================================================================== *)
(** * core/llm_client.py                                                  *)
(* ===================================================================== *)

(** [BaseTool.get_description()]: the dict with the keys [name],
    [description], [parameters]. *)
Record ToolDescription := mkDescription {
  d_name : string;
  d_description : string;
  d_parameters : string
}.

Module LLMClient.
Section WithCollaborators.
Context `{Collaborators} `{JSONDecoder}.

(** [chat(messages)] with the single user message every caller passes;
    an exception of the client propagates. *)
Definition chat (prompt : string) : SE World string := llm_chat prompt.

(** [json.loads(text)] *)
Definition loads (text : string) : Outcome pyval := json_loads text.

Definition general_chat_plan (response : string) : pyval :=
  PList [PDict (<["tool" := PStr "general_chat"]>
               (<["args" := PDict (<["message" := PStr response]> ∅)]>
               (<["reason" := PStr "解析失败，作为普通对话处理"]> ∅)))].

(** The text handed to the first [json.loads]: what is left of the
    response after the two splits on the fence markers. *)
Definition unfence (response : string) : Outcome string :=
  (let text := PyStr.strip response in
   text <- (if PyStr.contains "```json" text
            then PyStr.split_after "```json" text
            else Ret text) ;;
   let text := if PyStr.contains "```" text
               then PyStr.split_before "```" text
               else text in
   Ret (PyStr.strip text))%out.

(** [unfence] without the guarded steps: both splits succeed whenever
    their [in] test does (lemma [unfence_total]). *)
Definition unfenced (response : string) : string :=
  let text := PyStr.strip response in
  let text := match PyStr.split_once "```json" text with
              | Some (_, b) => b
              | None => text
              end in
  PyStr.strip (PyStr.split_before "```" text).

(** A text wrapped the way the prompt of [plan_tools] shows it, and
    wrapped in a fence without the language tag. *)
Definition fence_json (s : string) : string :=
  "```json" +:+ nl +:+ s +:+ nl +:+ "```".

Definition fence_plain (s : string) : string :=
  "```" +:+ nl +:+ s +:+ nl +:+ "```".

(** The recovery inside [except json.JSONDecodeError]: the bracketed
    region, decoded; [None] when the inner [try] falls through. *)
Definition recover (response : string) : Outcome (option pyval) :=
  otry
    (match PyStr.re_search_brackets response with
     | Some m => (v <- loads m ;; Ret (Some v))%out
     | None => Ret None
     end)
    any_Exception
    (fun _ => Ret None).

Definition _parse_tool_plan (response : string) : Outcome pyval :=
  otry
    (text <- unfence response ;;
     plan <- loads text ;;
     match plan with
     | PList _ => Ret plan
     | _ => Ret (PList [plan])
     end)%out
    is_JSONDecodeError
    (fun _ =>
       (r <- recover response ;;
        match r with
        | Some plan => Ret plan
        | None => Ret (general_chat_plan response)
        end)%out).

Definition tool_line (t : ToolDescription) : string :=
  "- **" +:+ d_name t +:+ "**: " +:+ d_description t
  +:+ "  参数: " +:+ d_parameters t.

Definition or_none (s : string) : string :=
  if String.eqb s "" then "无" else s.

Definition plan_prompt (user_query : string) (tool_descriptions : list ToolDescription)
    (conversation_history data_schema : string) : string :=
  let tools_text := PyStr.join nl (map tool_line tool_descriptions) in
  "你是一位专业的数据分析Agent。根据用户的查询，你需要决定调用哪些工具来完成分析任务。

## 可用工具
" +:+ tools_text +:+ "

## 数据库表结构
" +:+ data_schema +:+ "

## 对话历史
" +:+ or_none conversation_history +:+ "

## 用户查询
" +:+ user_query +:+ "

## 要求
1. 分析用户的意图，选择合适的工具
2. 如果需要多个步骤，按顺序列出所有需要调用的工具
3. 对于每个工具调用，说明原因和参数
4. 如果是简单的问候/闲聊，返回空列表并在reason中说明
5. 尽量提供全面的分析，善用多个工具组合

请以**严格**的JSON格式返回，不要包含其他文字。格式如下：
```json
[
  {" +:+ dq +:+ "tool" +:+ dq +:+ ": " +:+ dq +:+ "工具名称" +:+ dq +:+ ", "
  +:+ dq +:+ "args" +:+ dq +:+ ": {" +:+ dq +:+ "参数名" +:+ dq +:+ ": "
  +:+ dq +:+ "参数值" +:+ dq +:+ "}, " +:+ dq +:+ "reason" +:+ dq +:+ ": "
  +:+ dq +:+ "调用原因" +:+ dq +:+ "}
]
```

如果是普通对话而非数据分析请求，返回：
```json
[{" +:+ dq +:+ "tool" +:+ dq +:+ ": " +:+ dq +:+ "general_chat" +:+ dq +:+ ", "
  +:+ dq +:+ "args" +:+ dq +:+ ": {" +:+ dq +:+ "message" +:+ dq +:+ ": "
  +:+ dq +:+ "用户消息" +:+ dq +:+ "}, " +:+ dq +:+ "reason" +:+ dq +:+ ": "
  +:+ dq +:+ "这是普通对话" +:+ dq +:+ "}]
```".

Definition plan_tools (user_query : string) (tool_descriptions : list ToolDescription)
    (conversation_history data_schema : string) : SE World pyval :=
  (response <- chat (plan_prompt user_query tool_descriptions
                       conversation_history data_schema) ;;
   lift_outcome (_parse_tool_plan response))%se.

(** One block of [results_text] in [summarise_results]; [i] counts from 1. *)
Definition result_block (i : nat) (r : pydict) : string :=
  nl +:+ "### 步骤 " +:+ pretty i +:+ ": " +:+ py_str (dict_get r "tool" (PStr "unknown"))
  +:+ " " +:+ nl
  +:+ "**原因**: " +:+ py_str (dict_get r "reason" (PStr "")) +:+ nl
  +:+ "**结果**: " +:+ py_str (dict_get r "result" (PStr "")) +:+ nl
  +:+ (if truthy (dict_get r "image_path" PNone)
       then "**图表**: 已生成图表 " +:+ py_str (dict_get r "image_path" PNone) +:+ nl
       else "").

Fixpoint results_text (i : nat) (tool_results : list pydict) : string :=
  match tool_results with
  | [] => ""
  | r :: rest => result_block i r +:+ results_text (S i) rest
  end.

Definition summarise_prompt (user_query : string) (tool_results : list pydict)
    (conversation_history : string) : string :=
  "你是欧莱雅集团的智能数据分析助手 BeautyInsight。
请基于以下分析结果，为用户生成一份专业、易懂的分析报告。

## 对话历史
" +:+ or_none conversation_history +:+ "

## 用户查询
" +:+ user_query +:+ "

## 分析步骤与结果
" +:+ results_text 1 tool_results +:+ "

## 要求
1. 用专业但易懂的中文回答
2. 突出关键数据洞察
3. 如果有多个分析步骤，综合所有结果给出完整报告
4. 如果有图表生成，提及图表的关键信息
5. 适当给出业务建议或进一步分析方向
6. 格式清晰，使用适当的标题和列表".

Definition summarise_results (user_query : string) (tool_results : list pydict)
    (conversation_history : string) : SE World string :=
  chat (summarise_prompt user_query tool_results conversation_history).

Definition general_chat_prompt (question : string) : string :=
  "你是欧莱雅集团的智能数据分析助手 BeautyInsight，专注于美妆行业数据分析。

专业领域：
- 精通欧莱雅集团的销售数据分析
- 帮助进行销量趋势、市场表现、品类分析等
- 擅长通过图表直观展示数据洞察

用户问题: " +:+ dq +:+ question +:+ dq +:+ "

要求：
- 用专业、友好的语言回答
- 如果用户询问功能，介绍数据分析和可视化能力并举例
- 适时建议可以进行的深入分析".

Definition general_chat (question : string) : SE World string :=
  chat (general_chat_prompt question).

End WithCollaborators.
End LLMClient.

(* ===================================================================== *)
(** * tools/base_tool.py                                                  *)
(* ===================================================================== *)

(** Binding keyword arguments [**kwargs] to a function whose named
    parameters are [params]: a key that names a parameter already bound
    positionally is a [TypeError] at the call, before the body runs. *)
Definition bind_kwargs (fname : string) (params : list string) (kwargs : pydict)
    : Outcome pydict :=
  match List.find (dict_mem kwargs) params with
  | None => Ret kwargs
  | Some p =>
      Raise (TypeError (fname +:+ "() got multiple values for argument '" +:+ p +:+ "'"))
  end.

Module BaseTool.
Section WithCollaborators.
Context `{Collaborators}.

(** A concrete tool: the class attributes and the body of its
    [execute(self, **kwargs)]. *)
Record t := mkTool {
  name : string;
  description : string;
  parameters_description : string;
  execute_body : pydict -> SE World pydict
}.

(** The call of [self.execute] with the keyword arguments [kwargs]. *)
Definition execute (self : t) (kwargs : pydict) : SE World pydict :=
  (kw <- lift_outcome (bind_kwargs "execute" ["self"] kwargs) ;;
   execute_body self kw)%se.

Definition get_description (self : t) : ToolDescription :=
  mkDescription (name self) (description self) (parameters_description self).

Definition failure (msg : string) : pydict :=
  <["success" := PBool false]> (<["result" := PStr msg]> ∅).

(** A result in the shape the docstring of [execute] asks for: a boolean
    under [success], a text under [result]. *)
Definition well_formed (d : pydict) : Prop :=
  (exists b, d !! "success" = Some (PBool b)) /\ (exists text, d !! "result" = Some (PStr text)).

(** A result that reports failure and carries no artifact path. *)
Definition refused (d : pydict) : Prop :=
  d !! "success" = Some (PBool false)
  /\ (exists text, d !! "result" = Some (PStr text))
  /\ d !! "image_path" = None.

(** The body of [safe_execute(self, **kwargs)]. *)
Definition safe_execute_body (self : t) (kwargs : pydict) : SE World pydict :=
  try_except
    (execute self kwargs)
    any_Exception
    (fun e => ret (failure ("工具 " +:+ name self +:+ " 执行失败: " +:+ exc_msg e))).

(** The call of [tool.safe_execute] with the keyword arguments [kwargs]. *)
Definition safe_execute (self : t) (kwargs : pydict) : SE World pydict :=
  (kw <- lift_outcome (bind_kwargs "BaseTool.safe_execute" ["self"] kwargs) ;;
   safe_execute_body self kw)%se.

End WithCollaborators.
End BaseTool.

(* ===================================================================== *)
(** * agent/tool_registry.py                                              *)
(* ===================================================================== *)

Module ToolRegistry.
Section WithCollaborators.
Context `{Collaborators}.

Record t := mkRegistry { _tools : gmap string BaseTool.t }.

Definition __init__ : t := mkRegistry ∅.

Definition register (self : t) (tool : BaseTool.t) : t :=
  mkRegistry (<[BaseTool.name tool := tool]> (_tools self)).

(** [self._tools.get(name)]: a list, a dict or a frame is not hashable;
    any other key that is not a string is absent. *)
Definition get (self : t) (name : pyval) : Outcome (option BaseTool.t) :=
  match name with
  | PStr s => Ret (_tools self !! s)
  | PList _ | PDict _ | PFrame _ => Raise (unhashable name)
  | _ => Ret None
  end.

(** [list(self._tools.values())]: the registered tools, listed in the
    order of the map and not in the order of registration that a Python
    dict keeps. *)
Definition list_tools (self : t) : list BaseTool.t :=
  (map_to_list (_tools self)).*2.

Definition get_descriptions (self : t) : list ToolDescription :=
  map BaseTool.get_description (list_tools self).

(** The body of [execute(self, name, **kwargs)]. *)
Definition execute_body (self : t) (name : pyval) (kwargs : pydict)
    : SE World pydict :=
  (tool <- lift_outcome (get self name) ;;
   match tool with
   | None => ret (BaseTool.failure ("未找到工具: " +:+ py_str name))
   | Some tool => BaseTool.safe_execute tool kwargs
   end)%se.

(** The call of [registry.execute] with [name] and the keyword arguments
    [kwargs]. *)
Definition execute (self : t) (name : pyval) (kwargs : pydict) : SE World pydict :=
  (kw <- lift_outcome (bind_kwargs "ToolRegistry.execute" ["self"; "name"] kwargs) ;;
   execute_body self name kw)%se.

End WithCollaborators.
End ToolRegistry.

(* ===================================================================== *)
(** * tools/data_visualization.py                                         *)
(* ===================================================================== *)

(** [_extract_sql], the same static method in both tools. The slice
    [text[idx:]] counts code points of [text], the index [idx] those of
    [text.upper()]. *)
Definition extract_sql `{Collaborators} (text : string) : option string :=
  let text := PyStr.strip text in
  let text :=
    match PyStr.split_once "```sql" text with
    | Some (_, b) => PyStr.strip (PyStr.split_before "```" b)
    | None =>
        match PyStr.split_once "```" text with
        | Some (_, b) => PyStr.strip (PyStr.split_before "```" b)
        | None => text
        end
    end in
  match PyStr.cp_find "SELECT" (str_upper text) with
  | Some idx => Some (PyStr.strip (PyStr.rstrip_char ";" (PyStr.cp_drop idx text)))
  | None => None
  end.

(** [not sql] for an [Optional[str]] *)
Definition no_sql (sql : option string) : bool :=
  match sql with Some s => String.eqb s "" | None => true end.

Definition opt_str (sql : option string) : pyval :=
  match sql with Some s => PStr s | None => PNone end.

(** [v.lower()] *)
Definition py_lower `{Collaborators} (v : pyval) : Outcome string :=
  match v with
  | PStr s => Ret (str_lower s)
  | _ => Raise (no_attribute v "lower")
  end.

(** [v[:n]] *)
Definition py_prefix (n : nat) (v : pyval) : Outcome pyval :=
  match v with
  | PStr s => Ret (PStr (PyStr.cp_take n s))
  | PList l => Ret (PList (take n l))
  | _ => Raise (TypeError ("'" +:+ py_type_name v +:+ "' object is not subscriptable"))
  end.

Module DataVisualizationTool.
Section WithCollaborators.
Context `{Collaborators}.

Definition name : string := "data_visualization".

Definition description : string :=
  "根据数据生成可视化图表，支持折线图、柱状图、饼图、散点图、直方图、热力图等。"
  +:+ "可以接受自然语言描述自动选择图表类型，也可以直接传入数据。".

Definition parameters_description : string :=
  "{" +:+ dq +:+ "question" +:+ dq +:+ ": " +:+ dq +:+ "可视化描述" +:+ dq +:+ ", "
  +:+ dq +:+ "chart_type" +:+ dq +:+ ": " +:+ dq
  +:+ "(可选)line/bar/pie/scatter/histogram/heatmap" +:+ dq +:+ ", "
  +:+ dq +:+ "sql" +:+ dq +:+ ": " +:+ dq +:+ "(可选)直接提供SQL" +:+ dq +:+ ", "
  +:+ dq +:+ "title" +:+ dq +:+ ": " +:+ dq +:+ "(可选)图表标题" +:+ dq +:+ "}".

Definition _extract_sql (text : string) : option string := extract_sql text.

Definition viz_sql_prompt (schema question : string) : string :=
  "你是一位SQL专家。请为以下可视化需求生成SQL查询。

数据库表结构:
" +:+ schema +:+ "

可视化需求: " +:+ question +:+ "

要求:
1. SQL结果的第一列应为X轴（通常是时间或分类字段）
2. 其余列为Y轴数值
3. 按X轴排序
4. 只返回SQL语句，不要其他内容
5. 使用聚合函数时注意GROUP BY".

Definition _generate_viz_sql (question : pyval) : SE World (option string) :=
  (schema <- db_get_table_info ;;
   response <- llm_chat (viz_sql_prompt schema (py_str question)) ;;
   ret (_extract_sql response))%se.

(** The column loop of [_execute_sql_to_df] assigns each coerced column
    back under its label; the index stays. *)
Definition coerce_columns (df : DataFrame) : DataFrame :=
  mkFrame (df_index df) (map pd_coerce_column (df_columns df)).

Definition _execute_sql_to_df (sql : pyval) : SE World (option DataFrame) :=
  try_except
    (df <- db_execute_sql_df sql ;; ret (Some (coerce_columns df)))%se
    any_Exception
    (fun _ => ret None).

Definition keyword_map : list (string * list string) :=
  [ ("pie", ["饼图"; "占比"; "比例"; "构成"; "pie"]);
    ("scatter", ["散点"; "相关性"; "scatter"; "关系"]);
    ("histogram", ["直方图"; "分布"; "频率"; "histogram"]);
    ("heatmap", ["热力图"; "heatmap"; "相关矩阵"]);
    ("line", ["趋势"; "变化"; "走势"; "trend"; "折线"; "line"]);
    ("bar", ["柱状"; "对比"; "排名"; "bar"; "top"]) ].

(** The two nested [for] loops: the first chart type, in the order of
    the map, one of whose keywords occurs in [q]. *)
Fixpoint first_keyword (q : string) (m : list (string * list string)) : option string :=
  match m with
  | [] => None
  | (ctype, keywords) :: rest =>
      if existsb (fun kw => PyStr.contains kw q) keywords then Some ctype
      else first_keyword q rest
  end.

(** No keyword of the map occurs in [q]; as a proposition and as a test. *)
Definition no_chart_keyword (q : string) : Prop :=
  forall ctype keywords kw,
    (ctype, keywords) ∈ keyword_map -> kw ∈ keywords -> PyStr.contains kw q = false.

Definition no_chart_keywordb (q : string) : bool :=
  forallb (fun m => forallb (fun kw => negb (PyStr.contains kw q)) m.2) keyword_map.

Definition _infer_chart_type (df : DataFrame) (question : pyval) : Outcome string :=
  (q <- py_lower question ;;
   match first_keyword q keyword_map with
   | Some ctype => Ret ctype
   | None =>
       match df_columns df with
       | [] => Raise (IndexError "index 0 is out of bounds for axis 0 with size 0")
       | x_col :: _ =>
           if is_datetime64_any_dtype x_col then Ret "line"
           else if (df_len df <=? 15)%nat then Ret "bar"
           else Ret "bar"
       end
   end)%out.

(** [mapping.get(chart_type, "图表")] *)
Definition _chart_type_cn (chart_type : pyval) : Outcome string :=
  match chart_type with
  | PStr s =>
      Ret (if String.eqb s "line" then "折线图"
           else if String.eqb s "bar" then "柱状图"
           else if String.eqb s "pie" then "饼图"
           else if String.eqb s "scatter" then "散点图"
           else if String.eqb s "histogram" then "直方图"
           else if String.eqb s "heatmap" then "热力图"
           else "图表")
  | PList _ | PDict _ | PFrame _ => Raise (unhashable chart_type)
  | _ => Ret "图表"
  end.

Definition _generate_title (question chart_type : pyval) : Outcome pyval :=
  if truthy question then py_prefix 50 question
  else (cn <- _chart_type_cn chart_type ;; Ret (PStr ("数据" +:+ cn)))%out.

Definition sql_data (sql : pyval) : pyval := PDict (<["sql" := sql]> ∅).

Definition no_data (sql : pyval) : pydict :=
  <["data" := sql_data sql]> (BaseTool.failure "查询未返回数据，无法生成可视化").

(** [execute] from the test [if df is None or df.empty] on. *)
Definition render (kwargs : pydict) (question sql : pyval) (df : option DataFrame)
    : SE World pydict :=
  match df with
  | None => ret (no_data sql)
  | Some df =>
      if df_empty df then ret (no_data sql)
      else
        (let chart_type := dict_get kwargs "chart_type" PNone in
         let title := dict_get kwargs "title" (PStr "") in
         chart_type <- (if truthy chart_type then ret chart_type
                        else (c <- lift_outcome (_infer_chart_type df question) ;;
                              ret (PStr c))) ;;
         title <- (if truthy title then ret title
                   else lift_outcome (_generate_title question chart_type)) ;;
         img_path <- (fun w => let '(p, w') := plt_create_chart df chart_type title w in
                               (Ret p, w')) ;;
         match img_path with
         | None => ret (<["data" := sql_data sql]> (BaseTool.failure "图表生成失败"))
         | Some path =>
             if String.eqb path ""
             then ret (<["data" := sql_data sql]> (BaseTool.failure "图表生成失败"))
             else
               (summary <- lift_outcome (pd_summarise_data df) ;;
                cn <- lift_outcome (_chart_type_cn chart_type) ;;
                ret (<["success" := PBool true]>
                     (<["result" := PStr ("已生成" +:+ cn +:+ "。" +:+ nl +:+ summary)]>
                     (<["image_path" := PStr path]>
                     (<["data" := PDict (<["sql" := sql]>
                                       (<["chart_type" := chart_type]>
                                       (<["rows" := PInt (Z.of_nat (df_len df))]> ∅)))]>
                     (<["dataframe" := PFrame df]> ∅))))))
         end)%se
  end.

Definition execute (kwargs : pydict) : SE World pydict :=
  (let question := dict_get kwargs "question" (PStr "") in
   let sql := dict_get kwargs "sql" PNone in
   if truthy sql then
     (df <- _execute_sql_to_df sql ;; render kwargs question sql df)
   else if truthy question then
     (sql <- _generate_viz_sql question ;;
      if no_sql sql then ret (BaseTool.failure "无法为该问题生成可视化SQL")
      else (df <- _execute_sql_to_df (opt_str sql) ;;
            render kwargs question (opt_str sql) df))
   else ret (BaseTool.failure "请提供可视化描述或SQL"))%se.

Definition tool : BaseTool.t :=
  BaseTool.mkTool name description parameters_description execute.

End WithCollaborators.
End DataVisualizationTool.

(* ===================================================================== *)
(** * tools/statistical_analysis.py                                       *)
(* ===================================================================== *)

Module StatisticalAnalysisTool.
Section WithCollaborators.
Context `{Collaborators}.

Definition name : string := "statistical_analysis".

Definition description : string :=
  "对数据进行统计分析，包括描述性统计、分组统计、相关性分析、趋势分析等。"
  +:+ "适用于需要深入统计信息的场景。".

Definition parameters_description : string :=
  "{" +:+ dq +:+ "question" +:+ dq +:+ ": " +:+ dq +:+ "分析需求描述" +:+ dq +:+ ", "
  +:+ dq +:+ "analysis_type" +:+ dq +:+ ": " +:+ dq
  +:+ "descriptive/group_by/correlation/trend/top_n/comparison" +:+ dq +:+ ", "
  +:+ dq +:+ "sql" +:+ dq +:+ ": " +:+ dq +:+ "(可选)直接提供SQL" +:+ dq +:+ "}".

Definition _extract_sql (text : string) : option string := extract_sql text.

Definition analysis_sql_prompt (schema question analysis_type : string) : string :=
  "你是SQL专家。为以下统计分析需求生成SQL。

表结构:
" +:+ schema +:+ "

分析需求: " +:+ question +:+ "
分析类型: " +:+ analysis_type +:+ "

只返回SQL，不要其他说明。".

Definition _generate_analysis_sql (question analysis_type : pyval)
    : SE World (option string) :=
  (schema <- db_get_table_info ;;
   response <- llm_chat (analysis_sql_prompt schema (py_str question)
                           (py_str analysis_type)) ;;
   ret (_extract_sql response))%se.

Definition _safe_query (sql : pyval) : SE World (option DataFrame) :=
  try_except
    (df <- db_execute_sql_df sql ;; ret (Some df))%se
    any_Exception
    (fun _ => ret None).

(** [execute] from the test [if df.empty] on. *)
Definition analyse (analysis_type question : pyval) (df : DataFrame)
    : SE World pydict :=
  if df_empty df then ret (BaseTool.failure "查询结果为空")
  else if is_str analysis_type "descriptive" then lift_outcome (pd_descriptive df question)
  else if is_str analysis_type "correlation" then lift_outcome (pd_correlation df question)
  else if is_str analysis_type "trend" then lift_outcome (pd_trend df question)
  else if is_str analysis_type "top_n" then lift_outcome (pd_top_n df question)
  else if is_str analysis_type "comparison" then lift_outcome (pd_comparison df question)
  else lift_outcome (pd_descriptive df question).

Definition execute (kwargs : pydict) : SE World pydict :=
  (let question := dict_get kwargs "question" (PStr "") in
   let analysis_type := dict_get kwargs "analysis_type" (PStr "descriptive") in
   let sql := dict_get kwargs "sql" PNone in
   if truthy sql then
     (df <- db_execute_sql_df sql ;; analyse analysis_type question df)
   else if truthy question then
     (sql <- _generate_analysis_sql question analysis_type ;;
      if no_sql sql then ret (BaseTool.failure "无法生成分析SQL")
      else
        (df <- _safe_query (opt_str sql) ;;
         match df with
         | None => ret (BaseTool.failure ("SQL执行失败: " +:+ py_str (opt_str sql)))
         | Some df => analyse analysis_type question df
         end))
   else ret (BaseTool.failure "请提供分析需求"))%se.

Definition tool : BaseTool.t :=
  BaseTool.mkTool name description parameters_description execute.

End WithCollaborators.
End StatisticalAnalysisTool.

(* ===================================================================== *)
(** * agent/data_agent.py                                                 *)
(* ===================================================================== *)

Module DataAnalysisAgent.
Section WithCollaborators.
Context `{Collaborators} `{JSONDecoder}.

Definition MAX_STEPS : nat := 8.

(** The attributes that [__init__] fixes: the registry and the schema
    text. The database and the model client live in the [World]. *)
Record t := mkAgent {
  registry : ToolRegistry.t;
  _data_schema : string
}.

(** What a query can change: the collaborators, the conversation, and the
    record of the calls to [registry.execute] (tool name and keyword
    arguments, oldest first). *)
Record State := mkState {
  world : World;
  context : DialogueContext.t;
  calls : list (pyval * pydict)
}.

Record QueryResult := mkResult {
  response : string;
  tool_results : list pydict;
  images : list pyval
}.

(** [_register_tools]; the tools this development does not spell out are
    arguments. *)
Definition _register_tools (data_inspector sql_query data_profiling report_generator
    : BaseTool.t) : ToolRegistry.t :=
  ToolRegistry.register
    (ToolRegistry.register
      (ToolRegistry.register
        (ToolRegistry.register
          (ToolRegistry.register
            (ToolRegistry.register ToolRegistry.__init__ data_inspector)
            sql_query)
          DataVisualizationTool.tool)
        StatisticalAnalysisTool.tool)
      data_profiling)
    report_generator.

Definition lift_world {A} (m : SE World A) : SE State A :=
  fun st => let '(o, w) := m (world st) in
            (o, mkState w (context st) (calls st)).

Definition context_add_message (role content : string)
    (metadata : option pydict) : SE State unit :=
  fun st =>
    let '(c, w) := DialogueContext.add_message (context st) role content metadata (world st) in
    (Ret tt, mkState w c (calls st)).

Definition context_history : SE State string :=
  fun st => (Ret (DialogueContext.get_formatted_history (context st) 10), st).

(** [self.registry.execute(tool_name, **args)], recorded. *)
Definition registry_execute (self : t) (tool_name : pyval) (kwargs : pydict)
    : SE State pydict :=
  ((fun st => (Ret tt, mkState (world st) (context st) (calls st ++ [(tool_name, kwargs)])))
   ;;; lift_world (ToolRegistry.execute (registry self) tool_name kwargs))%se.

(** The variables of the loop. *)
Record Loop := mkLoop {
  l_tool_results : list pydict;
  l_images : list pyval;
  l_accumulated_context : string
}.

Definition digest_entry (tool_name reason result_text : pyval) : string :=
  nl +:+ nl +:+ "### " +:+ py_str tool_name +:+ " (" +:+ py_str reason +:+ ")"
  +:+ nl +:+ py_str result_text.

(** The digest entry of a decorated result, and the digest of the results
    so far: what [accumulated_context] holds (lemma [run_steps_effect]). *)
Definition result_entry (r : pydict) : string :=
  digest_entry (dict_get r "tool" PNone) (dict_get r "reason" PNone)
               (dict_get r "result" (PStr "")).

Fixpoint digest (results : list pydict) : string :=
  match results with
  | [] => ""
  | r :: rest => result_entry r +:+ digest rest
  end.

(** The tool a step makes the loop call, if any: a [general_chat] step is
    skipped, a step that is not an object has no [get]. *)
Definition call_name (step : pyval) : option pyval :=
  match step with
  | PDict d =>
      let tool_name := dict_get d "tool" (PStr "") in
      if is_str tool_name "general_chat" then None else Some tool_name
  | _ => None
  end.

(** The statements of the loop body between the [continue] and the call:
    the defaults for the report generator, the default [context], and the
    mapping handed over as keyword arguments. *)
Definition prepare_kwargs (user_query history : string) (tool_name args : pyval)
    (accumulated_context : string) : Outcome pydict :=
  (args <- (if is_str tool_name "report_generator"
               && negb (String.eqb accumulated_context "")
            then (a <- py_setdefault args "analysis_results" (PStr accumulated_context) ;;
                  py_setdefault a "question" (PStr user_query))
            else Ret args) ;;
   has_context <- py_contains "context" args ;;
   args <- (if negb has_context
            then py_setitem args "context" (PStr history)
            else Ret args) ;;
   py_kwargs "agent.tool_registry.ToolRegistry.execute" args)%out.

(** The statements after the call: the decorated result joins the results,
    its artifact the images, its text the accumulated context. *)
Definition record_result (tool_name reason : pyval) (result : pydict) (l : Loop) : Loop :=
  let result := <["reason" := reason]> (<["tool" := tool_name]> result) in
  let image_path := dict_get result "image_path" PNone in
  let result_text := dict_get result "result" (PStr "") in
  mkLoop (l_tool_results l ++ [result])
         (if truthy image_path then l_images l ++ [image_path] else l_images l)
         (l_accumulated_context l +:+ digest_entry tool_name reason result_text).

(** One iteration of [for i, step in enumerate(plan[:MAX_STEPS])]. *)
Definition run_step (self : t) (user_query history : string) (step : pyval)
    (l : Loop) : SE State Loop :=
  (tool_name <- lift_outcome (py_get step "tool" (PStr "")) ;;
   args <- lift_outcome (py_get step "args" (PDict ∅)) ;;
   reason <- lift_outcome (py_get step "reason" (PStr "")) ;;
   if is_str tool_name "general_chat" then ret l
   else
     (kwargs <- lift_outcome (prepare_kwargs user_query history tool_name args
                                (l_accumulated_context l)) ;;
      result <- registry_execute self tool_name kwargs ;;
      ret (record_result tool_name reason result l)))%se.

Fixpoint run_steps (self : t) (user_query history : string) (steps : list pyval)
    (l : Loop) : SE State Loop :=
  match steps with
  | [] => ret l
  | step :: rest =>
      (l' <- run_step self user_query history step l ;;
       run_steps self user_query history rest l')%se
  end.

(** [len(plan) == 1 and plan[0].get("tool") == "general_chat"] *)
Definition is_general_chat (plan : list pyval) : Outcome bool :=
  match plan with
  | [step] => (tool <- py_get step "tool" PNone ;; Ret (is_str tool "general_chat"))%out
  | _ => Ret false
  end.

(** The plan as the list that [_parse_tool_plan] always returns. *)
Definition plan_steps (plan : pyval) : Outcome (list pyval) :=
  match plan with
  | PList steps => Ret steps
  | _ => Raise (TypeError "plan is not a list")
  end.

Definition analysis_metadata (tool_results : list pydict) (images : list pyval) : pydict :=
  <["type" := PStr "analysis"]>
  (<["tools_used" := PList (map (fun r => dict_get r "tool" PNone) tool_results)]>
  (<["images" := PList images]> ∅)).

(** How a completed run of steps changed the loop variables: results were
    added, one for each call in [new], and their digest joined the
    accumulated context. *)
Definition extends (l l' : Loop) (new : list (pyval * pydict)) : Prop :=
  exists added,
    l_tool_results l' = l_tool_results l ++ added
    /\ length added = length new
    /\ l_accumulated_context l' = l_accumulated_context l +:+ digest added.

(** The answer after the loop: [summarise_results] when a step ran, else
    [general_chat]. *)
Definition final_response (user_query history : string) (l : Loop) : SE State string :=
  match l_tool_results l with
  | [] => lift_world (LLMClient.general_chat user_query)
  | _ => lift_world (LLMClient.summarise_results user_query (l_tool_results l) history)
  end.

(** [process_query] after the plan is known. *)
Definition execute_plan (self : t) (user_query history : string) (plan : list pyval)
    : SE State QueryResult :=
  (general <- lift_outcome (is_general_chat plan) ;;
   if (general : bool) then
     (answer <- lift_world (LLMClient.general_chat user_query) ;;
      context_add_message "assistant" answer (Some (<["type" := PStr "general"]> ∅)) ;;;
      ret (mkResult answer [] []))
   else
     (l <- run_steps self user_query history (take MAX_STEPS plan) (mkLoop [] [] "") ;;
      answer <- final_response user_query history l ;;
      context_add_message "assistant" answer
        (Some (analysis_metadata (l_tool_results l) (l_images l))) ;;;
      ret (mkResult answer (l_tool_results l) (l_images l))))%se.

(** The first statements of [process_query]: the user turn, the history
    text, the plan. *)
Definition plan_query (self : t) (user_query : string) : SE State (string * list pyval) :=
  (context_add_message "user" user_query None ;;;
   history <- context_history ;;
   plan <- lift_world (LLMClient.plan_tools user_query
                         (ToolRegistry.get_descriptions (registry self))
                         history (_data_schema self)) ;;
   steps <- lift_outcome (plan_steps plan) ;;
   ret (history, steps))%se.

Definition process_query (self : t) (user_query : string) : SE State QueryResult :=
  (hp <- plan_query self user_query ;;
   execute_plan self user_query (fst hp) (snd hp))%se.

Definition clear_context : SE State unit :=
  fun st => (Ret tt, mkState (world st) (DialogueContext.clear_context (context st)) (calls st)).

Definition get_available_tools (self : t) : list ToolDescription :=
  ToolRegistry.get_descriptions (registry self).

End WithCollaborators.
End DataAnalysisAgent.

(* ===================================================================== *)
(** * A closed world for the examples                                     *)
(* ===================================================================== *)

(** The model replies with the queued texts, in order, and fails once the
    queue is empty; the clock ticks; the database knows three queries. *)
Module Demo.

Record world := mkWorld {
  replies : list string;
  ticks : Z
}.

Definition lower_char (c : ascii) : ascii :=
  let n := PyStr.code c in
  if ((65 <=? n) && (n <=? 90))%N then ascii_of_N (n + 32) else c.

Definition upper_char (c : ascii) : ascii :=
  let n := PyStr.code c in
  if ((97 <=? n) && (n <=? 122))%N then ascii_of_N (n - 32) else c.

Fixpoint map_chars (f : ascii -> ascii) (s : string) : string :=
  match s with
  | String c r => String (f c) (map_chars f r)
  | EmptyString => EmptyString
  end.

Definition orders_frame : DataFrame :=
  mkFrame 2 [ mkSeries "region" DtObject [CText "north"; CText "south"];
              mkSeries "amount" DtInt64 [CInt 10; CInt 32] ].

Definition no_rows_frame : DataFrame :=
  mkFrame 0 [ mkSeries "region" DtObject []; mkSeries "amount" DtInt64 [] ].

Definition run_sql (sql : pyval) : SE world DataFrame :=
  fun w =>
    if is_str sql "SELECT region, amount FROM orders" then (Ret orders_frame, w)
    else if is_str sql "SELECT region, amount FROM orders WHERE 1 = 0"
    then (Ret no_rows_frame, w)
    else (Raise (mkExc "DatabaseError" "Execution failed on sql"), w).

Definition text_result (text : string) (df : DataFrame) : pydict :=
  <["success" := PBool true]> (<["result" := PStr text]> (<["dataframe" := PFrame df]> ∅)).

#[export] Instance collaborators : Collaborators := {|
  World := world;
  llm_chat := fun _ w =>
    match replies w with
    | r :: rest => (Ret r, mkWorld rest (ticks w))
    | [] => (Raise (mkExc "APIConnectionError" "Connection error."), w)
    end;
  clock_now := fun w => (ticks w, mkWorld (replies w) (ticks w + 1));
  strftime_compact := fun z => "20260101_" +:+ pretty z;
  isoformat := fun z => "2026-01-01T00:00:" +:+ pretty z;
  str_lower := map_chars lower_char;
  str_upper := map_chars upper_char;
  py_repr := fun v => match v with PInt z => pretty z | _ => "<object>" end;
  db_get_table_info := fun w => (Ret "CREATE TABLE orders (region TEXT, amount INTEGER)", w);
  db_execute_sql_df := run_sql;
  pd_coerce_column := fun s => s;
  plt_create_chart := fun _ _ _ w => (Some "viz_images/viz_bar_20260101_000000.png", w);
  pd_summarise_data := fun df => Ret ("rows: " +:+ pretty (df_len df));
  pd_descriptive := fun df _ => Ret (text_result "descriptive" df);
  pd_correlation := fun df _ => Ret (text_result "correlation" df);
  pd_trend := fun df _ => Ret (text_result "trend" df);
  pd_top_n := fun df _ => Ret (text_result "top_n" df);
  pd_comparison := fun df _ => Ret (text_result "comparison" df)
|}.

(** A tool that fails inside [execute]. *)
Definition failing_tool : BaseTool.t :=
  BaseTool.mkTool "data_inspector" "inspect" "{}"
    (fun _ => raise (mkExc "OperationalError" "no such table: orders")).

(** A tool that reports what it was given as [analysis_results]. *)
Definition report_tool : BaseTool.t :=
  BaseTool.mkTool "report_generator" "report" "{}"
    (fun kwargs =>
       if truthy (dict_get kwargs "analysis_results" (PStr ""))
       then ret (<["success" := PBool true]>
                 (<["result" := dict_get kwargs "analysis_results" (PStr "")]> ∅))
       else ret (BaseTool.failure "没有可用的分析结果")).

Definition echo_tool (name : string) : BaseTool.t :=
  BaseTool.mkTool name "echo" "{}"
    (fun kwargs => ret (<["success" := PBool true]> (<["result" := PStr name]> ∅))).

Definition registry : ToolRegistry.t :=
  DataAnalysisAgent._register_tools
    failing_tool (echo_tool "sql_query") (echo_tool "data_profiling") report_tool.

Definition agent : DataAnalysisAgent.t :=
  DataAnalysisAgent.mkAgent registry "CREATE TABLE orders (region TEXT, amount INTEGER)".

Definition start (replies : list string) : DataAnalysisAgent.State :=
  DataAnalysisAgent.mkState (mkWorld replies 0)
    (DialogueContext.__init__ DialogueContext.default_max_history) [].

(** Texts of the model, for the examples. *)
Definition quoted (s : string) : string := dq +:+ s +:+ dq.

Definition step_text (tool args reason : string) : string :=
  "{" +:+ quoted "tool" +:+ ": " +:+ quoted tool +:+ ", "
  +:+ quoted "args" +:+ ": " +:+ args +:+ ", "
  +:+ quoted "reason" +:+ ": " +:+ quoted reason +:+ "}".

Definition step_value (tool : string) (args : pydict) (reason : string) : pydict :=
  <["tool" := PStr tool]> (<["args" := PDict args]> (<["reason" := PStr reason]> ∅)).

(** A one-step plan whose argument quotes a fenced block. *)
Definition quoting_plan : string :=
  "[{" +:+ quoted "tool" +:+ ":" +:+ quoted "sql_query" +:+ ","
  +:+ quoted "args" +:+ ":{" +:+ quoted "question" +:+ ":" +:+ quoted "```json[1]```" +:+ "},"
  +:+ quoted "reason" +:+ ":" +:+ quoted "r" +:+ "}]".

Definition quoting_step : pydict :=
  step_value "sql_query" (<["question" := PStr "```json[1]```"]> ∅) "r".

Definition plain_plan : string := "[" +:+ step_text "data_inspector" "{}" "look" +:+ "]".

Definition plain_step : pydict := step_value "data_inspector" ∅ "look".

(** An object whose argument holds the fence marker. *)
Definition marked_object : string :=
  "{" +:+ quoted "tool" +:+ ":" +:+ quoted "sql_query" +:+ ","
  +:+ quoted "args" +:+ ":{" +:+ quoted "question" +:+ ":" +:+ quoted "```" +:+ "}}".

Definition marked_step : pydict :=
  <["tool" := PStr "sql_query"]>
  (<["args" := PDict (<["question" := PStr "```"]> ∅)]> ∅).

Definition single_object : string := step_text "data_inspector" "{}" "look".

(** [s * n] *)
Fixpoint times (n : nat) (s : string) : string :=
  match n with
  | O => EmptyString
  | S k => s +:+ times k s
  end.

(** An array that opens with an integer of five thousand digits, and two
    thousand opening brackets. *)
Definition long_integer : string := "[" +:+ times 5000 "1".

Definition deep_array : string := times 2000 "[".

(** The plan for a greeting, as the prompt asks for it. *)
Definition chat_plan : string :=
  LLMClient.fence_json
    ("[" +:+ step_text "general_chat" ("{" +:+ quoted "message" +:+ ": " +:+ quoted "hi" +:+ "}")
                       "chat" +:+ "]").

Definition chat_step : pydict :=
  step_value "general_chat" (<["message" := PStr "hi"]> ∅) "chat".

(** A plan of nine steps. *)
Definition profiling_text : string := step_text "data_profiling" "{}" "profile".

Definition nine_steps_plan : string :=
  "[" +:+ PyStr.join ", " (replicate 9 profiling_text) +:+ "]".

Definition nine_steps : list pyval :=
  replicate 9 (PDict (step_value "data_profiling" ∅ "profile")).

(** Statistics, then a report. *)
Definition statistics_step : pydict :=
  step_value "statistical_analysis"
    (<["sql" := PStr "SELECT region, amount FROM orders"]> ∅) "stats".

Definition report_step : pydict := step_value "report_generator" ∅ "report".

Definition report_plan : string :=
  "[" +:+ step_text "statistical_analysis"
            ("{" +:+ quoted "sql" +:+ ": " +:+ quoted "SELECT region, amount FROM orders" +:+ "}")
            "stats"
  +:+ ", " +:+ step_text "report_generator" "{}" "report" +:+ "]".

(** The run of that plan up to the report step. *)
Section Runs.
Context `{JSONDecoder}.

Definition report_start : DataAnalysisAgent.State := start [report_plan; "Summary."].

Definition report_planned : DataAnalysisAgent.State :=
  (DataAnalysisAgent.plan_query agent "stats please" report_start).2.

Definition report_prior : Outcome DataAnalysisAgent.Loop * DataAnalysisAgent.State :=
  DataAnalysisAgent.run_steps agent "stats please" "用户: stats please"
    [PDict statistics_step] (DataAnalysisAgent.mkLoop [] [] "") report_planned.

Definition report_loop : DataAnalysisAgent.Loop :=
  match report_prior.1 with
  | Ret l => l
  | Raise _ => DataAnalysisAgent.mkLoop [] [] ""
  end.

End Runs.

(** Keyword arguments for the two query tools. *)
Definition ask (question : string) : pydict := <["question" := PStr question]> ∅.

Definition given (sql : string) : pydict := <["sql" := PStr sql]> ∅.

Definition no_rows_sql : string := "SELECT region, amount FROM orders WHERE 1 = 0".

End Demo.


(* ===================================================================== *)
(** * The database, the remaining tools, the session report               *)
(* ===================================================================== *)

(** A row of [PRAGMA table_info]: [cid], [name], [type], [notnull],
    [dflt_value], [pk]; SQLite gives the name and the declared type as
    text and the two flags as integers. *)
Record PragmaRow := mkPragmaRow {
  r_cid : Z;
  r_name : string;
  r_type : string;
  r_notnull : Z;
  r_dflt_value : pyval;
  r_pk : Z
}.

(** What the remaining tools need from outside the repository. *)
Class Backends `{Collaborators} := {
  (** [SQLDatabase.get_usable_table_names()] *)
  db_get_table_names : SE World (list string);
  (** [sqlite3.connect(path).execute("PRAGMA table_info(..)").fetchall()] *)
  db_pragma_table_info : string -> SE World (list PragmaRow);
  (** [sqlite3.connect(path).execute(sql).fetchall()] *)
  db_fetchall : string -> SE World (list (list pyval));
  (** [QuerySQLDataBaseTool(db=..).invoke(sql)] *)
  db_execute_sql : string -> SE World string;
  (** langchain's [create_sql_query_chain(llm, db)], run on the question
      and the context *)
  chain_write_query : pyval -> pyval -> SE World string;
  (** [LLMClient._call] behind langchain's [LLM], followed by
      [StrOutputParser] *)
  llm_invoke : string -> SE World string;
  (** [df.to_markdown(index=False)], [df.to_dict()] *)
  df_to_markdown : DataFrame -> Outcome string;
  df_to_dict : DataFrame -> pyval;
  (** [format(v, ",")] *)
  fmt_thousands : pyval -> Outcome string;
  (** [open(path, "w", encoding="utf-8").write(text)] *)
  fs_write_text : string -> string -> SE World unit;
  (** [(now - start).total_seconds()] *)
  total_seconds : Z -> Z -> PyFloat;
  (** pandas: the bodies of the five profiles of [DataProfilingTool] *)
  pd_full_profile : DataFrame -> pyval -> pyval -> Outcome pydict;
  pd_missing_analysis : DataFrame -> pyval -> pyval -> Outcome pydict;
  pd_distribution_analysis : DataFrame -> pyval -> pyval -> Outcome pydict;
  pd_outlier_analysis : DataFrame -> pyval -> Outcome pydict;
  pd_unique_analysis : DataFrame -> pyval -> Outcome pydict
}.

(** A text that can be the encoding of a [str]: it does not start in the
    middle of a code point. *)
Definition whole (s : string) : Prop :=
  match s with
  | String c _ => PyStr.is_cont c = false
  | EmptyString => True
  end.

(** [l[0]] *)
Definition py_first {A} (l : list A) : Outcome A :=
  match l with
  | x :: _ => Ret x
  | [] => Raise (IndexError "list index out of range")
  end.

(* ===================================================================== *)
(** * core/dialogue_context.py: the session report                        *)
(* ===================================================================== *)

Module DialogueSession.
Section WithBackends.
Context `{Backends}.

(** The contexts that the constructor and the methods lead to. *)
Inductive reachable : DialogueContext.t -> Prop :=
| reach_init max_history :
    reachable (DialogueContext.__init__ max_history)
| reach_start_new_session self w :
    reachable self -> reachable (DialogueContext.start_new_session self w).1
| reach_add_message self role content metadata w :
    reachable self ->
    reachable (DialogueContext.add_message self role content metadata w).1
| reach_clear_context self :
    reachable self -> reachable (DialogueContext.clear_context self).

(** An open session has its start time. *)
Definition consistent (self : DialogueContext.t) : Prop :=
  DialogueContext.no_session self = false ->
  exists start, DialogueContext.session_start_time self = Some start.

(** [get_session_info]; the items of the dict are evaluated in order, the
    start time before the clock is read. *)
Definition get_session_info (self : DialogueContext.t) : SE World pydict :=
  if DialogueContext.no_session self
  then ret (<["status" := PStr "no_active_session"]> ∅)
  else
    match DialogueContext.current_session_id self, DialogueContext.session_start_time self with
    | Some id, Some start =>
        fun w =>
          let '(now, w') := clock_now w in
          (Ret (<["session_id" := PStr id]>
               (<["start_time" := PStr (isoformat start)]>
               (<["message_count" :=
                    PInt (Z.of_nat (length (DialogueContext.messages self)))]>
               (<["duration" := PFloat (total_seconds now start)]> ∅)))), w')
    | _, _ => raise (AttributeError "'NoneType' object has no attribute 'isoformat'")
    end.

End WithBackends.
End DialogueSession.

(* ===================================================================== *)
(** * core/database.py                                                    *)
(* ===================================================================== *)

Module DatabaseManager.
Section WithBackends.
Context `{Backends}.

(** An entry of [get_column_info]. *)
Record Column := mkColumn {
  cid : Z;
  name : string;
  type : string;
  notnull : bool;
  default : pyval;
  pk : bool
}.

Definition column_of_row (row : PragmaRow) : Column :=
  mkColumn (r_cid row) (r_name row) (r_type row)
           (negb (r_notnull row =? 0)) (r_dflt_value row) (negb (r_pk row =? 0)).

Definition column_dict (c : Column) : pyval :=
  PDict (<["cid" := PInt (cid c)]>
        (<["name" := PStr (name c)]>
        (<["type" := PStr (type c)]>
        (<["notnull" := PBool (notnull c)]>
        (<["default" := default c]>
        (<["pk" := PBool (pk c)]> ∅)))))).

Definition get_table_names : SE World (list string) := db_get_table_names.

Definition get_column_info (table_name : pyval) : SE World (list Column) :=
  (rows <- db_pragma_table_info ("PRAGMA table_info('" +:+ py_str table_name +:+ "')") ;;
   ret (map column_of_row rows))%se.

Definition get_sample_data (table_name : pyval) (limit : Z) : SE World DataFrame :=
  db_execute_sql_df
    (PStr ("SELECT * FROM " +:+ py_str table_name +:+ " LIMIT " +:+ pretty limit)).

(** [cur.fetchone()[0]]: [fetchone] gives [None] when there is no row. *)
Definition get_row_count (table_name : pyval) : SE World pyval :=
  (rows <- db_fetchall ("SELECT COUNT(*) FROM " +:+ py_str table_name) ;;
   match rows with
   | [] => raise (TypeError "'NoneType' object is not subscriptable")
   | row :: _ => lift_outcome (py_first row)
   end)%se.

Definition execute_sql (sql : string) : SE World string := db_execute_sql sql.

Definition execute_sql_df (sql : pyval) : SE World DataFrame := db_execute_sql_df sql.

Fixpoint first_cells (rows : list (list pyval)) : Outcome (list pyval) :=
  match rows with
  | [] => Ret []
  | row :: rest =>
      (x <- py_first row ;; xs <- first_cells rest ;; Ret (x :: xs))%out
  end.

Definition get_distinct_values (table_name : pyval) (column_name : string) (limit : Z)
    : SE World (list pyval) :=
  (rows <- db_fetchall ("SELECT DISTINCT " +:+ column_name +:+ " FROM "
                        +:+ py_str table_name +:+ " LIMIT " +:+ pretty limit) ;;
   lift_outcome (first_cells rows))%se.

(** The two sets of type names; [any] does not depend on the order in which
    a set is walked. *)
Definition numeric_types : list string :=
  ["INT"; "INTEGER"; "REAL"; "FLOAT"; "DOUBLE"; "DECIMAL"; "NUMERIC"].

Definition date_types : list string := ["DATE"; "DATETIME"; "TIMESTAMP"].

(** [any(t in c["type"].upper() for t in types)] *)
Definition type_among (types : list string) (c : Column) : bool :=
  existsb (fun t => PyStr.contains t (str_upper (type c))) types.

Definition get_numeric_columns (table_name : pyval) : SE World (list string) :=
  (cols <- get_column_info table_name ;;
   ret (map name (List.filter (type_among numeric_types) cols)))%se.

Definition get_date_columns (table_name : pyval) : SE World (list string) :=
  (cols <- get_column_info table_name ;;
   ret (map name (List.filter (type_among date_types) cols)))%se.

End WithBackends.
End DatabaseManager.

(* ===================================================================== *)
(** * tools/sql_query.py                                                  *)
(* ===================================================================== *)

Module SQLQueryTool.
Section WithBackends.
Context `{Backends}.

Definition name : string := "sql_query".

Definition description : string :=
  "将自然语言问题转换为SQL查询并执行，返回查询结果。"
  +:+ "适用于所有需要从数据库检索数据的场景。".

Definition parameters_description : string :=
  "{" +:+ dq +:+ "question" +:+ dq +:+ ": " +:+ dq +:+ "用户的自然语言问题" +:+ dq +:+ ", "
  +:+ dq +:+ "context" +:+ dq +:+ ": " +:+ dq +:+ "(可选)对话上下文" +:+ dq +:+ "}".

(** The text before the final [rstrip(";").strip()]. *)
Definition located_sql (response : string) : string :=
  match PyStr.split_once "SQLQuery:" response with
  | Some (_, b) => PyStr.strip b
  | None =>
      match PyStr.cp_find "SELECT" (str_upper response) with
      | Some start_idx =>
          let cleaned := PyStr.strip (PyStr.cp_drop start_idx response) in
          if PyStr.contains "```" cleaned
          then PyStr.strip (PyStr.split_before "```" cleaned)
          else cleaned
      | None => response
      end
  end.

Definition _clean_sql_response (response : string) : string :=
  PyStr.strip (PyStr.rstrip_char ";" (located_sql response)) +:+ "".

Definition answer_prompt (context question clean_query result : string) : string :=
  "基于以下信息回答问题：

对话历史：
" +:+ context +:+ "

当前问题：" +:+ question +:+ "
生成的 SQL 查询：" +:+ clean_query +:+ "
数据库返回结果：" +:+ result +:+ "

请用自然语言给出简洁、专业的答案。如果结果中的数值为 0，明确说明" +:+ dq +:+ "没有记录" +:+ dq +:+ "。
用中文回答，格式清晰。".

(** [self.chain.invoke({"question": question, "context": context})]: the
    query is written, cleaned, run, and the answer asked for. *)
Definition chain_invoke (question context : pyval) : SE World (string * string * string) :=
  (query <- chain_write_query question context ;;
   let clean_query := _clean_sql_response query in
   result <- DatabaseManager.execute_sql clean_query ;;
   response <- llm_invoke (answer_prompt (py_str context) (py_str question)
                             clean_query result) ;;
   ret (response, clean_query, result))%se.

Definition execute (kwargs : pydict) : SE World pydict :=
  (let question := dict_get kwargs "question" (PStr "") in
   let context := dict_get kwargs "context" (PStr "无") in
   if negb (truthy question) then ret (BaseTool.failure "请提供查询问题")
   else
     (result <- chain_invoke question context ;;
      let '(response, sql, raw) := result in
      ret (<["success" := PBool true]>
           (<["result" := PStr response]>
           (<["data" := PDict (<["sql" := PStr sql]>
                              (<["raw_result" := PStr raw]> ∅))]> ∅)))))%se.

Definition tool : BaseTool.t :=
  BaseTool.mkTool name description parameters_description execute.

End WithBackends.
End SQLQueryTool.

(* ===================================================================== *)
(** * tools/data_inspector.py                                             *)
(* ===================================================================== *)

(** [table_name = tables[0] if tables else None], when no table was named. *)
Definition first_table (tables : list string) : pyval :=
  match tables with
  | t :: _ => PStr t
  | [] => PNone
  end.

Module DataInspectorTool.
Section WithBackends.
Context `{Backends}.
Import DatabaseManager.

Definition name : string := "data_inspector".

Definition description : string :=
  "查看数据库表结构、字段信息、数据样例和基本统计。"
  +:+ "用于了解数据集的结构和内容，是进行数据分析的第一步。".

Definition parameters_description : string :=
  "{" +:+ dq +:+ "table_name" +:+ dq +:+ ": " +:+ dq +:+ "(可选)表名" +:+ dq +:+ ", "
  +:+ dq +:+ "inspect_type" +:+ dq +:+ ": " +:+ dq
  +:+ "schema/sample/overview/column_detail" +:+ dq +:+ "}".

Definition yes_no (b : bool) : string := if b then "是" else "否".

Definition schema_row (col : Column) : string :=
  "| " +:+ pretty (cid col) +:+ " | " +:+ DatabaseManager.name col
  +:+ " | " +:+ type col +:+ " "
  +:+ "| " +:+ yes_no (notnull col) +:+ " "
  +:+ "| " +:+ yes_no (pk col) +:+ " |" +:+ nl.

Definition schema_header (table_name : pyval) : string :=
  "## 表 `" +:+ py_str table_name +:+ "` 结构" +:+ nl +:+ nl
  +:+ "| 序号 | 字段名 | 类型 | 非空 | 主键 |" +:+ nl
  +:+ "|------|--------|------|------|------|" +:+ nl.

Fixpoint concat_map {A} (f : A -> string) (l : list A) : string :=
  match l with
  | [] => ""
  | x :: rest => f x +:+ concat_map f rest
  end.

Definition _inspect_schema (table_name : pyval) : SE World pydict :=
  (columns <- get_column_info table_name ;;
   let schema_text := schema_header table_name +:+ concat_map schema_row columns in
   ret (<["success" := PBool true]>
        (<["result" := PStr schema_text]>
        (<["data" := PDict (<["table_name" := table_name]>
                           (<["columns" := PList (map column_dict columns)]> ∅))]> ∅))))%se.

Definition _inspect_sample (table_name : pyval) : SE World pydict :=
  (df <- get_sample_data table_name 5 ;;
   table <- lift_outcome (df_to_markdown df) ;;
   let sample_text :=
     "## 表 `" +:+ py_str table_name +:+ "` 数据样例（前5行）" +:+ nl +:+ nl +:+ table in
   ret (<["success" := PBool true]>
        (<["result" := PStr sample_text]>
        (<["data" := PDict (<["table_name" := table_name]>
                           (<["sample" := df_to_dict df]> ∅))]>
        (<["dataframe" := PFrame df]> ∅)))))%se.

Definition column_part (col : Column) (distinct_vals : list pyval) : string :=
  "### 字段: `" +:+ DatabaseManager.name col +:+ "`" +:+ nl
  +:+ "- 类型: " +:+ type col +:+ nl
  +:+ "- 示例值: " +:+ py_str (PList distinct_vals) +:+ nl.

(** The loop over the columns: one query for each. *)
Fixpoint column_parts (table_name : pyval) (columns : list Column)
    : SE World (list string) :=
  match columns with
  | [] => ret []
  | col :: rest =>
      (distinct_vals <- get_distinct_values table_name (DatabaseManager.name col) 10 ;;
       parts <- column_parts table_name rest ;;
       ret (column_part col distinct_vals :: parts))%se
  end.

Definition _inspect_column_detail (table_name column_name : pyval) : SE World pydict :=
  (columns <- get_column_info table_name ;;
   let selected :=
     if truthy column_name
     then List.filter (fun c => is_str column_name (DatabaseManager.name c)) columns
     else columns in
   if truthy column_name && match selected with [] => true | _ => false end
   then ret (BaseTool.failure ("未找到列: " +:+ py_str column_name))
   else
     (result_parts <- column_parts table_name selected ;;
      ret (<["success" := PBool true]>
           (<["result" := PStr (PyStr.join nl result_parts)]>
           (<["data" := PDict (<["table_name" := table_name]> ∅)]> ∅)))))%se.

Definition field_line (col : Column) : string :=
  "- `" +:+ DatabaseManager.name col +:+ "` (" +:+ type col +:+ ")" +:+ nl.

Definition _inspect_overview (table_name : pyval) : SE World pydict :=
  (row_count <- get_row_count table_name ;;
   columns <- get_column_info table_name ;;
   numeric_cols <- get_numeric_columns table_name ;;
   date_cols <- get_date_columns table_name ;;
   sample <- get_sample_data table_name 3 ;;
   rows_text <- lift_outcome (fmt_thousands row_count) ;;
   sample_text <- lift_outcome (df_to_markdown sample) ;;
   let text :=
     "## 数据概览: `" +:+ py_str table_name +:+ "`" +:+ nl +:+ nl
     +:+ "- **总行数**: " +:+ rows_text +:+ nl
     +:+ "- **总列数**: " +:+ pretty (length columns) +:+ nl
     +:+ "- **数值型字段** (" +:+ pretty (length numeric_cols) +:+ "): "
     +:+ PyStr.join ", " numeric_cols +:+ nl
     +:+ "- **日期型字段** (" +:+ pretty (length date_cols) +:+ "): "
     +:+ PyStr.join ", " date_cols +:+ nl +:+ nl
     +:+ "### 字段列表" +:+ nl
     +:+ concat_map field_line columns
     +:+ nl +:+ "### 数据样例（前3行）" +:+ nl +:+ sample_text +:+ nl in
   ret (<["success" := PBool true]>
        (<["result" := PStr text]>
        (<["data" := PDict (<["table_name" := table_name]>
                           (<["row_count" := row_count]>
                           (<["column_count" := PInt (Z.of_nat (length columns))]>
                           (<["numeric_columns" := PList (map PStr numeric_cols)]>
                           (<["date_columns" := PList (map PStr date_cols)]> ∅)))))]> ∅))))%se.

Definition execute (kwargs : pydict) : SE World pydict :=
  (let table_name := dict_get kwargs "table_name" PNone in
   let inspect_type := dict_get kwargs "inspect_type" (PStr "overview") in
   tables <- get_table_names ;;
   let table_name := if truthy table_name then table_name else first_table tables in
   if negb (truthy table_name) then ret (BaseTool.failure "数据库中没有可用的表")
   else if is_str inspect_type "schema" then _inspect_schema table_name
   else if is_str inspect_type "sample" then _inspect_sample table_name
   else if is_str inspect_type "column_detail"
   then _inspect_column_detail table_name (dict_get kwargs "column_name" PNone)
   else _inspect_overview table_name)%se.

Definition tool : BaseTool.t :=
  BaseTool.mkTool name description parameters_description execute.

End WithBackends.
End DataInspectorTool.

(* ===================================================================== *)
(** * tools/data_profiling.py                                             *)
(* ===================================================================== *)

Module DataProfilingTool.
Section WithBackends.
Context `{Backends}.

Definition name : string := "data_profiling".

Definition description : string :=
  "数据画像/质量分析：检测缺失值、异常值、数据分布、唯一值统计等。"
  +:+ "帮助全面了解数据质量和特征分布。".

Definition parameters_description : string :=
  "{" +:+ dq +:+ "table_name" +:+ dq +:+ ": " +:+ dq +:+ "(可选)表名" +:+ dq +:+ ", "
  +:+ dq +:+ "profile_type" +:+ dq +:+ ": " +:+ dq
  +:+ "full/missing/distribution/outliers/unique" +:+ dq +:+ ", "
  +:+ dq +:+ "column_name" +:+ dq +:+ ": " +:+ dq +:+ "(可选)指定列" +:+ dq +:+ "}".

(** [5000 < row_count], the test inside [min(row_count, 5000)]. *)
Definition exceeds_5000 (row_count : pyval) : Outcome bool :=
  match row_count with
  | PInt n => Ret (5000 <? n)
  | PBool _ => Ret false
  | PFloat (FDec m e) =>
      Ret (if 0 <=? e then 5000 <? m * 10 ^ e else 5000 * 10 ^ (- e) <? m)
  | PFloat FNaN => Ret false
  | PFloat (FInf negative) => Ret (negb negative)
  | PFrame _ => Raise (mkExc "ValueError" "The truth value of a DataFrame is ambiguous")
  | _ => Raise (TypeError "'<' not supported between instances")
  end.

(** [min(row_count, 5000)] *)
Definition sample_size (row_count : pyval) : Outcome pyval :=
  (above <- exceeds_5000 row_count ;;
   Ret (if (above : bool) then PInt 5000 else row_count))%out.

Definition sample_sql (table_name size : pyval) : string :=
  "SELECT * FROM " +:+ py_str table_name +:+ " ORDER BY RANDOM() LIMIT " +:+ py_str size.

Definition execute (kwargs : pydict) : SE World pydict :=
  (let table_name := dict_get kwargs "table_name" PNone in
   let profile_type := dict_get kwargs "profile_type" (PStr "full") in
   let column_name := dict_get kwargs "column_name" PNone in
   tables <- DatabaseManager.get_table_names ;;
   let table_name := if truthy table_name then table_name else first_table tables in
   if negb (truthy table_name) then ret (BaseTool.failure "没有可用的数据表")
   else
     (row_count <- DatabaseManager.get_row_count table_name ;;
      size <- lift_outcome (sample_size row_count) ;;
      df <- DatabaseManager.execute_sql_df (PStr (sample_sql table_name size)) ;;
      if is_str profile_type "missing"
      then lift_outcome (pd_missing_analysis df table_name row_count)
      else if is_str profile_type "distribution"
      then lift_outcome (pd_distribution_analysis df table_name column_name)
      else if is_str profile_type "outliers"
      then lift_outcome (pd_outlier_analysis df table_name)
      else if is_str profile_type "unique"
      then lift_outcome (pd_unique_analysis df table_name)
      else lift_outcome (pd_full_profile df table_name row_count)))%se.

Definition tool : BaseTool.t :=
  BaseTool.mkTool name description parameters_description execute.

End WithBackends.
End DataProfilingTool.

(* ===================================================================== *)
(** * tools/report_generator.py                                           *)
(* ===================================================================== *)

Module ReportGeneratorTool.
Section WithBackends.
Context `{Backends}.

Definition name : string := "report_generator".

Definition description : string :=
  "根据已完成的分析结果生成结构化的数据分析报告。"
  +:+ "整合多个分析步骤的结果，给出综合洞察和建议。".

Definition parameters_description : string :=
  "{" +:+ dq +:+ "question" +:+ dq +:+ ": " +:+ dq +:+ "原始分析需求" +:+ dq +:+ ", "
  +:+ dq +:+ "analysis_results" +:+ dq +:+ ": " +:+ dq +:+ "之前各步骤的分析结果" +:+ dq +:+ ", "
  +:+ dq +:+ "report_type" +:+ dq +:+ ": " +:+ dq +:+ "summary/detailed/executive" +:+ dq +:+ "}".

Definition _REPORT_DIR : string := "reports".

Definition summary_instruction : string := "生成简洁的摘要报告，突出关键发现和结论。".

(** [type_instructions.get(report_type, type_instructions["summary"])] *)
Definition type_instruction (report_type : pyval) : Outcome string :=
  match report_type with
  | PStr s =>
      Ret (if String.eqb s "summary" then summary_instruction
           else if String.eqb s "detailed"
           then "生成详细的分析报告，包含完整的数据解读和多角度分析。"
           else if String.eqb s "executive"
           then "生成面向管理层的简报，侧重业务洞察和决策建议。"
           else summary_instruction)
  | PList _ | PDict _ | PFrame _ => Raise (unhashable report_type)
  | _ => Ret summary_instruction
  end.

Definition report_prompt (question results instruction : string) : string :=
  "你是欧莱雅集团的高级数据分析师。请基于以下分析结果生成专业报告。

## 分析需求
" +:+ question +:+ "

## 分析结果
" +:+ results +:+ "

## 报告要求
" +:+ instruction +:+ "

## 格式要求
1. 使用清晰的标题层级
2. 关键数据加粗
3. 给出具体的业务洞察
4. 提供可操作的建议
5. 如有必要，指出数据局限性和进一步分析方向".

Definition _generate_report (question results report_type : pyval) : SE World string :=
  (instruction <- lift_outcome (type_instruction report_type) ;;
   llm_chat (report_prompt (py_str question) (py_str results) instruction))%se.

(** [os.path.join(_REPORT_DIR, f"report_{report_type}_{ts}.md")]: the
    second part starts with a letter, so the parts are joined by a slash. *)
Definition report_path (report_type : pyval) (ts : string) : string :=
  _REPORT_DIR +:+ "/" +:+ "report_" +:+ py_str report_type +:+ "_" +:+ ts +:+ ".md".

Definition _save_report (report : string) (report_type : pyval) : SE World string :=
  (ts <- (fun w => let '(now, w') := clock_now w in (Ret (strftime_compact now), w')) ;;
   let path := report_path report_type ts in
   fs_write_text path report ;;;
   ret path)%se.

Definition execute (kwargs : pydict) : SE World pydict :=
  (let question := dict_get kwargs "question" (PStr "") in
   let analysis_results := dict_get kwargs "analysis_results" (PStr "") in
   let report_type := dict_get kwargs "report_type" (PStr "summary") in
   if negb (truthy analysis_results) then ret (BaseTool.failure "没有可用的分析结果")
   else
     (report <- _generate_report question analysis_results report_type ;;
      path <- _save_report report report_type ;;
      ret (<["success" := PBool true]>
           (<["result" := PStr report]>
           (<["data" := PDict (<["report_path" := PStr path]>
                              (<["report_type" := report_type]> ∅))]> ∅)))))%se.

Definition tool : BaseTool.t :=
  BaseTool.mkTool name description parameters_description execute.

End WithBackends.
End ReportGeneratorTool.

(* ===================================================================== *)
(** * agent/data_agent.py: the agent with its six tools                   *)
(* ===================================================================== *)

(** The tool names of the results, as the metadata of the assistant turn
    lists them; the artifact path of a result, if it has one. *)
Definition tools_used (tool_results : list pydict) : list pyval :=
  map (fun r => dict_get r "tool" PNone) tool_results.

Definition image_of (r : pydict) : option pyval :=
  let p := dict_get r "image_path" PNone in
  if truthy p then Some p else None.

(** A step of a plan that asks for conversation only; a recorded call
    that carries the [context] argument. *)
Definition chat_step (step : pyval) : Prop :=
  exists d, step = PDict d /\ d !! "tool" = Some (PStr "general_chat").

Definition has_context (call : pyval * pydict) : Prop := is_Some (call.2 !! "context").

Module Agent.
Section WithBackends.
Context `{Backends}.

(** The registry as [DataAnalysisAgent.__init__] fills it. *)
Definition registry : ToolRegistry.t :=
  DataAnalysisAgent._register_tools
    DataInspectorTool.tool SQLQueryTool.tool DataProfilingTool.tool ReportGeneratorTool.tool.

(** [DataAnalysisAgent(...)] once [get_table_info] has returned [schema]. *)
Definition __init__ (schema : string) : DataAnalysisAgent.t :=
  DataAnalysisAgent.mkAgent registry schema.

(** [get_session_info] *)
Definition get_session_info : SE DataAnalysisAgent.State pydict :=
  fun st =>
    let '(o, w) := DialogueSession.get_session_info (DataAnalysisAgent.context st)
                     (DataAnalysisAgent.world st) in
    (o, DataAnalysisAgent.mkState w (DataAnalysisAgent.context st)
                                  (DataAnalysisAgent.calls st)).

End WithBackends.
End Agent.

(** The closed world of the examples: one table, fixed answers. *)
Module DemoBackends.

Definition orders_columns : list PragmaRow :=
  [ mkPragmaRow 0 "region" "TEXT" 1 PNone 0;
    mkPragmaRow 1 "amount" "INTEGER" 0 PNone 0;
    mkPragmaRow 2 "sold_at" "DATETIME" 0 PNone 0 ].

#[export] Instance backends : @Backends Demo.collaborators := {|
  db_get_table_names := ret ["orders"];
  db_pragma_table_info := fun _ => ret orders_columns;
  db_fetchall := fun _ => ret [[PInt 2]];
  db_execute_sql := fun _ => ret "[(2,)]";
  chain_write_query := fun _ _ => ret "SQLQuery: SELECT COUNT(*) FROM orders;";
  llm_invoke := fun _ => ret "Two orders.";
  df_to_markdown := fun _ => Ret "| region | amount |";
  df_to_dict := fun _ => PDict ∅;
  fmt_thousands := fun v => Ret (@py_str Demo.collaborators v);
  fs_write_text := fun _ _ => ret tt;
  total_seconds := fun now start => FDec (now - start) 0;
  pd_full_profile := fun df _ _ => Ret (Demo.text_result "full" df);
  pd_missing_analysis := fun df _ _ => Ret (Demo.text_result "missing" df);
  pd_distribution_analysis := fun df _ _ => Ret (Demo.text_result "distribution" df);
  pd_outlier_analysis := fun df _ => Ret (Demo.text_result "outliers" df);
  pd_unique_analysis := fun df _ => Ret (Demo.text_result "unique" df)
|}.

(** A database without tables. *)
Definition empty_backends : @Backends Demo.collaborators := {|
  db_get_table_names := ret [];
  db_pragma_table_info := fun _ => ret [];
  db_fetchall := fun _ => ret [];
  db_execute_sql := fun _ => ret "";
  chain_write_query := fun _ _ => ret "";
  llm_invoke := fun _ => ret "";
  df_to_markdown := fun _ => Ret "";
  df_to_dict := fun _ => PDict ∅;
  fmt_thousands := fun v => Ret (@py_str Demo.collaborators v);
  fs_write_text := fun _ _ => ret tt;
  total_seconds := fun now start => FDec (now - start) 0;
  pd_full_profile := fun df _ _ => Ret (Demo.text_result "full" df);
  pd_missing_analysis := fun df _ _ => Ret (Demo.text_result "missing" df);
  pd_distribution_analysis := fun df _ _ => Ret (Demo.text_result "distribution" df);
  pd_outlier_analysis := fun df _ => Ret (Demo.text_result "outliers" df);
  pd_unique_analysis := fun df _ => Ret (Demo.text_result "unique" df)
|}.

Definition agent : DataAnalysisAgent.t :=
  Agent.__init__ "CREATE TABLE orders (region TEXT, amount INTEGER, sold_at DATETIME)".

(** The world at a tick of the clock, the model having these replies to
    give. *)
Definition world_at (replies : list string) (ticks : Z) : @World Demo.collaborators :=
  Demo.mkWorld replies ticks.

(** A conversation with room for one turn, holding one. *)
Definition full_context : DialogueContext.t :=
  (@DialogueContext.add_message Demo.collaborators (DialogueContext.__init__ 1)
     "user" "first" None (world_at [] 0)).1.

(** A plan of one chart step; a step whose arguments are a list. *)
Definition chart_plan : string :=
  "[" +:+ Demo.step_text "data_visualization"
            ("{" +:+ Demo.quoted "sql" +:+ ": "
             +:+ Demo.quoted "SELECT region, amount FROM orders" +:+ "}")
            "chart" +:+ "]".

Definition chart_step : pydict :=
  Demo.step_value "data_visualization"
    (<["sql" := PStr "SELECT region, amount FROM orders"]> ∅) "chart".

Definition listed_args_step : pydict :=
  <["tool" := PStr "sql_query"]> (<["args" := PList [PStr "sales"]]> ∅).

(** A question that names a share and a trend; a frame that starts with
    a date column; a reply that wraps the plan in prose. *)
Definition share_question : string := "各地区销售占比的趋势".

Definition dated_frame : DataFrame :=
  mkFrame 2 [ mkSeries "sold_at" DtDatetime64 [CTime 1; CTime 2];
              mkSeries "amount" DtInt64 [CInt 10; CInt 32] ].

Definition prose_before : string := "Here is the plan: ".
Definition prose_after : string := " I hope it helps.".

(** The state in which the agent meets its first query. *)
Definition start (replies : list string) : @DataAnalysisAgent.State Demo.collaborators :=
  Demo.start replies.

End DemoBackends.

(* ===================================================================== *)
(** * Facts about the string operations                                   *)
(* ===================================================================== *)

Section PyStrFacts.
Import PyStr.

Lemma str_app_cons c s t : String c s +:+ t = String c (s +:+ t).
Proof. reflexivity. Qed.

Lemma str_app_nil_l s : "" +:+ s = s.
Proof. reflexivity. Qed.

Lemma str_app_nil_r s : s +:+ "" = s.
Proof. induction s as [|c s IH]; [reflexivity|]. rewrite str_app_cons, IH. reflexivity. Qed.

Lemma str_app_assoc a b c : (a +:+ b) +:+ c = a +:+ (b +:+ c).
Proof. induction a as [|x a IH]; [reflexivity|]. rewrite !str_app_cons, IH. reflexivity. Qed.

Lemma starts_with_split p s :
  starts_with p s = true -> s = p +:+ drop (String.length p) s.
Proof.
  revert s. induction p as [|a p IH]; intros s Hp; [reflexivity|].
  destruct s as [|b s]; [discriminate|]. cbn in Hp.
  apply andb_true_iff in Hp as [Hab Hp]. apply Ascii.eqb_eq in Hab as ->.
  rewrite str_app_cons. cbn [String.length drop]. f_equal. apply IH, Hp.
Qed.

(** ** White space *)

Lemma solid_plain c : solid c = true -> plain c = true.
Proof. unfold solid. intros [Hp _]%andb_true_iff. exact Hp. Qed.

Lemma solid_not_space c : solid c = true -> is_ascii_space c = false.
Proof. unfold solid. intros [_ Hs]%andb_true_iff. apply negb_true_iff, Hs. Qed.

Lemma plain_ws2_r a c : plain c = true -> ws2 a c = false.
Proof.
  unfold plain, ws2. intros Hc. apply N.ltb_lt in Hc.
  apply andb_false_iff. right. apply orb_false_iff.
  split; apply N.eqb_neq; lia.
Qed.

Lemma plain_ws3_r a b c : plain c = true -> ws3 a b c = false.
Proof.
  unfold plain, ws3. intros Hc. apply N.ltb_lt in Hc.
  assert (E1 : (code c =? 0x80)%N = false) by (apply N.eqb_neq; lia).
  assert (E2 : (0x80 <=? code c)%N = false) by (apply N.leb_gt; lia).
  assert (E3 : (code c =? 0xA8)%N = false) by (apply N.eqb_neq; lia).
  assert (E4 : (code c =? 0xA9)%N = false) by (apply N.eqb_neq; lia).
  assert (E5 : (code c =? 0xAF)%N = false) by (apply N.eqb_neq; lia).
  assert (E6 : (code c =? 0x9F)%N = false) by (apply N.eqb_neq; lia).
  rewrite E1, E2, E3, E4, E5, E6. cbn. rewrite !andb_false_r. reflexivity.
Qed.

Lemma plain_ws3_m a b c : plain b = true -> ws3 a b c = false.
Proof.
  unfold plain, ws3. intros Hc. apply N.ltb_lt in Hc.
  assert (E1 : (code b =? 0x9A)%N = false) by (apply N.eqb_neq; lia).
  assert (E2 : (code b =? 0x80)%N = false) by (apply N.eqb_neq; lia).
  assert (E3 : (code b =? 0x81)%N = false) by (apply N.eqb_neq; lia).
  rewrite E1, E2, E3. cbn. rewrite !andb_false_r. reflexivity.
Qed.

Lemma plain_ws2_l a c : plain a = true -> ws2 a c = false.
Proof.
  unfold plain, ws2. intros Hc. apply N.ltb_lt in Hc.
  apply andb_false_iff. left. apply N.eqb_neq. lia.
Qed.

Lemma plain_ws3_l a b c : plain a = true -> ws3 a b c = false.
Proof.
  unfold plain, ws3. intros Hc. apply N.ltb_lt in Hc.
  assert (E1 : (code a =? 0xE1)%N = false) by (apply N.eqb_neq; lia).
  assert (E2 : (code a =? 0xE2)%N = false) by (apply N.eqb_neq; lia).
  assert (E3 : (code a =? 0xE3)%N = false) by (apply N.eqb_neq; lia).
  rewrite E1, E2, E3. reflexivity.
Qed.

(** A solid character stops [lstrip]. *)
Lemma lstrip_solid c s : solid c = true -> lstrip (String c s) = String c s.
Proof.
  intros Hc. cbn [lstrip]. rewrite (solid_not_space _ Hc).
  pose proof (solid_plain _ Hc) as Hp.
  destruct s as [|b s]; [reflexivity|]. rewrite (plain_ws2_l _ _ Hp).
  destruct s as [|d s]; [reflexivity|]. rewrite (plain_ws3_l _ _ _ Hp). reflexivity.
Qed.

Lemma is_blank_nil_iff s : is_blank s = true <-> lstrip s = "".
Proof. unfold is_blank. destruct (lstrip s); split; intros; congruence. Qed.

(** [lstrip] across a plain character: white space before it goes, and the
    character does not join what precedes it. *)
Lemma lstrip_app_plain c y x :
  plain c = true ->
  lstrip (x +:+ String c y) =
    if is_blank x then lstrip (String c y) else lstrip x +:+ String c y.
Proof.
  intros Hc. remember (String.length x) as n eqn:Hn. revert x Hn.
  induction n as [n IH] using lt_wf_ind. intros x Hn.
  destruct x as [|a r]; [reflexivity|].
  rewrite str_app_cons. unfold is_blank. cbn [lstrip].
  destruct (is_ascii_space a) eqn:Ha.
  { rewrite (IH (String.length r)) by (subst n; cbn; lia || reflexivity). reflexivity. }
  destruct r as [|b r1].
  { rewrite str_app_nil_l. rewrite (plain_ws2_r _ _ Hc).
    destruct y as [|d y]; [reflexivity|]. rewrite (plain_ws3_m _ _ _ Hc). reflexivity. }
  rewrite str_app_cons. destruct (ws2 a b) eqn:Hab.
  { rewrite (IH (String.length r1)) by (subst n; cbn; lia || reflexivity). reflexivity. }
  destruct r1 as [|e r2].
  { rewrite str_app_nil_l. rewrite (plain_ws3_r _ _ _ Hc). reflexivity. }
  rewrite str_app_cons. destruct (ws3 a b e) eqn:Habe.
  { rewrite (IH (String.length r2)) by (subst n; cbn; lia || reflexivity). reflexivity. }
  reflexivity.
Qed.

Lemma is_blank_app_solid x c y : solid c = true -> is_blank (x +:+ String c y) = false.
Proof.
  intros Hc. unfold is_blank at 1.
  rewrite (lstrip_app_plain _ _ _ (solid_plain _ Hc)), (lstrip_solid _ _ Hc).
  destruct (is_blank x) eqn:Hx; [reflexivity|].
  unfold is_blank in Hx. destruct (lstrip x); [discriminate|reflexivity].
Qed.

Lemma plain_nl : plain "010" = true.
Proof. reflexivity. Qed.

Lemma is_blank_app_nl x : is_blank (x +:+ nl) = is_blank x.
Proof.
  unfold nl. unfold is_blank at 1. rewrite (lstrip_app_plain _ _ _ plain_nl).
  destruct (is_blank x) eqn:Hx; [reflexivity|].
  unfold is_blank in Hx. destruct (lstrip x); [discriminate|reflexivity].
Qed.

Lemma rstrip_blank s : is_blank s = true -> rstrip s = "".
Proof. destruct s as [|a r]; [reflexivity|]. intros Hb. cbn [rstrip]. rewrite Hb. reflexivity. Qed.

Lemma rstrip_unfold a r :
  rstrip (String a r) = if is_blank (String a r) then "" else String a (rstrip r).
Proof. reflexivity. Qed.

Lemma rstrip_app_nl x : rstrip (x +:+ nl) = rstrip x.
Proof.
  induction x as [|a r IH]; [reflexivity|].
  rewrite str_app_cons, !rstrip_unfold, <- str_app_cons, is_blank_app_nl, IH. reflexivity.
Qed.

(** C7 uses this: a fence adds a line break on either side. *)
Lemma strip_nl_wrap s : strip (nl +:+ s +:+ nl) = strip s.
Proof.
  unfold strip. unfold nl at 1. rewrite str_app_cons, str_app_nil_l, rstrip_unfold.
  assert (Hb : is_blank (String "010" (s +:+ nl)) = is_blank s).
  { unfold is_blank at 1. cbn [lstrip]. change (is_ascii_space "010") with true.
    cbv iota. apply is_blank_app_nl. }
  rewrite Hb, rstrip_app_nl. destruct (is_blank s) eqn:Hs.
  - rewrite (rstrip_blank _ Hs). reflexivity.
  - reflexivity.
Qed.

(** A text with solid ends is its own [strip]. *)
Lemma rstrip_solid_end x c : solid c = true -> rstrip (x +:+ String c "") = x +:+ String c "".
Proof.
  intros Hc. induction x as [|a r IH].
  - rewrite str_app_nil_l, rstrip_unfold. unfold is_blank. rewrite (lstrip_solid _ _ Hc). reflexivity.
  - rewrite str_app_cons, rstrip_unfold, <- str_app_cons, (is_blank_app_solid _ _ _ Hc), str_app_cons, IH.
    reflexivity.
Qed.

Lemma strip_solid_ends c1 x c2 :
  solid c1 = true -> solid c2 = true ->
  strip (String c1 (x +:+ String c2 "")) = String c1 (x +:+ String c2 "").
Proof.
  intros H1 H2. unfold strip. rewrite <- str_app_cons, (rstrip_solid_end _ _ H2), str_app_cons.
  apply lstrip_solid, H1.
Qed.

(** Unfolding [lstrip] one code point. *)
Lemma lstrip_step s :
  lstrip s = s \/ exists r, lstrip s = lstrip r
                            /\ (String.length r < String.length s)%nat
                            /\ exists p, s = p +:+ r.
Proof.
  destruct s as [|a r]; [left; reflexivity|]. cbn [lstrip].
  destruct (is_ascii_space a).
  { right. exists r. split; [reflexivity|]. split; [cbn; lia|]. exists (String a ""). reflexivity. }
  destruct r as [|b r1]; [left; reflexivity|].
  destruct (ws2 a b).
  { right. exists r1. split; [reflexivity|]. split; [cbn; lia|].
    exists (String a (String b "")). reflexivity. }
  destruct r1 as [|c r2]; [left; reflexivity|].
  destruct (ws3 a b c).
  { right. exists r2. split; [reflexivity|]. split; [cbn; lia|].
    exists (String a (String b (String c ""))). reflexivity. }
  left. reflexivity.
Qed.

(** [lstrip] keeps a suffix, [rstrip] a prefix. *)
Lemma lstrip_suffix s : exists a, s = a +:+ lstrip s.
Proof.
  remember (String.length s) as n eqn:Hn. revert s Hn.
  induction n as [n IH] using lt_wf_ind. intros s Hn.
  destruct (lstrip_step s) as [Heq|(r & Heq & Hlen & p & Hs)].
  - exists "". rewrite Heq. reflexivity.
  - destruct (IH (String.length r)) with (s := r) as [a Ha]; [lia|reflexivity|].
    exists (p +:+ a). rewrite Heq, str_app_assoc, <- Ha. exact Hs.
Qed.

Lemma rstrip_prefix s : exists b, s = rstrip s +:+ b.
Proof.
  induction s as [|a r [b IH]]; [exists ""; reflexivity|].
  rewrite rstrip_unfold. destruct (is_blank (String a r)).
  - exists (String a r). reflexivity.
  - exists b. rewrite str_app_cons, <- IH. reflexivity.
Qed.

(** ** Searching *)

Lemma contains_cons_false sep c r :
  contains sep (String c r) = false ->
  starts_with sep (String c r) = false /\ contains sep r = false.
Proof.
  unfold contains. cbn [split_once].
  destruct (starts_with sep (String c r)); [discriminate|].
  destruct (split_once sep r) as [[a b]|]; [discriminate|]. split; reflexivity.
Qed.

Lemma contains_cons_intro sep c r :
  starts_with sep (String c r) = false -> contains sep r = false ->
  contains sep (String c r) = false.
Proof.
  unfold contains. cbn [split_once]. intros -> Hr.
  destruct (split_once sep r) as [[a b]|]; [discriminate|reflexivity].
Qed.

Lemma contains_false_none sep s : contains sep s = false -> split_once sep s = None.
Proof. unfold contains. destruct (split_once sep s); [discriminate|reflexivity]. Qed.

Lemma starts_with_app p x y : starts_with p x = true -> starts_with p (x +:+ y) = true.
Proof.
  revert x. induction p as [|a p IH]; intros x Hx; [reflexivity|].
  destruct x as [|b x]; [discriminate|]. rewrite str_app_cons. cbn in *.
  apply andb_true_iff in Hx as [-> Hx]. cbn. apply IH, Hx.
Qed.

Lemma contains_app_r sep a b : contains sep (a +:+ b) = false -> contains sep b = false.
Proof.
  induction a as [|c a IH]; [trivial|]. rewrite str_app_cons.
  intros [_ Hr]%contains_cons_false. apply IH, Hr.
Qed.

Lemma contains_app_l sep c0 sep' a b :
  sep = String c0 sep' -> contains sep (a +:+ b) = false -> contains sep a = false.
Proof.
  intros ->. induction a as [|c a IH]; [reflexivity|]. rewrite str_app_cons.
  intros [Hs Hr]%contains_cons_false. apply contains_cons_intro.
  - destruct (starts_with (String c0 sep') (String c a)) eqn:E; [|reflexivity].
    apply (starts_with_app _ _ b) in E. rewrite str_app_cons in E. congruence.
  - apply IH, Hr.
Qed.

(** A text without [p] is without any [q] that starts with [p]. *)
Lemma starts_with_trans p q x :
  starts_with p q = true -> starts_with q x = true -> starts_with p x = true.
Proof.
  revert q x. induction p as [|a p IH]; intros q x Hpq Hqx; [reflexivity|].
  destruct q as [|b q]; [discriminate|]. destruct x as [|c x]; [discriminate|].
  cbn in *. apply andb_true_iff in Hpq as [Hab Hpq]. apply andb_true_iff in Hqx as [Hbc Hqx].
  apply Ascii.eqb_eq in Hab as ->. rewrite Hbc. cbn. eapply IH; eassumption.
Qed.

Lemma contains_longer p q x :
  starts_with p q = true -> contains p x = false -> contains q x = false.
Proof.
  intros Hpq. induction x as [|c x IH]; intros Hx.
  - destruct q as [|b q]; [destruct p; discriminate|reflexivity].
  - apply contains_cons_false in Hx as [Hs Hr]. apply contains_cons_intro.
    + destruct (starts_with q (String c x)) eqn:E; [|reflexivity].
      rewrite (starts_with_trans _ _ _ Hpq E) in Hs. discriminate.
    + apply IH, Hr.
Qed.

Lemma contains_strip sep c0 sep' s :
  sep = String c0 sep' -> contains sep s = false -> contains sep (strip s) = false.
Proof.
  intros Hsep Hs. unfold strip.
  destruct (rstrip_prefix s) as [b Hb]. destruct (lstrip_suffix (rstrip s)) as [a Ha].
  rewrite Hb in Hs. apply (contains_app_l _ _ _ _ _ Hsep) in Hs.
  rewrite Ha in Hs. apply contains_app_r in Hs. exact Hs.
Qed.

(** The closing fence is the first one after a text without fences. *)
Lemma starts_fence_app x y :
  starts_with "```" x = false -> starts_with "```" (x +:+ nl +:+ y) = false.
Proof.
  intros Hx. destruct x as [|c1 [|c2 [|c3 r]]];
    lazy beta iota zeta delta [starts_with String.append nl] in *.
  - reflexivity.
  - destruct (Ascii.eqb "`" c1); reflexivity.
  - destruct (Ascii.eqb "`" c1), (Ascii.eqb "`" c2); reflexivity.
  - exact Hx.
Qed.

Lemma split_fence_tail s t :
  contains "```" s = false ->
  split_once "```" (s +:+ nl +:+ "```" +:+ t) = Some (s +:+ nl, t).
Proof.
  induction s as [|c r IH]; intros Hs.
  - reflexivity.
  - apply contains_cons_false in Hs as [Hsw Hr].
    pose proof (starts_fence_app _ ("```" +:+ t) Hsw) as Hsw'.
    change (String c r +:+ nl +:+ "```" +:+ t)
      with (String c (r +:+ nl +:+ "```" +:+ t)) in *.
    cbn [split_once]. rewrite Hsw', (IH Hr). reflexivity.
Qed.

Lemma starts_json_fence_app x y :
  starts_with "```" x = false -> starts_with "```json" (x +:+ nl +:+ y) = false.
Proof.
  intros Hx. destruct x as [|c1 [|c2 [|c3 r]]];
    lazy beta iota zeta delta [starts_with String.append nl] in *.
  - reflexivity.
  - destruct (Ascii.eqb "`" c1); reflexivity.
  - destruct (Ascii.eqb "`" c1), (Ascii.eqb "`" c2); reflexivity.
  - destruct (Ascii.eqb "`" c1), (Ascii.eqb "`" c2), (Ascii.eqb "`" c3);
      try reflexivity; discriminate Hx.
Qed.

Lemma no_json_fence s :
  contains "```" s = false -> split_once "```json" (s +:+ nl +:+ "```") = None.
Proof.
  induction s as [|c r IH]; intros Hs.
  - reflexivity.
  - apply contains_cons_false in Hs as [Hsw Hr].
    pose proof (starts_json_fence_app _ "```" Hsw) as Hsw'.
    change (String c r +:+ nl +:+ "```") with (String c (r +:+ nl +:+ "```")) in *.
    cbn [split_once]. rewrite Hsw', (IH Hr). reflexivity.
Qed.

(** ** The bracket search *)

Lemma from_first_app c x y :
  from_first c (x +:+ y) =
    match from_first c x with
    | Some r => Some (r +:+ y)
    | None => from_first c y
    end.
Proof.
  induction x as [|a x IH]; [reflexivity|]. rewrite str_app_cons. cbn [from_first].
  destruct (Ascii.eqb a c); [reflexivity|exact IH].
Qed.

Lemma upto_last_app_free c x y :
  upto_last c y = None -> upto_last c (x +:+ y) = upto_last c x.
Proof.
  intros Hy. induction x as [|a x IH]; [exact Hy|].
  rewrite str_app_cons. cbn [upto_last]. rewrite IH. reflexivity.
Qed.

(** Text without brackets around a match does not move it. *)
Lemma re_search_brackets_frame pre s post core :
  from_first "[" pre = None -> upto_last "]" post = None ->
  re_search_brackets s = Some core ->
  re_search_brackets (pre +:+ s +:+ post) = Some core.
Proof.
  intros Hpre Hpost. unfold re_search_brackets.
  rewrite !from_first_app, Hpre.
  destruct (from_first "[" s) as [[|a r]|]; try discriminate.
  rewrite str_app_cons, (upto_last_app_free _ _ _ Hpost). trivial.
Qed.

(** A text ["[" ... "]"] between bracket-free margins is the match. *)
Lemma upto_last_closing mid post :
  upto_last "]" post = None ->
  upto_last "]" (mid +:+ String "]" post) = Some (mid +:+ String "]" "").
Proof.
  intros Hpost. induction mid as [|a mid IH].
  - rewrite !str_app_nil_l. cbn [upto_last]. rewrite Hpost. reflexivity.
  - rewrite !str_app_cons. cbn [upto_last]. rewrite IH. reflexivity.
Qed.

Lemma re_search_brackets_core pre mid post :
  from_first "[" pre = None -> upto_last "]" post = None ->
  re_search_brackets (pre +:+ String "[" (mid +:+ String "]" post))
  = Some (String "[" (mid +:+ String "]" "")).
Proof.
  intros Hpre Hpost. unfold re_search_brackets. rewrite from_first_app, Hpre.
  cbn [from_first]. change (Ascii.eqb "[" "[") with true. cbv iota.
  rewrite (upto_last_closing _ _ Hpost). reflexivity.
Qed.

End PyStrFacts.

(* ===================================================================== *)
(** * The decoder meets the [JSONDecoder] interface                       *)
(* ===================================================================== *)

Section JsonFacts.
Import PyStr Json.

Lemma suffix_of_refl s : suffix_of s s.
Proof. exists "". reflexivity. Qed.

Lemma suffix_of_trans a b c : suffix_of a b -> suffix_of b c -> suffix_of a c.
Proof. intros [x ->] [y ->]. exists (y +:+ x). rewrite str_app_assoc. reflexivity. Qed.

Lemma suffix_of_cons c s : suffix_of s (String c s).
Proof. exists (String c ""). reflexivity. Qed.

Lemma suffix_of_app p s : suffix_of s (p +:+ s).
Proof. exists p. reflexivity. Qed.

Lemma tail_ok_suffix s rest : tail_ok s rest -> suffix_of rest s.
Proof.
  intros (c & _ & Hs). eapply suffix_of_trans; [apply suffix_of_cons|exact Hs].
Qed.

Lemma tail_ok_weaken s s' rest : tail_ok s rest -> suffix_of s s' -> tail_ok s' rest.
Proof. intros (c & Hc & Hs) Hss. exists c. split; [exact Hc|]. eapply suffix_of_trans; eassumption. Qed.

Lemma code_eq c n : (code c =? n)%N = true -> c = ascii_of_N n.
Proof.
  intros Hc. apply N.eqb_eq in Hc. unfold code in Hc.
  rewrite <- Hc. symmetry. apply ascii_N_embedding.
Qed.

(** ** White space of JSON *)

Lemma is_ws_space c : is_ws c = true -> is_ascii_space c = true.
Proof.
  unfold is_ws, is_ascii_space. cbv zeta.
  intros Hc. repeat (apply orb_true_iff in Hc as [Hc|Hc]); apply N.eqb_eq in Hc;
    rewrite Hc; reflexivity.
Qed.

Lemma solid_not_ws c : solid c = true -> is_ws c = false.
Proof.
  intros Hc. destruct (is_ws c) eqn:E; [|reflexivity].
  apply is_ws_space in E. rewrite (solid_not_space _ Hc) in E. discriminate.
Qed.

Lemma all_ws_cons c r :
  all_ws (String c r) = true -> is_ws c = true /\ all_ws r = true.
Proof.
  unfold all_ws. cbn [skip_ws]. destruct (is_ws c); [auto|discriminate].
Qed.

Lemma skip_ws_split s : exists pre, s = pre +:+ skip_ws s /\ all_ws pre = true.
Proof.
  induction s as [|c r (pre & IH & Hpre)]; [exists ""; split; reflexivity|].
  cbn [skip_ws]. destruct (is_ws c) eqn:Hc.
  - exists (String c pre). split; [rewrite str_app_cons, <- IH; reflexivity|].
    unfold all_ws in *. cbn [skip_ws]. rewrite Hc. exact Hpre.
  - exists "". split; reflexivity.
Qed.

Lemma skip_ws_suffix s : suffix_of (skip_ws s) s.
Proof. destruct (skip_ws_split s) as (pre & Hs & _). exists pre. exact Hs. Qed.

Lemma rtrim_split s : exists post, s = rtrim s +:+ post /\ all_ws post = true.
Proof.
  induction s as [|c r (post & IH & Hpost)]; [exists ""; split; reflexivity|].
  cbn [rtrim]. destruct (all_ws (String c r)) eqn:Hc.
  - exists (String c r). split; [reflexivity|exact Hc].
  - exists post. split; [rewrite str_app_cons, <- IH; reflexivity|exact Hpost].
Qed.

Lemma trim_split s :
  exists pre post, s = pre +:+ trim s +:+ post
                   /\ all_ws pre = true /\ all_ws post = true.
Proof.
  destruct (rtrim_split s) as (post & Hs & Hpost).
  destruct (skip_ws_split (rtrim s)) as (pre & Hr & Hpre).
  exists pre, post. split; [|split; assumption].
  unfold trim. rewrite <- str_app_assoc, <- Hr. exact Hs.
Qed.

Lemma all_ws_app_solid x c y : is_ws c = false -> all_ws (x +:+ String c y) = false.
Proof.
  intros Hc. induction x as [|a x IH].
  - unfold all_ws. rewrite str_app_nil_l. cbn [skip_ws]. rewrite Hc. reflexivity.
  - rewrite str_app_cons. unfold all_ws in *. cbn [skip_ws].
    destruct (is_ws a); [exact IH|reflexivity].
Qed.

Lemma rtrim_solid_end x c : is_ws c = false -> rtrim (x +:+ String c "") = x +:+ String c "".
Proof.
  intros Hc. induction x as [|a x IH].
  - rewrite str_app_nil_l. cbn [rtrim]. unfold all_ws. cbn [skip_ws]. rewrite Hc. reflexivity.
  - rewrite str_app_cons. cbn [rtrim]. rewrite <- str_app_cons, (all_ws_app_solid _ _ _ Hc), str_app_cons, IH.
    reflexivity.
Qed.

(** A text with solid ends is its own [trim]. *)
Lemma trim_solid_ends c0 r c1 body :
  solid c0 = true -> solid c1 = true ->
  String c0 r = body +:+ String c1 "" ->
  trim (String c0 r) = String c0 r.
Proof.
  intros H0 H1 Heq. unfold trim. rewrite Heq, (rtrim_solid_end _ _ (solid_not_ws _ H1)), <- Heq.
  cbn [skip_ws]. rewrite (solid_not_ws _ H0). reflexivity.
Qed.

Lemma lstrip_jws pre x : all_ws pre = true -> lstrip (pre +:+ x) = lstrip x.
Proof.
  induction pre as [|c pre IH]; intros Hpre; [reflexivity|].
  apply all_ws_cons in Hpre as [Hc Hpre]. rewrite str_app_cons. cbn [lstrip].
  rewrite (is_ws_space _ Hc). apply IH, Hpre.
Qed.

Lemma is_blank_jws p : all_ws p = true -> is_blank p = true.
Proof.
  intros Hp. unfold is_blank. rewrite <- (str_app_nil_r p), (lstrip_jws _ _ Hp). reflexivity.
Qed.

Lemma from_first_jws pre : all_ws pre = true -> from_first "[" pre = None.
Proof.
  induction pre as [|c pre IH]; intros Hpre; [reflexivity|].
  apply all_ws_cons in Hpre as [Hc Hpre]. cbn [from_first].
  destruct (Ascii.eqb_spec c "[") as [->|_]; [discriminate Hc|]. apply IH, Hpre.
Qed.

Lemma upto_last_jws post : all_ws post = true -> upto_last "]" post = None.
Proof.
  induction post as [|c post IH]; intros Hpost; [reflexivity|].
  apply all_ws_cons in Hpost as [Hc Hpost]. cbn [upto_last]. rewrite (IH Hpost).
  destruct (Ascii.eqb_spec c "]") as [->|_]; [discriminate Hc|]. reflexivity.
Qed.

(** [rstrip] stops at a solid character followed by JSON white space. *)
Lemma rstrip_to_solid x c post :
  solid c = true -> all_ws post = true ->
  rstrip (x +:+ String c post) = x +:+ String c "".
Proof.
  intros Hc Hpost. induction x as [|a x IH].
  - rewrite !str_app_nil_l, rstrip_unfold. unfold is_blank at 1. rewrite (lstrip_solid _ _ Hc).
    rewrite (rstrip_blank _ (is_blank_jws _ Hpost)). reflexivity.
  - rewrite !str_app_cons, rstrip_unfold, <- str_app_cons, (is_blank_app_solid _ _ _ Hc), IH.
    reflexivity.
Qed.

(** ** Where a parsed value ends *)

Lemma prepend_some {A} x (o : option (string * A)) t rest :
  prepend x o = Some (t, rest) -> exists t', o = Some (t', rest).
Proof.
  destruct o as [[t' r']|]; [|discriminate]. cbn. intros [= _ ->]. eauto.
Qed.

(** A string literal ends with its closing quote. *)
Lemma parse_string_tail s : forall st pend t rest,
  parse_string st pend s = Some (t, rest) -> suffix_of (String "034" rest) s.
Proof.
  induction s as [|c r IH]; intros st pend t rest Hp; [discriminate|].
  cbn [parse_string] in Hp.
  repeat match goal with
  | H : prepend _ _ = Some _ |- _ => apply prepend_some in H as [? H]
  | H : parse_string _ _ r = Some _ |- _ =>
      apply IH in H; exact (suffix_of_trans _ _ _ H (suffix_of_cons c r))
  | H : None = Some _ |- _ => discriminate H
  | H : Some (_, r) = Some (_, _), E : (code c =? 34)%N = true |- _ =>
      injection H as _ <-; rewrite (code_eq _ _ E); apply suffix_of_refl
  | H : context [if ?b then _ else _] |- _ => destruct b eqn:?
  | H : context [match ?x with _ => _ end] |- _ => destruct x eqn:?
  end.
Qed.

Lemma is_digit_solid c : is_digit c = true -> solid c = true.
Proof.
  unfold is_digit, solid, plain, is_ascii_space. cbv zeta.
  intros [H1 H2]%andb_true_iff. apply N.leb_le in H1, H2.
  apply andb_true_iff. split; [apply N.ltb_lt; lia|].
  apply negb_true_iff, orb_false_iff. split; apply andb_false_iff.
  - right. apply N.leb_gt. lia.
  - right. apply N.leb_gt. lia.
Qed.

Lemma tail_ok_here c r : solid c = true -> tail_ok (String c r) r.
Proof. intros Hc. exists c. split; [exact Hc|apply suffix_of_refl]. Qed.

Lemma tail_ok_cons a s rest : tail_ok s rest -> tail_ok (String a s) rest.
Proof. intros Hs. eapply tail_ok_weaken; [exact Hs|apply suffix_of_cons]. Qed.

(** A run of digits: nothing is read, or the text read ends with a digit. *)
Lemma span_digits_tail s : forall acc n acc' n' r,
  span_digits acc n s = (acc', n', r) ->
  (n' = n /\ r = s) \/ (n < n' /\ tail_ok s r).
Proof.
  induction s as [|c x IH]; intros acc n acc' n' r Hs; cbn [span_digits] in Hs.
  - injection Hs as _ <- <-. left. split; reflexivity.
  - destruct (is_digit c) eqn:Hc.
    + right. apply IH in Hs as [[-> ->]|[Hlt Ht]].
      * split; [lia|]. apply tail_ok_here, is_digit_solid, Hc.
      * split; [lia|]. apply tail_ok_cons, Ht.
    + injection Hs as _ <- <-. left. split; reflexivity.
Qed.

Lemma parse_frac_tail m s o r :
  parse_frac m s = (o, r) ->
  match o with Some _ => tail_ok s r | None => r = s end.
Proof.
  unfold parse_frac. destruct s as [|c x]; [intros [= <- <-]; reflexivity|].
  destruct (code c =? 46)%N; [|intros [= <- <-]; reflexivity].
  destruct (span_digits m 0 x) as [[m' n] r'] eqn:Hs.
  apply span_digits_tail in Hs as [[-> ->]|[Hlt Ht]].
  - cbn. intros [= <- <-]. reflexivity.
  - destruct (n =? 0) eqn:Hn; [apply Z.eqb_eq in Hn; lia|].
    intros [= <- <-]. apply tail_ok_cons, Ht.
Qed.

Lemma parse_exp_tail s o r :
  parse_exp s = (o, r) ->
  match o with Some _ => tail_ok s r | None => r = s end.
Proof.
  unfold parse_exp. destruct s as [|c x]; [intros [= <- <-]; reflexivity|].
  destruct ((code c =? 101) || (code c =? 69))%N; [|intros [= <- <-]; reflexivity].
  assert (Hsign : exists neg r1, match x with
            | String sg r0 =>
                if (code sg =? 45)%N then (true, r0)
                else if (code sg =? 43)%N then (false, r0) else (false, x)
            | EmptyString => (false, x)
            end = (neg, r1) /\ suffix_of r1 x).
  { destruct x as [|sg r0]; [eexists _, _; split; [reflexivity|apply suffix_of_refl]|].
    destruct (code sg =? 45)%N; [eexists _, _; split; [reflexivity|apply suffix_of_cons]|].
    destruct (code sg =? 43)%N; eexists _, _; (split; [reflexivity|]);
      [apply suffix_of_cons|apply suffix_of_refl]. }
  destruct Hsign as (neg & r1 & -> & Hr1).
  destruct (span_digits 0 0 r1) as [[e n] r'] eqn:Hs.
  apply span_digits_tail in Hs as [[-> ->]|[Hlt Ht]].
  - cbn. intros [= <- <-]. reflexivity.
  - destruct (n =? 0) eqn:Hn; [apply Z.eqb_eq in Hn; lia|].
    intros [= <- <-]. apply tail_ok_cons. eapply tail_ok_weaken; eassumption.
Qed.

Lemma tail_ok_trans s r1 r2 : tail_ok s r1 -> tail_ok r1 r2 -> tail_ok s r2.
Proof. intros H1 H2. eapply tail_ok_weaken; [exact H2|apply tail_ok_suffix, H1]. Qed.

Lemma parse_number_tail neg s v r :
  parse_number neg s = Some (v, r) -> tail_ok s r /\ not_list v.
Proof.
  unfold parse_number. destruct s as [|c x]; [discriminate|].
  destruct (is_digit c) eqn:Hc; [|discriminate].
  pose proof (is_digit_solid _ Hc) as Hsolid.
  assert (Hint : exists m k r1,
            (if (code c =? 48)%N then (0, 1, x) else span_digits (digit_val c) 1 x)
            = (m, k, r1) /\ tail_ok (String c x) r1).
  { destruct (code c =? 48)%N.
    - eexists _, _, _. split; [reflexivity|apply tail_ok_here, Hsolid].
    - destruct (span_digits (digit_val c) 1 x) as [[m k] r1] eqn:Hs.
      eexists _, _, _. split; [reflexivity|].
      apply span_digits_tail in Hs as [[_ ->]|[_ Ht]];
        [apply tail_ok_here, Hsolid|apply tail_ok_cons, Ht]. }
  destruct Hint as (m & k & r1 & -> & Hr1).
  destruct (parse_frac m r1) as [fo r2] eqn:Hf. apply parse_frac_tail in Hf.
  destruct (parse_exp r2) as [eo r3] eqn:He. apply parse_exp_tail in He.
  assert (Hr3 : tail_ok (String c x) r3).
  { destruct fo as [[m' n]|], eo as [e|]; subst;
      eauto using tail_ok_trans. }
  destruct fo as [[m' n]|], eo as [e|]; intros [= <- <-];
    (split; [exact Hr3|intros l; discriminate]).
Qed.

Lemma literal_tail lit c v s v' r :
  solid c = true ->
  literal (lit +:+ String c "") v s = Some (v', r) ->
  tail_ok s r /\ v' = v.
Proof.
  intros Hc. unfold literal.
  destruct (starts_with (lit +:+ String c "") s) eqn:Hs; [|discriminate].
  intros [= <- <-]. split; [|reflexivity].
  apply starts_with_split in Hs. rewrite str_app_assoc in Hs.
  exists c. split; [exact Hc|]. exists lit. exact Hs.
Qed.

Lemma first_some_cases {A} (a b : option A) x :
  first_some a b = Some x -> a = Some x \/ b = Some x.
Proof. destruct a; cbn; auto. Qed.

Lemma parse_scalar_tail s v r :
  parse_scalar s = Some (v, r) -> tail_ok s r /\ not_list v.
Proof.
  unfold parse_scalar. destruct s as [|c x]; [discriminate|].
  destruct (code c =? 34)%N eqn:Hq.
  { destruct (parse_string SNorm None x) as [[t rest]|] eqn:Hs; [|discriminate].
    intros [= <- <-]. split; [|intros l; discriminate].
    apply parse_string_tail in Hs. exists "034"%char. split; [reflexivity|].
    eapply suffix_of_trans; [exact Hs|apply suffix_of_cons]. }
  destruct (code c =? 45)%N eqn:Hm.
  { intros [H|H]%first_some_cases.
    - apply (literal_tail "Infinit" "y") in H as [Ht ->]; [|reflexivity].
      split; [apply tail_ok_cons, Ht|intros l; discriminate].
    - apply parse_number_tail in H as [Ht Hn]. split; [apply tail_ok_cons, Ht|exact Hn]. }
  intros H.
  repeat (apply first_some_cases in H as [H|H]).
  - apply (literal_tail "nul" "l") in H as [Ht ->]; [|reflexivity].
    split; [exact Ht|intros l; discriminate].
  - apply (literal_tail "tru" "e") in H as [Ht ->]; [|reflexivity].
    split; [exact Ht|intros l; discriminate].
  - apply (literal_tail "fals" "e") in H as [Ht ->]; [|reflexivity].
    split; [exact Ht|intros l; discriminate].
  - apply (literal_tail "Na" "N") in H as [Ht ->]; [|reflexivity].
    split; [exact Ht|intros l; discriminate].
  - apply (literal_tail "Infinit" "y") in H as [Ht ->]; [|reflexivity].
    split; [exact Ht|intros l; discriminate].
  - apply parse_number_tail in H. exact H.
Qed.

(** A value ends with a solid character; an array starts with ["["] and
    ends with ["]"]. *)
Lemma parse_tail fuel :
  (forall s v rest, parse_value fuel s = Some (v, rest) -> value_span s v rest)
  /\ (forall s vs rest, parse_elems fuel s = Some (vs, rest) ->
        suffix_of (String "]" rest) s)
  /\ (forall acc s d rest, parse_members fuel acc s = Some (d, rest) ->
        suffix_of (String "}" rest) s).
Proof.
  induction fuel as [|f (IHv & IHe & IHm)]; [repeat split; discriminate|].
  split; [|split].
  - (* parse_value *)
    intros s v rest Hp. cbn [parse_value] in Hp.
    destruct s as [|c r]; [discriminate|].
    destruct (code c =? 91)%N eqn:Hopen.
    { apply code_eq in Hopen. change (ascii_of_N 91) with "["%char in Hopen. subst c.
      pose proof (skip_ws_suffix r) as Hr.
      destruct (skip_ws r) as [|c1 r1]; [discriminate|].
      assert (Hclose : suffix_of (String "]" rest) (String "[" r)).
      { destruct (code c1 =? 93)%N eqn:Hc1.
        - injection Hp as _ <-. apply code_eq in Hc1.
          change (ascii_of_N 93) with "]"%char in Hc1. subst c1.
          eapply suffix_of_trans; [exact Hr|apply suffix_of_cons].
        - destruct (parse_elems f (String c1 r1)) as [[vs rest']|] eqn:He; [|discriminate].
          injection Hp as _ <-. apply IHe in He.
          eapply suffix_of_trans; [exact He|].
          eapply suffix_of_trans; [exact Hr|apply suffix_of_cons]. }
      split; [exists "]"%char; split; [reflexivity|exact Hclose]|].
      intros l _. split; [exact Hclose|eauto]. }
    destruct (code c =? 123)%N eqn:Hobj.
    { pose proof (skip_ws_suffix r) as Hr.
      destruct (skip_ws r) as [|c1 r1]; [discriminate|].
      assert (Hclose : suffix_of (String "}" rest) (String c r) /\ not_list v).
      { destruct (code c1 =? 125)%N eqn:Hc1.
        - injection Hp as <- <-. apply code_eq in Hc1.
          change (ascii_of_N 125) with "}"%char in Hc1. subst c1.
          split; [|intros l; discriminate].
          eapply suffix_of_trans; [exact Hr|apply suffix_of_cons].
        - destruct (parse_members f ∅ (String c1 r1)) as [[d rest']|] eqn:He; [|discriminate].
          injection Hp as <- <-. apply IHm in He.
          split; [|intros l; discriminate].
          eapply suffix_of_trans; [exact He|].
          eapply suffix_of_trans; [exact Hr|apply suffix_of_cons]. }
      destruct Hclose as [Hclose Hnl].
      split; [exists "}"%char; split; [reflexivity|exact Hclose]|].
      intros l ->. destruct (Hnl l eq_refl). }
    apply parse_scalar_tail in Hp as [Ht Hnl].
    split; [exact Ht|]. intros l ->. destruct (Hnl l eq_refl).
  - (* parse_elems *)
    intros s vs rest Hp. cbn [parse_elems] in Hp.
    destruct (parse_value f s) as [[v r]|] eqn:Hv; [|discriminate].
    apply IHv in Hv as [Hv%tail_ok_suffix _].
    pose proof (skip_ws_suffix r) as Hr.
    destruct (skip_ws r) as [|c r1]; [discriminate|].
    destruct (code c =? 93)%N eqn:Hc.
    { injection Hp as _ <-. apply code_eq in Hc.
      change (ascii_of_N 93) with "]"%char in Hc. subst c.
      eapply suffix_of_trans; [exact Hr|exact Hv]. }
    destruct (code c =? 44)%N; [|discriminate].
    destruct (parse_elems f (skip_ws r1)) as [[vs' rest']|] eqn:He; [|discriminate].
    injection Hp as _ <-. apply IHe in He.
    eapply suffix_of_trans; [exact He|].
    eapply suffix_of_trans; [apply skip_ws_suffix|].
    eapply suffix_of_trans; [apply suffix_of_cons|].
    eapply suffix_of_trans; [exact Hr|exact Hv].
  - (* parse_members *)
    intros acc s d rest Hp. cbn [parse_members] in Hp.
    destruct s as [|q r]; [discriminate|].
    destruct (code q =? 34)%N; [|discriminate].
    destruct (parse_string SNorm None r) as [[k r1]|] eqn:Hk; [|discriminate].
    apply parse_string_tail in Hk.
    assert (Hr1 : suffix_of r1 (String q r)).
    { eapply suffix_of_trans; [apply suffix_of_cons|].
      eapply suffix_of_trans; [exact Hk|apply suffix_of_cons]. }
    pose proof (skip_ws_suffix r1) as Hs1.
    destruct (skip_ws r1) as [|colon r2]; [discriminate|].
    destruct (code colon =? 58)%N; [|discriminate].
    destruct (parse_value f (skip_ws r2)) as [[v r3]|] eqn:Hv; [|discriminate].
    apply IHv in Hv as [Hv%tail_ok_suffix _].
    assert (Hr3 : suffix_of r3 (String q r)).
    { eapply suffix_of_trans; [exact Hv|].
      eapply suffix_of_trans; [apply skip_ws_suffix|].
      eapply suffix_of_trans; [apply suffix_of_cons|].
      eapply suffix_of_trans; [exact Hs1|exact Hr1]. }
    pose proof (skip_ws_suffix r3) as Hs3.
    destruct (skip_ws r3) as [|c r4]; [discriminate|].
    destruct (code c =? 125)%N eqn:Hc.
    { injection Hp as _ <-. apply code_eq in Hc.
      change (ascii_of_N 125) with "}"%char in Hc. subst c.
      eapply suffix_of_trans; [exact Hs3|exact Hr3]. }
    destruct (code c =? 44)%N; [|discriminate].
    apply IHm in Hp.
    eapply suffix_of_trans; [exact Hp|].
    eapply suffix_of_trans; [apply skip_ws_suffix|].
    eapply suffix_of_trans; [apply suffix_of_cons|].
    eapply suffix_of_trans; [exact Hs3|exact Hr3].
Qed.

(** A value starts with a solid character. *)
Lemma starts_with_head lit c0 s :
  starts_with (String c0 lit) s = true -> exists r, s = String c0 r.
Proof.
  destruct s as [|b r]; [discriminate|]. cbn.
  intros [Hb _]%andb_true_iff. apply Ascii.eqb_eq in Hb as <-. eauto.
Qed.

Lemma parse_value_head fuel s v rest :
  parse_value fuel s = Some (v, rest) ->
  exists c0 r0, s = String c0 r0 /\ solid c0 = true.
Proof.
  destruct fuel as [|f]; [discriminate|]. cbn [parse_value].
  destruct s as [|c r]; [discriminate|]. intros Hp. exists c, r. split; [reflexivity|].
  destruct (code c =? 91)%N eqn:H1; [apply code_eq in H1; subst c; reflexivity|].
  destruct (code c =? 123)%N eqn:H2; [apply code_eq in H2; subst c; reflexivity|].
  unfold parse_scalar in Hp.
  destruct (code c =? 34)%N eqn:H3; [apply code_eq in H3; subst c; reflexivity|].
  destruct (code c =? 45)%N eqn:H4; [apply code_eq in H4; subst c; reflexivity|].
  unfold literal in Hp.
  repeat match type of Hp with
  | first_some (if ?b then _ else _) _ = _ =>
      let Hb := fresh "Hb" in
      destruct b eqn:Hb;
      [apply starts_with_head in Hb as [r' Heq]; injection Heq as -> _; reflexivity
      |cbn [first_some] in Hp]
  end.
  unfold parse_number in Hp.
  destruct (is_digit c) eqn:Hd; [apply is_digit_solid, Hd|discriminate].
Qed.

(** ** The four facts *)

Lemma loads_parse s v :
  loads s = Some v ->
  parse_value (2 * String.length (trim s) + 2) (trim s) = Some (v, "").
Proof.
  unfold loads. cbv zeta.
  destruct (parse_value _ (trim s)) as [[v' [|c r]]|]; [|discriminate..].
  intros [= ->]. reflexivity.
Qed.

(** A document, trimmed: it has solid ends, it is its own [trim] and what
    [strip] leaves of the text. *)
Lemma loads_trimmed s v :
  loads s = Some v ->
  trim (trim s) = trim s /\ strip s = trim s
  /\ exists pre post, s = pre +:+ trim s +:+ post
                      /\ all_ws pre = true /\ all_ws post = true.
Proof.
  intros Hl. apply loads_parse in Hl.
  destruct (parse_value_head _ _ _ _ Hl) as (c0 & r0 & Heq & H0).
  destruct (proj1 (parse_tail _) _ _ _ Hl) as [(c1 & H1 & body & Hb) _].
  destruct (trim_split s) as (pre & post & Hs & Hpre & Hpost).
  rewrite Heq in Hb.
  split; [|split].
  - rewrite Heq. eapply trim_solid_ends; eassumption.
  - rewrite Hs at 1. rewrite Heq, Hb. unfold strip.
    rewrite str_app_assoc, <- (str_app_assoc pre), (str_app_cons c1 "" post), str_app_nil_l.
    rewrite (rstrip_to_solid _ _ _ H1 Hpost).
    rewrite str_app_assoc, (lstrip_jws _ _ Hpre), <- Hb. apply lstrip_solid, H0.
  - exists pre, post. auto.
Qed.

(** An array document, found by the pattern of the recovery. *)
Lemma loads_array_region s l :
  loads s = Some (PList l) -> re_search_brackets s = Some (trim s).
Proof.
  intros Hl. destruct (loads_trimmed _ _ Hl) as (Ht & _ & pre & post & Hs & Hpre & Hpost).
  pose proof (loads_parse _ _ Hl) as Hp.
  destruct (proj1 (parse_tail _) _ _ _ Hp) as [_ Harr].
  destruct (Harr l eq_refl) as [[body Hb] [r Hr]].
  destruct body as [|b body]; [rewrite Hr in Hb; discriminate Hb|].
  rewrite Hr, str_app_cons in Hb. injection Hb as <- ->.
  rewrite Hs at 1. rewrite Hr.
  rewrite str_app_cons, str_app_assoc, (str_app_cons "]" "" post), str_app_nil_l.
  apply re_search_brackets_core; [apply from_first_jws, Hpre|apply upto_last_jws, Hpost].
Qed.

Lemma loads_bracket_array s v :
  loads (String "[" s) = Some v -> exists l, v = PList l.
Proof.
  intros Hl. pose proof (loads_parse _ _ Hl) as Hp.
  assert (Ht : trim (String "[" s) = String "[" (rtrim s)).
  { unfold trim. cbn [rtrim]. reflexivity. }
  rewrite Ht in Hp. rewrite Nat.add_comm in Hp. cbn [Nat.add parse_value] in Hp.
  change (code "[" =? 91)%N with true in Hp. cbv iota in Hp.
  destruct (skip_ws (rtrim s)) as [|c1 r1]; [discriminate|].
  destruct (code c1 =? 93)%N; [injection Hp as <- _; eauto|].
  destruct (parse_elems _ _) as [[vs rest]|]; [|discriminate].
  injection Hp as <- _. eauto.
Qed.

(** ** The decoder of the interpreter *)

Section Decoder.
Variable lim : Limits.

(** What the scanner returns is what the grammar gives. *)
Lemma scan_number_sound neg s x :
  scan_number lim neg s = Ok x -> parse_number neg s = Some x.
Proof.
  unfold scan_number, parse_number, int_of_literal.
  destruct s as [|c r]; [discriminate|].
  destruct (is_digit c); [|discriminate].
  destruct (if (code c =? 48)%N then (0, 1, r) else span_digits (digit_val c) 1 r)
    as [[m digits] r1].
  destruct (parse_frac m r1) as [[[m' n]|] r2].
  - destruct (parse_exp r2) as [[e|] r3]; intros [= <-]; reflexivity.
  - destruct (parse_exp r2) as [[e|] r3]; [intros [= <-]; reflexivity|].
    destruct ((0 <? max_str_digits lim) && (max_str_digits lim <? digits));
      [discriminate|intros [= <-]; reflexivity].
Qed.

Lemma scan_scalar_sound s x :
  scan_scalar lim s = Ok x -> parse_scalar s = Some x.
Proof.
  unfold scan_scalar, parse_scalar. destruct s as [|c r]; [discriminate|].
  destruct (code c =? 34)%N.
  { destruct (parse_string SNorm None r) as [[t rest]|]; [intros [= <-]; reflexivity|discriminate]. }
  destruct (code c =? 45)%N.
  { destruct (literal "Infinity" (PFloat (FInf true)) r) as [y|]; cbn [first_some].
    - intros [= <-]. reflexivity.
    - apply scan_number_sound. }
  destruct (literal "null" PNone (String c r)) as [y|]; cbn [first_some];
    [intros [= <-]; reflexivity|].
  destruct (literal "true" (PBool true) (String c r)) as [y|]; cbn [first_some];
    [intros [= <-]; reflexivity|].
  destruct (literal "false" (PBool false) (String c r)) as [y|]; cbn [first_some];
    [intros [= <-]; reflexivity|].
  destruct (literal "NaN" (PFloat FNaN) (String c r)) as [y|]; cbn [first_some];
    [intros [= <-]; reflexivity|].
  destruct (literal "Infinity" (PFloat (FInf false)) (String c r)) as [y|]; cbn [first_some];
    [intros [= <-]; reflexivity|].
  apply scan_number_sound.
Qed.

Lemma scan_sound fuel :
  (forall depth s x, scan_value lim fuel depth s = Ok x -> parse_value fuel s = Some x)
  /\ (forall depth s x, scan_elems lim fuel depth s = Ok x -> parse_elems fuel s = Some x)
  /\ (forall depth acc s x,
        scan_members lim fuel depth acc s = Ok x -> parse_members fuel acc s = Some x).
Proof.
  induction fuel as [|f (IHv & IHe & IHm)]; [repeat split; intros; discriminate|].
  split; [|split].
  - intros depth s x. cbn [scan_value parse_value].
    destruct s as [|c r]; [discriminate|].
    destruct (code c =? 91)%N.
    { destruct depth as [|d]; [discriminate|].
      destruct (skip_ws r) as [|c1 r1]; [discriminate|].
      destruct (code c1 =? 93)%N; [intros [= <-]; reflexivity|].
      destruct (scan_elems lim f d (String c1 r1)) as [[vs rest]| |e] eqn:He; try discriminate.
      rewrite (IHe _ _ _ He). intros [= <-]. reflexivity. }
    destruct (code c =? 123)%N.
    { destruct depth as [|d]; [discriminate|].
      destruct (skip_ws r) as [|c1 r1]; [discriminate|].
      destruct (code c1 =? 125)%N; [intros [= <-]; reflexivity|].
      destruct (scan_members lim f d ∅ (String c1 r1)) as [[m rest]| |e] eqn:Hm;
        try discriminate.
      rewrite (IHm _ _ _ _ Hm). intros [= <-]. reflexivity. }
    apply scan_scalar_sound.
  - intros depth s x. cbn [scan_elems parse_elems].
    destruct (scan_value lim f depth s) as [[v r]| |e] eqn:Hv; try discriminate.
    rewrite (IHv _ _ _ Hv).
    destruct (skip_ws r) as [|c r1]; [discriminate|].
    destruct (code c =? 93)%N; [intros [= <-]; reflexivity|].
    destruct (code c =? 44)%N; [|discriminate].
    destruct (scan_elems lim f depth (skip_ws r1)) as [[vs rest]| |e] eqn:He; try discriminate.
    rewrite (IHe _ _ _ He). intros [= <-]. reflexivity.
  - intros depth acc s x. cbn [scan_members parse_members].
    destruct s as [|q r]; [discriminate|].
    destruct (code q =? 34)%N; [|discriminate].
    destruct (parse_string SNorm None r) as [[k r1]|]; [|discriminate].
    destruct (skip_ws r1) as [|colon r2]; [discriminate|].
    destruct (code colon =? 58)%N; [|discriminate].
    destruct (scan_value lim f depth (skip_ws r2)) as [[v r3]| |e] eqn:Hv; try discriminate.
    rewrite (IHv _ _ _ Hv).
    destruct (skip_ws r3) as [|c r4]; [discriminate|].
    destruct (code c =? 125)%N; [intros [= <-]; reflexivity|].
    destruct (code c =? 44)%N; [|discriminate].
    apply IHm.
Qed.

(** A text that [decode] accepts is a document, with that value. *)
Lemma decode_document s v : decode lim s = Ret v -> loads s = Some v.
Proof.
  unfold decode, loads. cbv zeta.
  destruct (scan_value lim _ (nesting lim) (trim s)) as [[v' [|c r]]| |e] eqn:Hs;
    try discriminate.
  intros [= <-]. rewrite (proj1 (scan_sound _) _ _ _ Hs). reflexivity.
Qed.

(** [decode] reads the text between the white space around it. *)
Lemma decode_trim s : trim (trim s) = trim s -> decode lim (trim s) = decode lim s.
Proof. intros Ht. unfold decode. cbv zeta. rewrite Ht. reflexivity. Qed.

Lemma decode_strip s v : decode lim s = Ret v -> decode lim (strip s) = Ret v.
Proof.
  intros Hd. destruct (loads_trimmed _ _ (decode_document _ _ Hd)) as (Ht & Hs & _).
  rewrite Hs, (decode_trim _ Ht). exact Hd.
Qed.

Lemma decode_array_core s l :
  decode lim s = Ret (PList l) ->
  exists core, re_search_brackets s = Some core /\ decode lim core = Ret (PList l).
Proof.
  intros Hd. pose proof (decode_document _ _ Hd) as Hl.
  destruct (loads_trimmed _ _ Hl) as (Ht & _).
  exists (trim s). split; [exact (loads_array_region _ _ Hl)|].
  rewrite (decode_trim _ Ht). exact Hd.
Qed.

Lemma decode_empty :
  exists e, decode lim "" = Raise e /\ is_JSONDecodeError e = true.
Proof. eexists. split; reflexivity. Qed.

Lemma decode_bracket s v :
  decode lim (String "[" s) = Ret v -> exists l, v = PList l.
Proof. intros Hd. exact (loads_bracket_array _ _ (decode_document _ _ Hd)). Qed.

(** More opening brackets than may be open at once: the scanner stops at
    the first one too many, whatever the limits are. *)
Lemma times_bracket n : Demo.times (S n) "[" = String "[" (Demo.times n "[").
Proof. cbn [Demo.times]. rewrite str_app_cons, str_app_nil_l. reflexivity. Qed.

Lemma length_times_bracket n : String.length (Demo.times n "[") = n.
Proof.
  induction n as [|n IH]; [reflexivity|].
  rewrite times_bracket. cbn [String.length]. rewrite IH. reflexivity.
Qed.

Lemma trim_times_bracket n : trim (Demo.times n "[") = Demo.times n "[".
Proof.
  assert (Hr : rtrim (Demo.times n "[") = Demo.times n "[").
  { induction n as [|n IH]; [reflexivity|].
    rewrite times_bracket. cbn [rtrim]. unfold all_ws. cbn [skip_ws].
    change (is_ws "[") with false. cbv iota. rewrite IH. reflexivity. }
  unfold trim. rewrite Hr. destruct n as [|n]; [reflexivity|].
  rewrite times_bracket. reflexivity.
Qed.

Lemma scan_deep_array depth : forall fuel n,
  (depth < n)%nat -> (2 * depth < fuel)%nat ->
  scan_value lim fuel depth (Demo.times n "[") = Stop (too_deep "array").
Proof.
  induction depth as [|d IH]; intros fuel n Hn Hf.
  - destruct fuel as [|f]; [lia|]. destruct n as [|n]; [lia|].
    rewrite times_bracket. reflexivity.
  - destruct fuel as [|[|f]]; [lia..|]. destruct n as [|n]; [lia|].
    rewrite times_bracket. cbn [scan_value].
    change (code "[" =? 91)%N with true. cbv iota.
    destruct n as [|n]; [lia|]. rewrite times_bracket. cbn [skip_ws].
    change (is_ws "[") with false. change (code "[" =? 93)%N with false. cbv iota.
    cbn [scan_elems]. rewrite <- times_bracket.
    rewrite (IH f (S n)) by lia. reflexivity.
Qed.

Lemma decode_deep_array n :
  (nesting lim < n)%nat -> decode lim (Demo.times n "[") = Raise (too_deep "array").
Proof.
  intros Hn. unfold decode. cbv zeta.
  rewrite trim_times_bracket, length_times_bracket.
  rewrite scan_deep_array by lia. reflexivity.
Qed.

End Decoder.

End JsonFacts.

(** [Json.decode] as a [JSONDecoder], for every pair of limits. *)
Lemma limited_decoder (lim : Json.Limits) : JSONDecoder.
Proof.
  refine {| json_loads := Json.decode lim |}.
  - exact (decode_strip lim).
  - exact (decode_array_core lim).
  - exact (decode_empty lim).
  - exact (decode_bracket lim).
Defined.

(** The decoder of an interpreter with its default limits. *)
Lemma reference_decoder : JSONDecoder.
Proof. exact (limited_decoder Json.default_limits). Defined.
(* ===================================================================== *)
(** * Conversation state: the history bound                               *)
(* ===================================================================== *)

Section DialogueContextFacts.
Context `{Collaborators}.
Import DialogueContext.

Lemma py_slice_from_neg_length {A} (l : list A) (m : Z) :
  0 < m ->
  length (py_slice_from (- m) l) = Nat.min (length l) (Z.to_nat m).
Proof.
  intros Hm. unfold py_slice_from.
  destruct (Z.ltb_spec (- m) 0) as [_|Hge]; [|lia].
  rewrite length_drop. lia.
Qed.

Lemma py_slice_from_zero {A} (l : list A) : py_slice_from (- 0) l = l.
Proof. reflexivity. Qed.

(** With an open session the method appends, then cuts. *)
Lemma add_message_open_session self role content md w :
  no_session self = false ->
  messages (add_message self role content md w).1 =
    let msgs := messages self
                ++ [mkMessage role content (isoformat (clock_now w).1)
                              (metadata_or_empty md)] in
    if Z.of_nat (length msgs) >? max_history self
    then py_slice_from (- max_history self) msgs
    else msgs.
Proof.
  intros Hs. unfold add_message. rewrite Hs.
  destruct (clock_now w) as [now w2]. reflexivity.
Qed.

Lemma add_message_max_history self role content md w :
  max_history (add_message self role content md w).1 = max_history self.
Proof.
  unfold add_message, start_new_session.
  destruct (no_session self).
  - destruct (clock_now w) as [t1 w1]. destruct (clock_now w1) as [t2 w2].
    destruct (clock_now w2) as [t3 w3]. reflexivity.
  - destruct (clock_now w) as [t1 w1]. reflexivity.
Qed.

Lemma add_message_opens_session self role content md w :
  no_session self = false ->
  no_session (add_message self role content md w).1 = false.
Proof.
  intros Hs. unfold add_message. rewrite Hs.
  destruct (clock_now w) as [t1 w1]. exact Hs.
Qed.

Lemma cut_bounded {A} (msgs : list A) (m : Z) :
  0 < m ->
  Z.of_nat (length (if Z.of_nat (length msgs) >? m
                    then py_slice_from (- m) msgs else msgs)) <= m.
Proof.
  intros Hm. destruct (Z.gtb_spec (Z.of_nat (length msgs)) m).
  - rewrite py_slice_from_neg_length by assumption. lia.
  - lia.
Qed.

(** For a positive bound the history never exceeds it. *)
Lemma add_message_bounded self role content md w :
  0 < max_history self ->
  Z.of_nat (length (messages (add_message self role content md w).1))
    <= max_history self.
Proof.
  intros Hm. unfold add_message, start_new_session.
  destruct (no_session self).
  - destruct (clock_now w) as [t1 w1]. destruct (clock_now w1) as [t2 w2].
    destruct (clock_now w2) as [t3 w3]. cbn [fst messages max_history].
    apply cut_bounded. assumption.
  - destruct (clock_now w) as [t1 w1]. cbn [fst messages max_history].
    apply cut_bounded. assumption.
Qed.

(** At capacity, with a positive bound, exactly the oldest turn goes and
    the others keep their order, the new turn last. *)
Lemma add_message_evicts_oldest self role content md w oldest others :
  0 < max_history self ->
  no_session self = false ->
  messages self = oldest :: others ->
  Z.of_nat (length (messages self)) = max_history self ->
  messages (add_message self role content md w).1 =
    others ++ [mkMessage role content (isoformat (clock_now w).1)
                         (metadata_or_empty md)].
Proof.
  intros Hm Hs Hmsgs Hlen. rewrite add_message_open_session by assumption.
  cbn zeta. rewrite Hmsgs in *.
  set (msg := mkMessage _ _ _ _).
  assert (Hgt : (Z.of_nat (length ((oldest :: others) ++ [msg])) >? max_history self) = true).
  { apply Z.gtb_lt. rewrite length_app. cbn [length] in *. lia. }
  rewrite Hgt. unfold py_slice_from.
  assert (Hneg : (- max_history self <? 0) = true) by (apply Z.ltb_lt; lia).
  rewrite Hneg.
  replace (Z.to_nat (Z.max 0 (Z.of_nat (length ((oldest :: others) ++ [msg]))
                              + - max_history self))) with 1%nat.
  - reflexivity.
  - rewrite length_app. cbn [length] in *. lia.
Qed.

(** Below capacity nothing is evicted. *)
Lemma add_message_below_capacity self role content md w :
  no_session self = false ->
  Z.of_nat (length (messages self)) < max_history self ->
  messages (add_message self role content md w).1 =
    messages self ++ [mkMessage role content (isoformat (clock_now w).1)
                                (metadata_or_empty md)].
Proof.
  intros Hs Hlen. rewrite add_message_open_session by assumption. cbn zeta.
  set (msg := mkMessage _ _ _ _).
  assert (Hle : (Z.of_nat (length (messages self ++ [msg])) >? max_history self) = false).
  { rewrite Z.gtb_ltb. apply Z.ltb_ge. rewrite length_app. cbn [length]. lia. }
  rewrite Hle. reflexivity.
Qed.

(** C6. The claim: the history holds at most [max_history] turns after every
    [add_message].  With [max_history = 0] the slice [messages[-0:]] is the
    whole list, so nothing is ever cut: the history ends with the turn just
    appended, holds more turns than the bound allows, and in an open
    session keeps every earlier turn as well. *)
Theorem add_message_zero_bound_keeps_turn self role content md w :
  max_history self = 0 ->
  let ctx := (add_message self role content md w).1 in
  max_history ctx = 0
  /\ Z.of_nat (length (messages ctx)) > max_history ctx
  /\ (exists older msg,
        messages ctx = older ++ [msg]
        /\ DialogueContext.role msg = role /\ DialogueContext.content msg = content)
  /\ (no_session self = false ->
      length (messages ctx) = S (length (messages self))).
Proof.
  intros Hzero ctx.
  assert (Hmax : max_history ctx = 0).
  { subst ctx. rewrite add_message_max_history. exact Hzero. }
  assert (Hkeep : forall (msgs : list Message) (msg : Message),
            (if Z.of_nat (length (msgs ++ [msg])) >? 0
             then py_slice_from (- 0) (msgs ++ [msg]) else msgs ++ [msg])
            = msgs ++ [msg]).
  { intros msgs msg. destruct (_ >? _); reflexivity. }
  assert (Hlast : exists older msg,
            messages ctx = older ++ [msg]
            /\ DialogueContext.role msg = role
            /\ DialogueContext.content msg = content
            /\ (no_session self = false -> older = messages self)).
  { subst ctx. unfold add_message, start_new_session.
    destruct (no_session self) eqn:Hs.
    - destruct (clock_now w) as [t1 w1]. destruct (clock_now w1) as [t2 w2].
      destruct (clock_now w2) as [t3 w3]. cbn. rewrite Hzero.
      exists [], (mkMessage role content (isoformat t3) (metadata_or_empty md)).
      repeat split. discriminate.
    - destruct (clock_now w) as [t1 w1]. cbn. rewrite Hzero, Hkeep.
      exists (messages self), (mkMessage role content (isoformat t1) (metadata_or_empty md)).
      repeat split. }
  destruct Hlast as (older & msg & Hmsgs & Hrole & Hcontent & Holder).
  split; [exact Hmax|]. split; [|split].
  - rewrite Hmax, Hmsgs, length_app. cbn [length]. lia.
  - exists older, msg. auto.
  - intros Hs. rewrite Hmsgs, (Holder Hs), length_app. cbn [length]. lia.
Qed.

End DialogueContextFacts.

(* ===================================================================== *)
(** * Visualization: the fallback chart type                              *)
(* ===================================================================== *)

Section ChartTypeFacts.
Context `{Collaborators}.
Import DataVisualizationTool.

Lemma no_chart_keywordb_sound q :
  no_chart_keywordb q = true -> no_chart_keyword q.
Proof.
  intros Hb ctype keywords kw Hm Hk. unfold no_chart_keywordb in Hb.
  rewrite forallb_forall in Hb.
  specialize (Hb (ctype, keywords)). cbn [snd] in Hb.
  rewrite forallb_forall in Hb.
  apply negb_true_iff, Hb; apply list_elem_of_In; assumption.
Qed.

Lemma first_keyword_none q m :
  (forall ctype keywords kw,
     (ctype, keywords) ∈ m -> kw ∈ keywords -> PyStr.contains kw q = false) ->
  first_keyword q m = None.
Proof.
  induction m as [|[ctype keywords] rest IH]; intros Hno; [reflexivity|].
  cbn [first_keyword].
  assert (Hex : existsb (fun kw => PyStr.contains kw q) keywords = false).
  { apply not_true_is_false. intros Hex. apply existsb_exists in Hex as (kw & Hin & Hc).
    rewrite (Hno ctype keywords kw) in Hc; [discriminate| |].
    - apply list_elem_of_here.
    - apply list_elem_of_In. exact Hin. }
  rewrite Hex. apply IH. intros c k kw Hin Hkw.
  apply (Hno c k kw); [|exact Hkw]. apply list_elem_of_further. exact Hin.
Qed.

(** C9. For a frame whose first column is not datetime-typed and a question
    in whose lower-cased text no keyword of the map occurs,
    [_infer_chart_type] returns ["bar"] whatever the number of rows: both
    arms of the test [len(df) <= 15] are the same. *)
Theorem infer_chart_type_bar_any_row_count
    (rows : nat) (x_col : Series) (cols : list Series) (question : string) :
  is_datetime64_any_dtype x_col = false ->
  no_chart_keyword (str_lower question) ->
  _infer_chart_type (mkFrame rows (x_col :: cols)) (PStr question) = Ret "bar".
Proof.
  intros Hdt Hno. unfold _infer_chart_type, py_lower, obind.
  rewrite (first_keyword_none _ _ Hno). cbn [df_columns].
  rewrite Hdt. destruct (df_len _ <=? 15)%nat; reflexivity.
Qed.

End ChartTypeFacts.

Lemma infer_chart_type_bar_witness :
  @DataVisualizationTool._infer_chart_type Demo.collaborators
    (mkFrame 40 (mkSeries "region" DtObject [] :: [mkSeries "amount" DtInt64 []]))
    (PStr "Sales by Region") = Ret "bar"
  /\ @DataVisualizationTool._infer_chart_type Demo.collaborators
    (mkFrame 3 (mkSeries "region" DtObject [] :: [mkSeries "amount" DtInt64 []]))
    (PStr "Sales by Region") = Ret "bar".
Proof.
  assert (Hno : DataVisualizationTool.no_chart_keyword (@str_lower Demo.collaborators "Sales by Region")).
  { apply no_chart_keywordb_sound. vm_compute. reflexivity. }
  split; apply infer_chart_type_bar_any_row_count; [reflexivity|exact Hno|reflexivity|exact Hno].
Defined.

(* ===================================================================== *)
(** * Planner: parsing the plan                                           *)
(* ===================================================================== *)

Section PlanParsingFacts.
Context `{JSONDecoder}.
Import LLMClient.

(** The two splits never fail: each is guarded by its [in] test. *)
Lemma unfence_total response : unfence response = Ret (unfenced response).
Proof.
  unfold unfence, unfenced, PyStr.contains, PyStr.split_after, PyStr.split_before.
  destruct (PyStr.split_once "```json" (PyStr.strip response)) as [[a b]|]; cbn [obind].
  - destruct (PyStr.split_once "```" b) as [[a' b']|]; reflexivity.
  - destruct (PyStr.split_once "```" (PyStr.strip response)) as [[a' b']|]; reflexivity.
Qed.

(** The recovery: the bracketed region, decoded; whatever the decoder
    raises there is swallowed by [except Exception]. *)
Lemma recover_total response :
  recover response =
    Ret (match PyStr.re_search_brackets response with
         | Some m => match json_loads m with
                     | Ret v => Some v
                     | Raise _ => None
                     end
         | None => None
         end).
Proof.
  unfold recover, loads.
  destruct (PyStr.re_search_brackets response) as [m|]; [|reflexivity].
  destruct (json_loads m); reflexivity.
Qed.

(** [_parse_tool_plan] by cases on the first [json.loads]: its value, a
    [JSONDecodeError] (the handler runs and returns), or another exception
    (which no handler catches). *)
Lemma parse_tool_plan_cases response :
  _parse_tool_plan response =
    match json_loads (unfenced response) with
    | Ret (PList l) => Ret (PList l)
    | Ret plan => Ret (PList [plan])
    | Raise e =>
        if is_JSONDecodeError e then
          Ret (match PyStr.re_search_brackets response with
               | Some m =>
                   match json_loads m with
                   | Ret plan => plan
                   | Raise _ => general_chat_plan response
                   end
               | None => general_chat_plan response
               end)
        else Raise e
    end.
Proof.
  unfold _parse_tool_plan. rewrite unfence_total. cbn [obind]. unfold loads at 1.
  destruct (json_loads (unfenced response)) as [plan|e] eqn:Hl; cbn [obind otry].
  - destruct plan; reflexivity.
  - destruct (is_JSONDecodeError e); [|reflexivity].
    rewrite recover_total. cbn [obind].
    destruct (PyStr.re_search_brackets response) as [m|]; [|reflexivity].
    destruct (json_loads m); reflexivity.
Qed.

(** When the first [json.loads] raises [JSONDecodeError] and the bracketed
    region, if there is one, does not decode either, the plan is one
    [general_chat] step that carries the response. *)
Lemma fallback_is_general_chat (response : string) (e : PyExc) :
  json_loads (unfenced response) = Raise e ->
  is_JSONDecodeError e = true ->
  (forall m, PyStr.re_search_brackets response = Some m ->
             exists e', json_loads m = Raise e') ->
  exists step args,
    _parse_tool_plan response = Ret (PList [PDict step])
    /\ step !! "tool" = Some (PStr "general_chat")
    /\ step !! "args" = Some (PDict args)
    /\ args !! "message" = Some (PStr response).
Proof.
  intros Hdirect He Hregion. rewrite parse_tool_plan_cases, Hdirect, He.
  assert (Hplan : match PyStr.re_search_brackets response with
                  | Some m => match json_loads m with
                              | Ret plan => plan
                              | Raise _ => general_chat_plan response
                              end
                  | None => general_chat_plan response
                  end = general_chat_plan response).
  { destruct (PyStr.re_search_brackets response) as [m|]; [|reflexivity].
    destruct (Hregion m eq_refl) as [e' ->]. reflexivity. }
  rewrite Hplan. unfold general_chat_plan.
  eexists _, _. split; [reflexivity|].
  split; [|split].
  - apply lookup_insert_eq.
  - rewrite lookup_insert_ne by discriminate. apply lookup_insert_eq.
  - apply lookup_insert_eq.
Qed.

(** The parser raises in one way only: by what the first [json.loads]
    raises, when that is not a [JSONDecodeError]. *)
Lemma parse_tool_plan_raises_only_so (response : string) (e : PyExc) :
  _parse_tool_plan response = Raise e ->
  json_loads (unfenced response) = Raise e /\ is_JSONDecodeError e = false.
Proof.
  rewrite parse_tool_plan_cases.
  destruct (json_loads (unfenced response)) as [plan|e'].
  - destruct plan; discriminate.
  - destruct (is_JSONDecodeError e') eqn:He'; [discriminate|].
    intros [= <-]. split; [reflexivity|exact He'].
Qed.

(** C2. The claim: a response that decodes neither way yields the
    [general_chat] plan, and the parser never raises.  The handler is
    [except json.JSONDecodeError]: an exception of another class that the
    first [json.loads] raises ([RecursionError] for a text nested too
    deep, [ValueError] for an integer of too many digits) passes it, and
    [_parse_tool_plan] raises that exception instead of returning the
    fallback. *)
Theorem parse_tool_plan_lets_exception_through (response : string) (e : PyExc) :
  json_loads (unfenced response) = Raise e ->
  is_JSONDecodeError e = false ->
  _parse_tool_plan response = Raise e.
Proof.
  intros Hdirect He. rewrite parse_tool_plan_cases, Hdirect, He. reflexivity.
Qed.

(** ** Fences *)

(** Without a fence marker in the text, only [strip] acts. *)
Lemma unfenced_no_fence s :
  PyStr.contains "```" s = false -> unfenced s = PyStr.strip (PyStr.strip s).
Proof.
  intros Hs. unfold unfenced. cbv zeta.
  pose proof (contains_strip "```" "`" "``" s eq_refl Hs) as H3.
  pose proof (contains_longer "```" "```json" _ eq_refl H3) as H7.
  rewrite (contains_false_none _ _ H7).
  unfold PyStr.split_before. rewrite (contains_false_none _ _ H3). reflexivity.
Qed.

(** Inside a tagged fence the text between the markers is found. *)
Lemma unfenced_fence_json s :
  PyStr.contains "```" s = false -> unfenced (fence_json s) = PyStr.strip s.
Proof.
  intros Hs. unfold unfenced. cbv zeta.
  assert (Hstrip : PyStr.strip (fence_json s) = fence_json s).
  { unfold fence_json.
    replace ("```json" +:+ nl +:+ s +:+ nl +:+ "```")
      with (String "`" (("``json" +:+ nl +:+ s +:+ nl +:+ "``") +:+ String "`" ""))
      by (rewrite !str_app_cons, !str_app_assoc; reflexivity).
    apply strip_solid_ends; reflexivity. }
  rewrite Hstrip.
  change (PyStr.split_once "```json" (fence_json s))
    with (Some ("", nl +:+ s +:+ nl +:+ "```")).
  cbv iota beta.
  assert (Hnl : PyStr.contains "```" (nl +:+ s) = false).
  { apply contains_cons_intro; [reflexivity|exact Hs]. }
  pose proof (split_fence_tail (nl +:+ s) "" Hnl) as Hsplit.
  rewrite str_app_nil_r, !str_app_assoc in Hsplit.
  unfold PyStr.split_before. rewrite Hsplit. apply strip_nl_wrap.
Qed.

(** Inside a plain fence the first marker is the opening one: nothing is
    left, and the recovery takes over. *)
Lemma unfenced_fence_plain s :
  PyStr.contains "```" s = false -> unfenced (fence_plain s) = "".
Proof.
  intros Hs. unfold unfenced. cbv zeta.
  assert (Hstrip : PyStr.strip (fence_plain s) = fence_plain s).
  { unfold fence_plain.
    replace ("```" +:+ nl +:+ s +:+ nl +:+ "```")
      with (String "`" (("``" +:+ nl +:+ s +:+ nl +:+ "``") +:+ String "`" ""))
      by (rewrite !str_app_cons, !str_app_assoc; reflexivity).
    apply strip_solid_ends; reflexivity. }
  rewrite Hstrip.
  assert (Hnl : PyStr.contains "```" (nl +:+ s) = false).
  { apply contains_cons_intro; [reflexivity|exact Hs]. }
  pose proof (no_json_fence (nl +:+ s) Hnl) as Hnone. rewrite !str_app_assoc in Hnone.
  assert (Hjson : PyStr.split_once "```json" (fence_plain s) = None).
  { unfold fence_plain.
    change ("```" +:+ nl +:+ s +:+ nl +:+ "```")
      with (String "`" (String "`" (String "`" (nl +:+ s +:+ nl +:+ "```")))).
    cbn [PyStr.split_once].
    change (PyStr.starts_with "```json"
              (String "`" (String "`" (String "`" (nl +:+ s +:+ nl +:+ "```"))))) with false.
    change (PyStr.starts_with "```json"
              (String "`" (String "`" (nl +:+ s +:+ nl +:+ "```")))) with false.
    change (PyStr.starts_with "```json"
              (String "`" (nl +:+ s +:+ nl +:+ "```"))) with false.
    cbv iota. rewrite Hnone. reflexivity. }
  rewrite Hjson. reflexivity.
Qed.

Lemma re_search_fenced pre s core :
  PyStr.from_first "[" pre = None ->
  PyStr.re_search_brackets s = Some core ->
  PyStr.re_search_brackets (pre +:+ nl +:+ s +:+ nl +:+ "```") = Some core.
Proof.
  intros Hpre Hs.
  replace (pre +:+ nl +:+ s +:+ nl +:+ "```") with ((pre +:+ nl) +:+ s +:+ (nl +:+ "```"))
    by (rewrite !str_app_assoc; reflexivity).
  apply re_search_brackets_frame; [|reflexivity|exact Hs].
  rewrite from_first_app, Hpre. reflexivity.
Qed.

(** For a text [s] without the fence marker that decodes to an array, the
    parser returns that array for [s] itself, for [s] in a [```json] fence
    and for [s] in a plain fence. *)
Lemma fence_invariant_without_marker (s : string) (steps : list pyval) :
  PyStr.contains "```" s = false ->
  json_loads s = Ret (PList steps) ->
  _parse_tool_plan (fence_json s) = Ret (PList steps)
  /\ _parse_tool_plan (fence_plain s) = Ret (PList steps)
  /\ _parse_tool_plan s = Ret (PList steps).
Proof.
  intros Hs Hl. rewrite !parse_tool_plan_cases.
  rewrite (unfenced_fence_json _ Hs), (unfenced_fence_plain _ Hs), (unfenced_no_fence _ Hs).
  rewrite (loads_strip _ _ Hl), (loads_strip _ _ (loads_strip _ _ Hl)).
  destruct loads_empty as (e & -> & ->).
  split; [reflexivity|]. split; [|reflexivity].
  destruct (loads_array_core _ _ Hl) as (core & Hcore & Hlc).
  unfold fence_plain. rewrite (re_search_fenced "```" s core eq_refl Hcore), Hlc.
  reflexivity.
Qed.

(** ** The result is a list *)

Lemma from_first_head c s r : PyStr.from_first c s = Some r -> exists r', r = String c r'.
Proof.
  induction s as [|a s IH]; [discriminate|]. cbn [PyStr.from_first].
  destruct (Ascii.eqb_spec a c) as [->|_]; [intros [= <-]; eauto|exact IH].
Qed.

Lemma re_search_brackets_head s m :
  PyStr.re_search_brackets s = Some m -> exists r, m = String "[" r.
Proof.
  unfold PyStr.re_search_brackets.
  destruct (PyStr.from_first "[" s) as [[|a r]|] eqn:Hf; try discriminate.
  apply from_first_head in Hf as [r' [= -> _]].
  destruct (PyStr.upto_last "]" r); [intros [= <-]; eauto|discriminate].
Qed.

(** What the parser returns is a list. *)
Lemma parse_returns_list response plan :
  _parse_tool_plan response = Ret plan -> exists l, plan = PList l.
Proof.
  rewrite parse_tool_plan_cases.
  destruct (json_loads (unfenced response)) as [[]|e]; try (intros [= <-]; eauto).
  destruct (is_JSONDecodeError e); [|discriminate].
  destruct (PyStr.re_search_brackets response) as [m|] eqn:Hm;
    [|intros [= <-]; unfold general_chat_plan; eauto].
  destruct (json_loads m) as [found|e'] eqn:Hl;
    [|intros [= <-]; unfold general_chat_plan; eauto].
  apply re_search_brackets_head in Hm as [r ->].
  apply loads_bracket in Hl as [l ->]. intros [= <-]. eauto.
Qed.

(** A response without the fence marker that decodes to a single object
    yields the one-element list of that object. *)
Lemma parse_wraps_object response d :
  PyStr.contains "```" response = false ->
  json_loads response = Ret (PDict d) ->
  _parse_tool_plan response = Ret (PList [PDict d]).
Proof.
  intros Hs Hl. rewrite parse_tool_plan_cases, (unfenced_no_fence _ Hs).
  rewrite (loads_strip _ _ (loads_strip _ _ Hl)). reflexivity.
Qed.

End PlanParsingFacts.

Lemma parse_tool_plan_lets_exception_through_witness :
  PyStr.re_search_brackets Demo.long_integer = None
  /\ @LLMClient._parse_tool_plan reference_decoder Demo.long_integer
     = Raise (ValueError
                ("Exceeds the limit (4300 digits) for integer string conversion: "
                 +:+ "value has 5000 digits; "
                 +:+ "use sys.set_int_max_str_digits() to increase the limit")).
Proof.
  split; [vm_compute; reflexivity|].
  apply (@parse_tool_plan_lets_exception_through reference_decoder Demo.long_integer).
  - vm_compute. reflexivity.
  - vm_compute. reflexivity.
Defined.

(** The fallback, the fences and the single object at work. *)
Example fallback_on_a_greeting :
  exists step args,
    @LLMClient._parse_tool_plan reference_decoder "Hello! How can I help?"
      = Ret (PList [PDict step])
    /\ step !! "tool" = Some (PStr "general_chat")
    /\ step !! "args" = Some (PDict args)
    /\ args !! "message" = Some (PStr "Hello! How can I help?").
Proof.
  apply (@fallback_is_general_chat reference_decoder _ (JSONDecodeError "Expecting value")).
  - vm_compute. reflexivity.
  - reflexivity.
  - intros m Hm. vm_compute in Hm. discriminate Hm.
Qed.

Example fences_around_a_plain_plan :
  @LLMClient._parse_tool_plan reference_decoder (LLMClient.fence_json Demo.plain_plan)
    = Ret (PList [PDict Demo.plain_step])
  /\ @LLMClient._parse_tool_plan reference_decoder (LLMClient.fence_plain Demo.plain_plan)
    = Ret (PList [PDict Demo.plain_step])
  /\ @LLMClient._parse_tool_plan reference_decoder Demo.plain_plan
    = Ret (PList [PDict Demo.plain_step]).
Proof.
  apply (@fence_invariant_without_marker reference_decoder); vm_compute; reflexivity.
Qed.

Example single_object_is_wrapped :
  @LLMClient._parse_tool_plan reference_decoder Demo.single_object
    = Ret (PList [PDict Demo.plain_step]).
Proof.
  apply (@parse_wraps_object reference_decoder); vm_compute; reflexivity.
Qed.

(** C7. The claim: a plan in a fence and the plan without it give the same
    steps.  The splits cut at the first markers wherever they stand: this
    text decodes to an array of one step whose argument quotes a fenced
    block; in a [```json] fence the parser returns that step, but for the
    text itself, and for the text in a plain fence, it returns the array
    [[1]] quoted inside the argument. *)
Theorem parse_tool_plan_fence_changes_plan :
  @json_loads reference_decoder Demo.quoting_plan = Ret (PList [PDict Demo.quoting_step])
  /\ @LLMClient._parse_tool_plan reference_decoder (LLMClient.fence_json Demo.quoting_plan)
     = Ret (PList [PDict Demo.quoting_step])
  /\ @LLMClient._parse_tool_plan reference_decoder (LLMClient.fence_plain Demo.quoting_plan)
     = Ret (PList [PInt 1])
  /\ @LLMClient._parse_tool_plan reference_decoder Demo.quoting_plan = Ret (PList [PInt 1]).
Proof.
  split; [vm_compute; reflexivity|]. split; [vm_compute; reflexivity|].
  split; vm_compute; reflexivity.
Qed.

(** C10. The claim: a response that decodes to a single object yields the
    list of that object, and the parser returns a list for every input,
    it never raises.  This object holds the fence marker in an argument:
    the text is cut at the marker before it is decoded, there is no
    bracket to recover from, and the parser returns the [general_chat]
    fallback, not the object.  And two thousand opening brackets make the
    first [json.loads] raise [RecursionError] in every interpreter that
    allows fewer than two thousand nested arrays, and the parser raises it
    in its turn. *)
Theorem parse_tool_plan_loses_object_and_raises :
  @json_loads reference_decoder Demo.marked_object = Ret (PDict Demo.marked_step)
  /\ @LLMClient._parse_tool_plan reference_decoder Demo.marked_object
     = Ret (LLMClient.general_chat_plan Demo.marked_object)
  /\ LLMClient.general_chat_plan Demo.marked_object <> PList [PDict Demo.marked_step]
  /\ forall lim : Json.Limits,
       (Json.nesting lim < 2000)%nat ->
       @LLMClient._parse_tool_plan (limited_decoder lim) Demo.deep_array
       = Raise (Json.too_deep "array").
Proof.
  split; [vm_compute; reflexivity|]. split; [vm_compute; reflexivity|].
  split; [vm_compute; discriminate|].
  intros lim Hlim. rewrite parse_tool_plan_cases.
  assert (Hwhole : LLMClient.unfenced Demo.deep_array = Demo.times 2000 "[")
    by (vm_compute; reflexivity).
  rewrite Hwhole.
  change (@json_loads (limited_decoder lim)) with (Json.decode lim).
  rewrite (decode_deep_array lim 2000 Hlim). reflexivity.
Qed.

Lemma parse_tool_plan_loses_object_and_raises_witness :
  (Json.nesting Json.default_limits < 2000)%nat
  /\ @LLMClient._parse_tool_plan reference_decoder Demo.deep_array
     = Raise (RecursionError
                "maximum recursion depth exceeded while decoding a JSON array from a unicode string").
Proof.
  destruct parse_tool_plan_loses_object_and_raises as (_ & _ & _ & Hdeep).
  assert (Hlim : (Json.nesting Json.default_limits < 2000)%nat) by (vm_compute; lia).
  split; [exact Hlim|]. exact (Hdeep Json.default_limits Hlim).
Defined.

(* ===================================================================== *)
(** * Tools and registry: fault isolation                                 *)
(* ===================================================================== *)

Section RegistryFacts.
Context `{Collaborators}.

Lemma dict_get_insert_eq (d : pydict) k v default : dict_get (<[k := v]> d) k default = v.
Proof. unfold dict_get. rewrite lookup_insert_eq. reflexivity. Qed.

Lemma dict_get_insert_ne (d : pydict) k k' v default :
  k <> k' -> dict_get (<[k := v]> d) k' default = dict_get d k' default.
Proof. intros Hk. unfold dict_get. rewrite lookup_insert_ne by exact Hk. reflexivity. Qed.

Lemma bind_kwargs_free fname params (kwargs : pydict) :
  Forall (fun p => kwargs !! p = None) params ->
  bind_kwargs fname params kwargs = Ret kwargs.
Proof.
  intros Hfree. unfold bind_kwargs.
  assert (Hnone : List.find (dict_mem kwargs) params = None).
  { induction Hfree as [|p ps Hp _ IH]; [reflexivity|].
    cbn [List.find]. unfold dict_mem at 1. rewrite Hp. exact IH. }
  rewrite Hnone. reflexivity.
Qed.

Lemma failure_refused msg : BaseTool.refused (BaseTool.failure msg).
Proof.
  unfold BaseTool.refused, BaseTool.failure. split; [|split].
  - apply lookup_insert_eq.
  - exists msg. rewrite lookup_insert_ne by discriminate. apply lookup_insert_eq.
  - rewrite !lookup_insert_ne by discriminate. apply lookup_empty.
Qed.

Lemma refused_well_formed d : BaseTool.refused d -> BaseTool.well_formed d.
Proof. intros (Hs & Hr & _). split; eauto. Qed.

(** [safe_execute] returns what [execute] returns, and turns what it
    raises into a failure that names the tool. *)
Lemma safe_execute_cases (tool : BaseTool.t) (kwargs : pydict) (w : World) :
  kwargs !! "self" = None ->
  BaseTool.safe_execute tool kwargs w =
    match BaseTool.execute_body tool kwargs w with
    | (Ret d, w') => (Ret d, w')
    | (Raise e, w') =>
        (Ret (BaseTool.failure ("工具 " +:+ BaseTool.name tool +:+ " 执行失败: " +:+ exc_msg e)), w')
    end.
Proof.
  intros Hself. unfold BaseTool.safe_execute, BaseTool.safe_execute_body, BaseTool.execute.
  unfold bind, lift_outcome, try_except, ret, any_Exception.
  rewrite !(bind_kwargs_free _ ["self"] kwargs) by (repeat constructor; exact Hself).
  destruct (BaseTool.execute_body tool kwargs w) as [[d|e] w']; reflexivity.
Qed.

(** Keyword arguments that name no parameter of the call: the registry
    returns a result, for a registered and for an unknown name, whatever
    the tool does. *)
Lemma registry_execute_isolates (reg : ToolRegistry.t) (name : string)
    (kwargs : pydict) (w : World) :
  kwargs !! "self" = None -> kwargs !! "name" = None ->
  ToolRegistry.execute reg (PStr name) kwargs w =
    match ToolRegistry._tools reg !! name with
    | None => (Ret (BaseTool.failure ("未找到工具: " +:+ name)), w)
    | Some tool =>
        match BaseTool.execute_body tool kwargs w with
        | (Ret d, w') => (Ret d, w')
        | (Raise e, w') =>
            (Ret (BaseTool.failure
                    ("工具 " +:+ BaseTool.name tool +:+ " 执行失败: " +:+ exc_msg e)), w')
        end
    end.
Proof.
  intros Hself Hname. unfold ToolRegistry.execute, ToolRegistry.execute_body.
  rewrite (bind_kwargs_free _ ["self"; "name"] kwargs)
    by (repeat constructor; assumption).
  unfold bind, lift_outcome, ToolRegistry.get.
  destruct (ToolRegistry._tools reg !! name) as [tool|]; [|reflexivity].
  apply safe_execute_cases, Hself.
Qed.

Lemma registry_execute_returns (reg : ToolRegistry.t) (name : string)
    (kwargs : pydict) (w : World) :
  kwargs !! "self" = None -> kwargs !! "name" = None ->
  exists d w', ToolRegistry.execute reg (PStr name) kwargs w = (Ret d, w').
Proof.
  intros Hself Hname. rewrite registry_execute_isolates by assumption.
  destruct (ToolRegistry._tools reg !! name) as [tool|]; [|eauto].
  destruct (BaseTool.execute_body tool kwargs w) as [[d|e] w']; eauto.
Qed.

(** A key that names a parameter stops the binding. *)
Lemma bind_kwargs_collision (fname : string) (params : list string)
    (kwargs : pydict) (p : string) (v : pyval) :
  p ∈ params -> kwargs !! p = Some v ->
  exists q, q ∈ params
    /\ bind_kwargs fname params kwargs
       = Raise (TypeError (fname +:+ "() got multiple values for argument '" +:+ q +:+ "'")).
Proof.
  intros Hin Hp. unfold bind_kwargs.
  destruct (List.find (dict_mem kwargs) params) as [q|] eqn:Hfind.
  - apply List.find_some in Hfind as [Hq _].
    exists q. split; [apply list_elem_of_In; exact Hq|reflexivity].
  - exfalso. apply list_elem_of_In in Hin.
    pose proof (List.find_none _ _ Hfind p Hin) as Hno.
    unfold dict_mem in Hno. rewrite Hp in Hno. discriminate.
Qed.

(** C1. The claim: [registry.execute(name, args)] never raises, for every
    argument mapping.  The orchestrator passes the mapping as keyword
    arguments; a mapping with the key [name] collides with the parameter
    [name] of [execute(self, name, **kwargs)], and the call raises
    [TypeError] before the body runs, whatever the registry holds and
    whatever tool is asked for. *)
Theorem registry_execute_raises_on_name_key (reg : ToolRegistry.t)
    (tool_name : pyval) (kwargs : pydict) (v : pyval) (w : World) :
  kwargs !! "name" = Some v ->
  exists p,
    (p = "self" \/ p = "name")
    /\ ToolRegistry.execute reg tool_name kwargs w
       = (Raise (TypeError ("ToolRegistry.execute() got multiple values for argument '"
                            +:+ p +:+ "'")), w).
Proof.
  intros Hname.
  destruct (bind_kwargs_collision "ToolRegistry.execute" ["self"; "name"]
              kwargs "name" v) as (q & Hq & Hbind).
  - right. left.
  - exact Hname.
  - exists q. split.
    + apply elem_of_cons in Hq as [->|Hq]; [left; reflexivity|].
      apply elem_of_cons in Hq as [->|Hq]; [right; reflexivity|].
      inversion Hq.
    + unfold ToolRegistry.execute, bind, lift_outcome. rewrite Hbind. reflexivity.
Qed.

End RegistryFacts.

(* ===================================================================== *)
(** * Visualization and statistics: no query, no rows                     *)
(* ===================================================================== *)

Section QueryToolFacts.
Context `{Collaborators}.

Lemma no_data_refused sql : BaseTool.refused (DataVisualizationTool.no_data sql).
Proof.
  unfold BaseTool.refused, DataVisualizationTool.no_data, BaseTool.failure. split; [|split].
  - rewrite lookup_insert_ne by discriminate. apply lookup_insert_eq.
  - eexists. rewrite !lookup_insert_ne by discriminate. apply lookup_insert_eq.
  - rewrite !lookup_insert_ne by discriminate. apply lookup_empty.
Qed.

Lemma no_rows_empty df : df_len df = 0%nat -> df_empty df = true.
Proof. unfold df_len, df_empty. intros ->. reflexivity. Qed.

Lemma coerce_columns_len df :
  df_len (DataVisualizationTool.coerce_columns df) = df_len df.
Proof. reflexivity. Qed.

(** The query ran and brought no rows: the frame is dropped before any
    chart is drawn. *)
Lemma viz_render_no_rows kwargs question sql df w :
  df_len df = 0%nat ->
  DataVisualizationTool.render kwargs question sql (Some df) w
  = (Ret (DataVisualizationTool.no_data sql), w).
Proof.
  intros Hlen. unfold DataVisualizationTool.render.
  rewrite (no_rows_empty _ Hlen). reflexivity.
Qed.

Lemma viz_execute_sql_to_df_returns sql df w w' :
  db_execute_sql_df sql w = (Ret df, w') ->
  DataVisualizationTool._execute_sql_to_df sql w
  = (Ret (Some (DataVisualizationTool.coerce_columns df)), w').
Proof.
  intros Hq. unfold DataVisualizationTool._execute_sql_to_df, try_except, bind, ret.
  rewrite Hq. reflexivity.
Qed.

Lemma analyse_no_rows analysis_type question df w :
  df_len df = 0%nat ->
  StatisticalAnalysisTool.analyse analysis_type question df w
  = (Ret (BaseTool.failure "查询结果为空"), w).
Proof.
  intros Hlen. unfold StatisticalAnalysisTool.analyse.
  rewrite (no_rows_empty _ Hlen). reflexivity.
Qed.

(** C8. In both tools: when the model's reply yields no query ([_extract_sql]
    gives [None], or nothing after the cut), and when the query that ran
    (given, or generated) brought zero rows, [execute] returns a result with
    [success = False] and no [image_path]; nothing is drawn or analysed. *)
Theorem query_tools_refuse_without_data :
  (* visualization, no query extracted *)
  (forall kwargs sql w w',
     truthy (dict_get kwargs "sql" PNone) = false ->
     truthy (dict_get kwargs "question" (PStr "")) = true ->
     DataVisualizationTool._generate_viz_sql (dict_get kwargs "question" (PStr "")) w
       = (Ret sql, w') ->
     no_sql sql = true ->
     exists d, DataVisualizationTool.execute kwargs w = (Ret d, w') /\ BaseTool.refused d)
  (* visualization, the given query brings no rows *)
  /\ (forall kwargs df w w',
     truthy (dict_get kwargs "sql" PNone) = true ->
     db_execute_sql_df (dict_get kwargs "sql" PNone) w = (Ret df, w') ->
     df_len df = 0%nat ->
     exists d, DataVisualizationTool.execute kwargs w = (Ret d, w') /\ BaseTool.refused d)
  (* visualization, the generated query brings no rows *)
  /\ (forall kwargs sql df w w1 w2,
     truthy (dict_get kwargs "sql" PNone) = false ->
     truthy (dict_get kwargs "question" (PStr "")) = true ->
     DataVisualizationTool._generate_viz_sql (dict_get kwargs "question" (PStr "")) w
       = (Ret (Some sql), w1) ->
     no_sql (Some sql) = false ->
     db_execute_sql_df (PStr sql) w1 = (Ret df, w2) ->
     df_len df = 0%nat ->
     exists d, DataVisualizationTool.execute kwargs w = (Ret d, w2) /\ BaseTool.refused d)
  (* statistics, no query extracted *)
  /\ (forall kwargs sql w w',
     truthy (dict_get kwargs "sql" PNone) = false ->
     truthy (dict_get kwargs "question" (PStr "")) = true ->
     StatisticalAnalysisTool._generate_analysis_sql
       (dict_get kwargs "question" (PStr ""))
       (dict_get kwargs "analysis_type" (PStr "descriptive")) w = (Ret sql, w') ->
     no_sql sql = true ->
     exists d, StatisticalAnalysisTool.execute kwargs w = (Ret d, w') /\ BaseTool.refused d)
  (* statistics, the given query brings no rows *)
  /\ (forall kwargs df w w',
     truthy (dict_get kwargs "sql" PNone) = true ->
     db_execute_sql_df (dict_get kwargs "sql" PNone) w = (Ret df, w') ->
     df_len df = 0%nat ->
     exists d, StatisticalAnalysisTool.execute kwargs w = (Ret d, w') /\ BaseTool.refused d)
  (* statistics, the generated query brings no rows *)
  /\ (forall kwargs sql df w w1 w2,
     truthy (dict_get kwargs "sql" PNone) = false ->
     truthy (dict_get kwargs "question" (PStr "")) = true ->
     StatisticalAnalysisTool._generate_analysis_sql
       (dict_get kwargs "question" (PStr ""))
       (dict_get kwargs "analysis_type" (PStr "descriptive")) w = (Ret (Some sql), w1) ->
     no_sql (Some sql) = false ->
     db_execute_sql_df (PStr sql) w1 = (Ret df, w2) ->
     df_len df = 0%nat ->
     exists d, StatisticalAnalysisTool.execute kwargs w = (Ret d, w2) /\ BaseTool.refused d).
Proof.
  repeat split.
  - intros kwargs sql w w' Hsql Hq Hgen Hno.
    unfold DataVisualizationTool.execute. cbv zeta. rewrite Hsql, Hq.
    unfold bind at 1. rewrite Hgen, Hno.
    eexists. split; [reflexivity|apply failure_refused].
  - intros kwargs df w w' Hsql Hrun Hlen.
    unfold DataVisualizationTool.execute. cbv zeta. rewrite Hsql.
    unfold bind at 1. rewrite (viz_execute_sql_to_df_returns _ _ _ _ Hrun).
    rewrite viz_render_no_rows by exact Hlen.
    eexists. split; [reflexivity|apply no_data_refused].
  - intros kwargs sql df w w1 w2 Hsql Hq Hgen Hno Hrun Hlen.
    unfold DataVisualizationTool.execute. cbv zeta. rewrite Hsql, Hq.
    unfold bind at 1. rewrite Hgen, Hno.
    unfold bind at 1. cbn [opt_str]. rewrite (viz_execute_sql_to_df_returns _ _ _ _ Hrun).
    rewrite viz_render_no_rows by exact Hlen.
    eexists. split; [reflexivity|apply no_data_refused].
  - intros kwargs sql w w' Hsql Hq Hgen Hno.
    unfold StatisticalAnalysisTool.execute. cbv zeta. rewrite Hsql, Hq.
    unfold bind at 1. rewrite Hgen, Hno.
    eexists. split; [reflexivity|apply failure_refused].
  - intros kwargs df w w' Hsql Hrun Hlen.
    unfold StatisticalAnalysisTool.execute. cbv zeta. rewrite Hsql.
    unfold bind at 1. rewrite Hrun, analyse_no_rows by exact Hlen.
    eexists. split; [reflexivity|apply failure_refused].
  - intros kwargs sql df w w1 w2 Hsql Hq Hgen Hno Hrun Hlen.
    unfold StatisticalAnalysisTool.execute. cbv zeta. rewrite Hsql, Hq.
    unfold bind at 1. rewrite Hgen, Hno.
    unfold bind at 1, StatisticalAnalysisTool._safe_query, try_except, bind, ret.
    cbn [opt_str]. rewrite Hrun, analyse_no_rows by exact Hlen.
    eexists. split; [reflexivity|apply failure_refused].
Qed.

End QueryToolFacts.

(* ===================================================================== *)
(** * Orchestrator                                                        *)
(* ===================================================================== *)

Section AgentFacts.
Context `{Collaborators} `{JSONDecoder}.
Import DataAnalysisAgent.

Implicit Types (self : DataAnalysisAgent.t) (st : State) (l : Loop).

(** ** The record of calls *)

Lemma bind_run {A B} (m : SE State A) (k : A -> SE State B) st :
  bind m k st = match m st with
                | (Ret a, st') => k a st'
                | (Raise e, st') => (Raise e, st')
                end.
Proof. reflexivity. Qed.

Lemma lift_world_calls {A} (m : SE World A) st : calls (lift_world m st).2 = calls st.
Proof. unfold lift_world. destruct (m (world st)). reflexivity. Qed.

Lemma add_message_calls role content md st :
  calls (context_add_message role content md st).2 = calls st.
Proof.
  unfold context_add_message.
  destruct (DialogueContext.add_message _ _ _ _ _). reflexivity.
Qed.

Lemma registry_execute_calls self tool_name kwargs st :
  calls (registry_execute self tool_name kwargs st).2 = calls st ++ [(tool_name, kwargs)].
Proof.
  unfold registry_execute. rewrite bind_run. cbv beta iota.
  rewrite lift_world_calls. reflexivity.
Qed.

Lemma digest_app a b : digest (a ++ b) = digest a +:+ digest b.
Proof.
  induction a as [|r a IH]; [reflexivity|].
  cbn [app digest]. rewrite IH, str_app_assoc. reflexivity.
Qed.

Lemma record_result_entry tool_name reason result l :
  record_result tool_name reason result l =
    let r := <["reason" := reason]> (<["tool" := tool_name]> result) in
    mkLoop (l_tool_results l ++ [r])
           (if truthy (dict_get r "image_path" PNone)
            then l_images l ++ [dict_get r "image_path" PNone] else l_images l)
           (l_accumulated_context l +:+ digest [r]).
Proof.
  unfold record_result. cbv zeta. f_equal. f_equal.
  cbn [digest]. rewrite str_app_nil_r. unfold result_entry.
  rewrite (dict_get_insert_ne _ "reason" "tool") by discriminate.
  rewrite (dict_get_insert_eq _ "tool"), (dict_get_insert_eq _ "reason"). reflexivity.
Qed.

(** One iteration, by cases. *)
Lemma run_step_dict self user_query history d l st :
  run_step self user_query history (PDict d) l st =
    let tool_name := dict_get d "tool" (PStr "") in
    let args := dict_get d "args" (PDict ∅) in
    let reason := dict_get d "reason" (PStr "") in
    if is_str tool_name "general_chat" then (Ret l, st)
    else match prepare_kwargs user_query history tool_name args (l_accumulated_context l) with
         | Raise e => (Raise e, st)
         | Ret kwargs =>
             match registry_execute self tool_name kwargs st with
             | (Ret result, st') => (Ret (record_result tool_name reason result l), st')
             | (Raise e, st') => (Raise e, st')
             end
         end.
Proof.
  unfold run_step, bind, lift_outcome, ret. cbn [py_get]. cbv beta iota zeta.
  destruct (is_str (dict_get d "tool" (PStr "")) "general_chat"); [reflexivity|].
  destruct (prepare_kwargs _ _ _ _ _) as [kwargs|e]; [|reflexivity].
  destruct (registry_execute _ _ _ _) as [[result|e] st']; reflexivity.
Qed.

Lemma run_step_not_dict self user_query history step l st :
  (forall d, step <> PDict d) ->
  exists e, run_step self user_query history step l st = (Raise e, st).
Proof.
  intros Hnd. destruct step; try (eexists; reflexivity).
  destruct (Hnd d eq_refl).
Qed.

(** What one iteration adds to the record of calls: nothing, or the call
    for the tool of the step; when the iteration completes, it has made the
    call that [call_name] tells. *)
Lemma run_step_effect self user_query history step l st :
  exists new,
    calls (run_step self user_query history step l st).2 = calls st ++ new
    /\ new.*1 `prefix_of` option_list (call_name step)
    /\ forall l', (run_step self user_query history step l st).1 = Ret l' ->
         new.*1 = option_list (call_name step) /\ extends l l' new.
Proof.
  assert (Hnone : forall e, exists new : list (pyval * pydict),
            calls (@Raise Loop e, st).2 = calls st ++ new
            /\ new.*1 `prefix_of` option_list (call_name step)
            /\ forall l', (@Raise Loop e, st).1 = Ret l' ->
                 new.*1 = option_list (call_name step) /\ extends l l' new).
  { intros e. exists []. rewrite app_nil_r. split; [reflexivity|].
    split; [apply prefix_nil|]. cbn. discriminate. }
  destruct step as [|b|n|f|s0|l0|d|df]; try apply Hnone.
  rewrite run_step_dict. cbv zeta. cbn [call_name].
  destruct (is_str (dict_get d "tool" (PStr "")) "general_chat") eqn:Hgc.
  { exists []. rewrite app_nil_r. split; [reflexivity|]. split; [apply prefix_nil|].
    cbn. intros l' [= <-]. split; [reflexivity|]. exists [].
    rewrite app_nil_r, str_app_nil_r. repeat split; reflexivity. }
  cbn [option_list].
  destruct (prepare_kwargs _ _ _ _ _) as [kwargs|e].
  2:{ specialize (Hnone e). cbn [call_name] in Hnone. rewrite Hgc in Hnone. exact Hnone. }
  exists [(dict_get d "tool" (PStr ""), kwargs)].
  pose proof (registry_execute_calls self (dict_get d "tool" (PStr "")) kwargs st) as Hcalls.
  destruct (registry_execute self _ kwargs st) as [[result|e] st'].
  - cbn [snd fst] in *. split; [exact Hcalls|]. split; [reflexivity|].
    intros l' [= <-]. split; [reflexivity|].
    rewrite record_result_entry. cbv zeta.
    eexists [_]. cbn [l_tool_results l_accumulated_context]. repeat split; reflexivity.
  - cbn [snd fst] in *. split; [exact Hcalls|]. split; [reflexivity|]. discriminate.
Qed.

Lemma extends_trans l1 l2 l3 new1 new2 :
  extends l1 l2 new1 -> extends l2 l3 new2 -> extends l1 l3 (new1 ++ new2).
Proof.
  intros (a1 & Hr1 & Hl1 & Hc1) (a2 & Hr2 & Hl2 & Hc2). exists (a1 ++ a2).
  split; [|split].
  - rewrite Hr2, Hr1, app_assoc. reflexivity.
  - rewrite !length_app. lia.
  - rewrite Hc2, Hc1, digest_app, str_app_assoc. reflexivity.
Qed.

Lemma run_steps_effect self user_query history steps : forall l st,
  exists new,
    calls (run_steps self user_query history steps l st).2 = calls st ++ new
    /\ new.*1 `prefix_of` omap call_name steps
    /\ forall l', (run_steps self user_query history steps l st).1 = Ret l' ->
         new.*1 = omap call_name steps /\ extends l l' new.
Proof.
  induction steps as [|step rest IH]; intros l st.
  { exists []. rewrite app_nil_r. split; [reflexivity|]. split; [reflexivity|].
    cbn. intros l' [= <-]. split; [reflexivity|]. exists [].
    rewrite app_nil_r, str_app_nil_r. repeat split; reflexivity. }
  cbn [run_steps]. rewrite bind_run.
  destruct (run_step_effect self user_query history step l st) as (new1 & Hc1 & Hp1 & Hr1).
  assert (Homap : omap call_name (step :: rest)
                  = option_list (call_name step) ++ omap call_name rest).
  { cbn [omap list_omap]. destruct (call_name step); reflexivity. }
  rewrite Homap.
  destruct (run_step self user_query history step l st) as [[l1|e] st1].
  - cbn [fst snd] in *. destruct (Hr1 l1 eq_refl) as [Hn1 He1].
    destruct (IH l1 st1) as (new2 & Hc2 & Hp2 & Hr2).
    exists (new1 ++ new2). split; [rewrite Hc2, Hc1, app_assoc; reflexivity|].
    rewrite fmap_app, Hn1. split; [apply prefix_app, Hp2|].
    intros l' Hl'. destruct (Hr2 l' Hl') as [Hn2 He2].
    split; [rewrite Hn2; reflexivity|]. eapply extends_trans; eassumption.
  - cbn [fst snd] in *. exists new1. split; [exact Hc1|].
    split; [|discriminate]. eapply prefix_app_r. exact Hp1.
Qed.

Lemma run_steps_app self user_query history steps1 steps2 l st :
  run_steps self user_query history (steps1 ++ steps2) l st =
    match run_steps self user_query history steps1 l st with
    | (Ret l1, st1) => run_steps self user_query history steps2 l1 st1
    | (Raise e, st1) => (Raise e, st1)
    end.
Proof.
  revert l st. induction steps1 as [|step rest IH]; intros l st; [reflexivity|].
  cbn [app run_steps]. rewrite !bind_run.
  destruct (run_step self user_query history step l st) as [[l1|e] st1]; [apply IH|reflexivity].
Qed.

(** ** [process_query] by phases *)

Lemma plan_query_calls self user_query st :
  calls (plan_query self user_query st).2 = calls st.
Proof.
  unfold plan_query. rewrite bind_run.
  pose proof (add_message_calls "user" user_query None st) as Ha.
  destruct (context_add_message "user" user_query None st) as [[[]|e] st1];
    cbn [snd] in *; [|exact Ha].
  rewrite bind_run. unfold context_history at 1. cbv beta iota.
  rewrite bind_run.
  pose proof (lift_world_calls
    (LLMClient.plan_tools user_query (ToolRegistry.get_descriptions (registry self))
       (DialogueContext.get_formatted_history (context st1) 10) (_data_schema self)) st1) as Hp.
  destruct (lift_world _ st1) as [[plan|e] st2]; cbn [snd] in *; [|congruence].
  rewrite bind_run. unfold lift_outcome.
  destruct (plan_steps plan); cbn; congruence.
Qed.

Lemma process_query_planned self user_query st0 history plan st :
  plan_query self user_query st0 = (Ret (history, plan), st) ->
  process_query self user_query st0 = execute_plan self user_query history plan st.
Proof. intros Hp. unfold process_query. rewrite bind_run, Hp. reflexivity. Qed.

(** The short circuit. *)
Lemma execute_plan_general_chat self user_query history plan st :
  is_general_chat plan = Ret true ->
  execute_plan self user_query history plan st =
    match lift_world (LLMClient.general_chat user_query) st with
    | (Ret answer, st1) =>
        (Ret (mkResult answer [] []),
         (context_add_message "assistant" answer
            (Some (<["type" := PStr "general"]> ∅)) st1).2)
    | (Raise e, st1) => (Raise e, st1)
    end.
Proof.
  intros Hg. unfold execute_plan. rewrite bind_run, Hg. cbn [lift_outcome].
  rewrite bind_run.
  destruct (lift_world (LLMClient.general_chat user_query) st) as [[answer|e] st1]; [|reflexivity].
  rewrite bind_run. unfold context_add_message.
  destruct (DialogueContext.add_message _ _ _ _ _). reflexivity.
Qed.

Lemma execute_plan_loop self user_query history plan st :
  is_general_chat plan = Ret false ->
  execute_plan self user_query history plan st =
    match run_steps self user_query history (take MAX_STEPS plan) (mkLoop [] [] "") st with
    | (Ret l, st1) =>
        match final_response user_query history l st1 with
        | (Ret answer, st2) =>
            (Ret (mkResult answer (l_tool_results l) (l_images l)),
             (context_add_message "assistant" answer
                (Some (analysis_metadata (l_tool_results l) (l_images l))) st2).2)
        | (Raise e, st2) => (Raise e, st2)
        end
    | (Raise e, st1) => (Raise e, st1)
    end.
Proof.
  intros Hg. unfold execute_plan. rewrite bind_run, Hg. cbn [lift_outcome].
  rewrite bind_run.
  destruct (run_steps _ _ _ _ _ st) as [[l|e] st1]; [|reflexivity].
  rewrite bind_run.
  destruct (final_response user_query history l st1) as [[answer|e] st2]; [|reflexivity].
  rewrite bind_run. unfold context_add_message.
  destruct (DialogueContext.add_message _ _ _ _ _). reflexivity.
Qed.

Lemma final_response_calls user_query history l st :
  calls (final_response user_query history l st).2 = calls st.
Proof. unfold final_response. destruct (l_tool_results l); apply lift_world_calls. Qed.

(** After the loop the record of calls does not change. *)
Lemma execute_plan_loop_calls self user_query history plan st :
  is_general_chat plan = Ret false ->
  calls (execute_plan self user_query history plan st).2 =
  calls (run_steps self user_query history (take MAX_STEPS plan) (mkLoop [] [] "") st).2.
Proof.
  intros Hg. rewrite (execute_plan_loop _ _ _ _ _ Hg).
  destruct (run_steps _ _ _ _ _ st) as [[l|e] st1]; [|reflexivity].
  pose proof (final_response_calls user_query history l st1) as Hf.
  destruct (final_response user_query history l st1) as [[answer|e] st2];
    cbn [snd] in *; [|exact Hf].
  rewrite add_message_calls. exact Hf.
Qed.

Lemma execute_plan_loop_result self user_query history plan st r :
  is_general_chat plan = Ret false ->
  (execute_plan self user_query history plan st).1 = Ret r ->
  exists l st1,
    run_steps self user_query history (take MAX_STEPS plan) (mkLoop [] [] "") st = (Ret l, st1)
    /\ tool_results r = l_tool_results l /\ images r = l_images l.
Proof.
  intros Hg. rewrite (execute_plan_loop _ _ _ _ _ Hg).
  destruct (run_steps _ _ _ _ _ st) as [[l|e] st1]; [|discriminate].
  destruct (final_response user_query history l st1) as [[answer|e] st2]; [|discriminate].
  cbn. intros [= <-]. eauto.
Qed.

(** ** The claims about the orchestrator *)

(** C3. When the planner returns exactly one step and its tool is
    [general_chat], [process_query] makes no call to [registry.execute]; a
    result it returns has no tool results and no images; and it returns as
    soon as the model answers the chat prompt. *)
Theorem general_chat_plan_skips_tools self user_query st0 history d st :
  plan_query self user_query st0 = (Ret (history, [PDict d]), st) ->
  d !! "tool" = Some (PStr "general_chat") ->
  calls (process_query self user_query st0).2 = calls st0
  /\ (forall r, (process_query self user_query st0).1 = Ret r ->
        tool_results r = [] /\ images r = [])
  /\ (forall answer w,
        LLMClient.general_chat user_query (world st) = (Ret answer, w) ->
        (process_query self user_query st0).1 = Ret (mkResult answer [] [])).
Proof.
  intros Hplan Htool.
  assert (Hg : is_general_chat [PDict d] = Ret true).
  { cbn. unfold dict_get. rewrite Htool. reflexivity. }
  rewrite (process_query_planned _ _ _ _ _ _ Hplan), (execute_plan_general_chat _ _ _ _ _ Hg).
  pose proof (plan_query_calls self user_query st0) as Hc. rewrite Hplan in Hc. cbn [snd] in Hc.
  pose proof (lift_world_calls (LLMClient.general_chat user_query) st) as Hw.
  split; [|split].
  - destruct (lift_world (LLMClient.general_chat user_query) st) as [[answer|e] st1];
      cbn [snd] in *; [rewrite add_message_calls|]; congruence.
  - intros r. destruct (lift_world (LLMClient.general_chat user_query) st) as [[answer|e] st1];
      [|discriminate]. cbn. intros [= <-]. split; reflexivity.
  - intros answer w Hchat. unfold lift_world. rewrite Hchat. reflexivity.
Qed.

Lemma is_general_chat_long plan : (1 < length plan)%nat -> is_general_chat plan = Ret false.
Proof. destruct plan as [|s1 [|s2 rest]]; cbn; intros; try lia; reflexivity. Qed.

Lemma length_omap_le {A B} (f : A -> option B) (l : list A) :
  (length (omap f l) <= length l)%nat.
Proof.
  induction l as [|x l IH]; [reflexivity|]. cbn. destruct (f x); cbn; lia.
Qed.

(** C4. For a plan of more than [MAX_STEPS = 8] steps, [process_query] runs
    as it does on the first eight steps alone; it calls [registry.execute]
    for steps among these eight, in their order, at most eight times; and a
    result it returns holds one tool result for each call. *)
Theorem long_plan_is_cut_to_max_steps self user_query st0 history plan st :
  plan_query self user_query st0 = (Ret (history, plan), st) ->
  (MAX_STEPS < length plan)%nat ->
  process_query self user_query st0
    = execute_plan self user_query history (take MAX_STEPS plan) st
  /\ exists new,
       calls (process_query self user_query st0).2 = calls st0 ++ new
       /\ new.*1 `prefix_of` omap call_name (take MAX_STEPS plan)
       /\ (length new <= MAX_STEPS)%nat
       /\ forall r, (process_query self user_query st0).1 = Ret r ->
            new.*1 = omap call_name (take MAX_STEPS plan)
            /\ length (tool_results r) = length new
            /\ (length (tool_results r) <= MAX_STEPS)%nat.
Proof.
  intros Hplan Hlen. unfold MAX_STEPS in *.
  assert (Hg : is_general_chat plan = Ret false) by (apply is_general_chat_long; lia).
  assert (Hg' : is_general_chat (take 8 plan) = Ret false).
  { apply is_general_chat_long. rewrite length_take. lia. }
  pose proof (plan_query_calls self user_query st0) as Hc. rewrite Hplan in Hc. cbn [snd] in Hc.
  rewrite (process_query_planned _ _ _ _ _ _ Hplan).
  split.
  { rewrite (execute_plan_loop _ _ _ _ _ Hg), (execute_plan_loop _ _ _ _ _ Hg').
    unfold MAX_STEPS. rewrite take_take, Nat.min_id. reflexivity. }
  destruct (run_steps_effect self user_query history (take 8 plan) (mkLoop [] [] "") st)
    as (new & Hcalls & Hprefix & Hret).
  assert (Hnew : (length new <= 8)%nat).
  { apply prefix_length in Hprefix. rewrite length_fmap in Hprefix.
    pose proof (length_omap_le call_name (take 8 plan)) as Ho.
    rewrite length_take in Ho. lia. }
  exists new. split; [|split; [exact Hprefix|split; [exact Hnew|]]].
  - rewrite (execute_plan_loop_calls _ _ _ _ _ Hg). unfold MAX_STEPS. rewrite Hcalls, Hc.
    reflexivity.
  - intros r Hr. apply (execute_plan_loop_result _ _ _ _ _ _ Hg) in Hr
      as (l & st1 & Hrun & Hres & _).
    unfold MAX_STEPS in Hrun. rewrite Hrun in Hret.
    destruct (Hret l eq_refl) as [Hnames (added & Hadd & Hlenadd & _)].
    cbn [l_tool_results app] in Hadd.
    split; [exact Hnames|]. rewrite Hres, Hadd. split; lia.
Qed.

(** The keyword arguments of a report step that lacks [analysis_results],
    once some context has accumulated. *)
Lemma prepare_kwargs_report user_query history (a : pydict) acc :
  a !! "analysis_results" = None ->
  String.eqb acc "" = false ->
  exists kwargs,
    prepare_kwargs user_query history (PStr "report_generator") (PDict a) acc = Ret kwargs
    /\ kwargs !! "analysis_results" = Some (PStr acc)
    /\ kwargs !! "question" = Some (default (PStr user_query) (a !! "question")).
Proof.
  intros Hno Hacc. unfold prepare_kwargs. cbn [is_str]. rewrite Hacc.
  change (String.eqb "report_generator" "report_generator") with true.
  cbn [andb negb obind py_setdefault py_contains py_setitem py_kwargs].
  assert (Hs : dict_setdefault a "analysis_results" (PStr acc)
               = <["analysis_results" := PStr acc]> a).
  { unfold dict_setdefault. rewrite Hno. reflexivity. }
  rewrite Hs.
  set (a1 := <["analysis_results" := PStr acc]> a).
  set (a2 := dict_setdefault a1 "question" (PStr user_query)).
  assert (H1 : a2 !! "analysis_results" = Some (PStr acc)).
  { unfold a2, dict_setdefault. destruct (a1 !! "question");
      [|rewrite lookup_insert_ne by discriminate]; apply lookup_insert_eq. }
  assert (H2 : a2 !! "question" = Some (default (PStr user_query) (a !! "question"))).
  { unfold a2, dict_setdefault.
    assert (Hq : a1 !! "question" = a !! "question")
      by (apply lookup_insert_ne; discriminate).
    destruct (a1 !! "question") as [v|] eqn:E.
    - rewrite E, <- Hq. reflexivity.
    - rewrite <- Hq. cbn. apply lookup_insert_eq. }
  destruct (dict_mem a2 "context"); cbn [negb obind py_setitem py_kwargs].
  - exists a2. auto.
  - eexists. split; [reflexivity|].
    rewrite !lookup_insert_ne by discriminate. auto.
Qed.

Lemma digest_nonempty r rest : String.eqb (digest (r :: rest)) "" = false.
Proof. reflexivity. Qed.

(** C5. A [report_generator] step within the first eight, whose arguments
    lack [analysis_results], after prior steps of the plan that ran and of
    which one succeeded: the call to [registry.execute] for that step follows
    the calls of the prior steps, and carries as [analysis_results] the
    digest of their results (the accumulated context) and as [question] the
    planner's value or else the user query. *)
Theorem report_generator_gets_digest
    self user_query st0 history pre d post st (a : pydict) l st1 :
  plan_query self user_query st0 = (Ret (history, pre ++ PDict d :: post), st) ->
  (length pre < MAX_STEPS)%nat ->
  d !! "tool" = Some (PStr "report_generator") ->
  dict_get d "args" (PDict ∅) = PDict a ->
  a !! "analysis_results" = None ->
  run_steps self user_query history pre (mkLoop [] [] "") st = (Ret l, st1) ->
  (exists r, r ∈ l_tool_results l /\ r !! "success" = Some (PBool true)) ->
  exists kwargs,
    (calls st1 ++ [(PStr "report_generator", kwargs)])
      `prefix_of` calls (process_query self user_query st0).2
    /\ l_accumulated_context l = digest (l_tool_results l)
    /\ kwargs !! "analysis_results" = Some (PStr (digest (l_tool_results l)))
    /\ kwargs !! "question" = Some (default (PStr user_query) (a !! "question")).
Proof.
  intros Hplan Hlen Htool Hargs Hno Hrun (r & Hin & _).
  (* the loop variables after the prior steps *)
  destruct (run_steps_effect self user_query history pre (mkLoop [] [] "") st)
    as (new & _ & _ & Hret).
  rewrite Hrun in Hret. destruct (Hret l eq_refl) as [_ (added & Hadd & _ & Hacc)].
  cbn [l_tool_results l_accumulated_context app] in Hadd, Hacc.
  rewrite str_app_nil_l, <- Hadd in Hacc.
  assert (Hne : String.eqb (l_accumulated_context l) "" = false).
  { rewrite Hacc. destruct (l_tool_results l) as [|r0 rest];
      [apply not_elem_of_nil in Hin; destruct Hin|apply digest_nonempty]. }
  assert (Hpre : pre <> []).
  { intros ->. cbn in Hrun. injection Hrun as <- _. apply not_elem_of_nil in Hin. exact Hin. }
  destruct (prepare_kwargs_report user_query history a _ Hno Hne) as (kwargs & Hk & Har & Hq).
  exists kwargs. rewrite <- Hacc. split; [|auto].
  (* the run of the whole plan *)
  assert (Hg : is_general_chat (pre ++ PDict d :: post) = Ret false).
  { apply is_general_chat_long. rewrite length_app. cbn [length].
    destruct pre; [congruence|cbn; lia]. }
  rewrite (process_query_planned _ _ _ _ _ _ Hplan), (execute_plan_loop_calls _ _ _ _ _ Hg).
  rewrite take_app_ge by lia.
  destruct (MAX_STEPS - length pre)%nat as [|k] eqn:Hk'; [lia|].
  rewrite firstn_cons, run_steps_app, Hrun. cbn [run_steps]. rewrite bind_run.
  assert (Ht : dict_get d "tool" (PStr "") = PStr "report_generator").
  { unfold dict_get. rewrite Htool. reflexivity. }
  rewrite run_step_dict. cbv zeta. rewrite !Ht, Hargs.
  change (is_str (PStr "report_generator") "general_chat") with false. cbv iota.
  rewrite Hk.
  pose proof (registry_execute_calls self (PStr "report_generator") kwargs st1) as Hcall.
  destruct (registry_execute self (PStr "report_generator") kwargs st1) as [[result|e] st2];
    cbn [snd] in *; [|rewrite Hcall; reflexivity].
  match goal with |- _ `prefix_of` calls (run_steps ?s ?q ?h ?steps ?l0 st2).2 =>
    destruct (run_steps_effect s q h steps l0 st2) as (new2 & -> & _) end.
  rewrite Hcall. apply prefix_app_r. reflexivity.
Qed.

End AgentFacts.

(* ===================================================================== *)
(** * Conversation state: windows, sessions, the report                   *)
(* ===================================================================== *)

Section DialogueContextMore.
Context `{Backends}.
Import DialogueContext.

Lemma join_snoc sep (l : list string) (x : string) :
  PyStr.join sep (l ++ [x]) =
    match l with
    | [] => x
    | _ => PyStr.join sep l +:+ sep +:+ x
    end.
Proof.
  induction l as [|a l IH]; [reflexivity|].
  destruct l as [|b l]; [reflexivity|].
  change ((a :: b :: l) ++ [x]) with (a :: ((b :: l) ++ [x])).
  change (PyStr.join sep (a :: (b :: l) ++ [x]))
    with (a +:+ sep +:+ PyStr.join sep ((b :: l) ++ [x])).
  rewrite IH.
  change (PyStr.join sep (a :: b :: l)) with (a +:+ sep +:+ PyStr.join sep (b :: l)).
  rewrite !str_app_assoc. reflexivity.
Qed.

Lemma snoc_not_nil {A B} (l : list A) (x : A) (a b : B) :
  match l ++ [x] with [] => a | _ :: _ => b end = b.
Proof. destruct l; reflexivity. Qed.

(** A slice [l[-k:]] with [k >= 0] of a list that ends with [x] ends with
    [x]. *)
Lemma py_slice_from_keeps_last {A} (k : Z) (l : list A) (x : A) :
  0 <= k ->
  exists n, py_slice_from (- k) (l ++ [x]) = drop n l ++ [x].
Proof.
  intros Hk. unfold py_slice_from.
  destruct (Z.ltb_spec (- k) 0) as [Hneg|Hpos].
  - exists (Z.to_nat (Z.max 0 (Z.of_nat (length (l ++ [x])) + - k))).
    rewrite drop_app_le; [reflexivity|]. rewrite length_app. cbn [length]. lia.
  - exists 0%nat. replace (- k) with 0 by lia. reflexivity.
Qed.

(** With a bound that is not negative the turn just added is the last of
    the history. *)
Lemma add_message_last self role content md w :
  0 <= max_history self ->
  exists older t,
    messages (add_message self role content md w).1
    = older ++ [mkMessage role content t (metadata_or_empty md)].
Proof.
  intros Hm. unfold add_message, start_new_session.
  destruct (no_session self).
  - destruct (clock_now w) as [t1 w1]. destruct (clock_now w1) as [t2 w2].
    destruct (clock_now w2) as [t3 w3]. cbn [fst messages max_history].
    destruct (_ >? _).
    + destruct (py_slice_from_keeps_last (max_history self) []
                  (mkMessage role content (isoformat t3) (metadata_or_empty md)) Hm)
        as [n Hn].
      cbn [app] in *. rewrite Hn. eauto.
    + exists [], (isoformat t3). reflexivity.
  - destruct (clock_now w) as [t1 w1]. cbn [fst messages max_history].
    destruct (_ >? _).
    + destruct (py_slice_from_keeps_last (max_history self) (messages self)
                  (mkMessage role content (isoformat t1) (metadata_or_empty md)) Hm)
        as [n Hn].
      rewrite Hn. eauto.
    + eauto.
Qed.

(** X1. For a positive bound, [add_message] keeps the invariant whatever
    the history held before: the bound stays as it was and the history
    holds at most that many turns. *)
Theorem add_message_keeps_positive_bound self role content md w :
  0 < max_history self ->
  max_history (add_message self role content md w).1 = max_history self
  /\ Z.of_nat (length (messages (add_message self role content md w).1))
     <= max_history (add_message self role content md w).1.
Proof.
  intros Hm. rewrite add_message_max_history. split; [reflexivity|].
  apply add_message_bounded, Hm.
Qed.

(** X2. In an open session that holds exactly [max_history] turns, one more
    turn evicts exactly the oldest one: the others stay in their order and
    the new turn comes last. *)
Theorem add_message_at_capacity_drops_oldest self role content md w oldest others :
  0 < max_history self ->
  no_session self = false ->
  messages self = oldest :: others ->
  Z.of_nat (length (messages self)) = max_history self ->
  exists t,
    messages (add_message self role content md w).1
    = others ++ [mkMessage role content t (metadata_or_empty md)]
    /\ length (messages (add_message self role content md w).1)
       = length (messages self).
Proof.
  intros Hm Hs Hmsgs Hlen. eexists. split.
  - apply (add_message_evicts_oldest _ _ _ _ _ oldest others); assumption.
  - rewrite (add_message_evicts_oldest _ _ _ _ _ oldest others) by assumption.
    rewrite Hmsgs, length_app. cbn [length]. lia.
Qed.

(** X3. [get_context_window(n)] with [n >= 0] is the end of the history:
    the last [n] turns, or all of them when there are fewer; for [n = 0]
    the slice [messages[-0:]] is the whole history. *)
Theorem get_context_window_is_recent_suffix self (window_size : Z) :
  0 <= window_size ->
  exists older,
    messages self = older ++ get_context_window self window_size
    /\ length (get_context_window self window_size)
       = if window_size =? 0 then length (messages self)
         else Nat.min (length (messages self)) (Z.to_nat window_size).
Proof.
  intros Hw. unfold get_context_window.
  destruct (messages self) as [|m l] eqn:Hmsgs.
  - exists []. split; [reflexivity|]. destruct (_ =? _); reflexivity.
  - unfold py_slice_from.
    destruct (Z.ltb_spec (- window_size) 0) as [Hneg|Hpos].
    + set (n := Z.to_nat _).
      exists (take n (m :: l)). split.
      * symmetry. apply take_drop.
      * rewrite length_drop. subst n.
        destruct (Z.eqb_spec window_size 0); [lia|]. lia.
    + assert (window_size = 0) as -> by lia.
      exists []. split; reflexivity.
Qed.

(** X4. After [clear_context] the next [add_message] opens a new session:
    the history holds exactly the new turn, the bound is kept, and the
    session carries the stamp of the clock; the formatted history of the
    cleared context is the placeholder text. *)
Theorem clear_context_then_add_message_starts_afresh self role content md w window_size :
  0 <= max_history self ->
  let cleared := clear_context self in
  let ctx := (add_message cleared role content md w).1 in
  get_formatted_history cleared window_size = "无历史对话"
  /\ (exists t, messages ctx = [mkMessage role content t (metadata_or_empty md)])
  /\ max_history ctx = max_history self
  /\ current_session_id ctx = Some (strftime_compact (clock_now w).1).
Proof.
  intros Hm cleared ctx. split; [reflexivity|].
  subst ctx cleared. unfold add_message, start_new_session, clear_context.
  cbn [no_session current_session_id messages max_history].
  destruct (clock_now w) as [t1 w1]. destruct (clock_now w1) as [t2 w2].
  destruct (clock_now w2) as [t3 w3].
  cbn [fst messages max_history current_session_id app].
  split; [|split; reflexivity].
  exists (isoformat t3).
  destruct (_ >? _); [|reflexivity].
  destruct (py_slice_from_keeps_last (max_history self) []
              (mkMessage role content (isoformat t3) (metadata_or_empty md)) Hm)
    as [n Hn].
  cbn [app] in Hn. rewrite Hn. rewrite drop_nil. reflexivity.
Qed.

(** X5. With a bound and a window that are not negative, the formatted
    history read right after [add_message] ends with the line of the turn
    just added: its label, a colon, its content. *)
Theorem formatted_history_ends_with_new_turn self role content md w window_size :
  0 <= max_history self ->
  0 <= window_size ->
  exists before,
    get_formatted_history (add_message self role content md w).1 window_size
    = before +:+ (if String.eqb role "user" then "用户" else "助手") +:+ ": " +:+ content.
Proof.
  intros Hm Hw.
  destruct (add_message_last self role content md w Hm) as (older & t & Hmsgs).
  unfold get_formatted_history, get_context_window. rewrite Hmsgs.
  rewrite snoc_not_nil.
  destruct (py_slice_from_keeps_last window_size older
              (mkMessage role content t (metadata_or_empty md)) Hw) as [n Hn].
  rewrite Hn.
  remember (drop n older ++ [mkMessage role content t (metadata_or_empty md)])
    as recent eqn:Hrec.
  destruct recent as [|m0 l0]; [destruct (drop n older); discriminate Hrec|].
  rewrite Hrec.
  rewrite map_app. cbn [map]. rewrite join_snoc.
  change (format_message (mkMessage role content t (metadata_or_empty md)))
    with ((if String.eqb role "user" then "用户" else "助手") +:+ ": " +:+ content).
  destruct (map format_message (drop n older)) as [|a l].
  - exists "". reflexivity.
  - exists (PyStr.join nl (a :: l) +:+ nl). rewrite !str_app_assoc. reflexivity.
Qed.

(** X6. With a negative bound every [add_message] cuts [-max_history]
    turns off the front after appending: in an open session the oldest
    turns go, and the first turn of a new session is lost at once. *)
Theorem add_message_negative_bound_drops_turns self role content md w :
  max_history self < 0 ->
  (no_session self = true -> messages (add_message self role content md w).1 = [])
  /\ (no_session self = false ->
      exists t,
        messages (add_message self role content md w).1
        = drop (Z.to_nat (- max_history self))
               (messages self ++ [mkMessage role content t (metadata_or_empty md)])).
Proof.
  intros Hm.
  assert (Hcut : forall msgs : list Message,
            (if Z.of_nat (length msgs) >? max_history self
             then py_slice_from (- max_history self) msgs else msgs)
            = drop (Z.to_nat (- max_history self)) msgs).
  { intros msgs.
    assert (Hgt : (Z.of_nat (length msgs) >? max_history self) = true)
      by (apply Z.gtb_lt; lia).
    rewrite Hgt. unfold py_slice_from.
    destruct (Z.ltb_spec (- max_history self) 0); [lia|reflexivity]. }
  split; intros Hs; unfold add_message, start_new_session; rewrite Hs.
  - destruct (clock_now w) as [t1 w1]. destruct (clock_now w1) as [t2 w2].
    destruct (clock_now w2) as [t3 w3]. cbn [fst messages max_history app].
    rewrite Hcut. apply drop_ge. cbn [length]. lia.
  - destruct (clock_now w) as [t1 w1]. cbn [fst messages max_history].
    rewrite Hcut. eauto.
Qed.

Lemma reachable_consistent self :
  DialogueSession.reachable self -> DialogueSession.consistent self.
Proof.
  induction 1 as [m|self w Hr IH|self role content md w Hr IH|self Hr IH];
    unfold DialogueSession.consistent in *.
  - discriminate.
  - unfold start_new_session.
    destruct (clock_now w) as [t1 w1]. destruct (clock_now w1) as [t2 w2].
    cbn. eauto.
  - unfold add_message, start_new_session.
    destruct (no_session self) eqn:Hs.
    + destruct (clock_now w) as [t1 w1]. destruct (clock_now w1) as [t2 w2].
      destruct (clock_now w2) as [t3 w3]. cbn. eauto.
    + destruct (clock_now w) as [t1 w1]. cbn. intros _. apply IH. reflexivity.
  - discriminate.
Qed.

(** X7. [get_session_info] does not raise on a context that the constructor
    and the methods lead to. Without a session it reports that, and reads
    no clock; with one it reports the number of turns held. *)
Theorem get_session_info_returns self w :
  DialogueSession.reachable self ->
  exists d w',
    DialogueSession.get_session_info self w = (Ret d, w')
    /\ (no_session self = true ->
        d = <["status" := PStr "no_active_session"]> ∅ /\ w' = w)
    /\ (no_session self = false ->
        d !! "message_count" = Some (PInt (Z.of_nat (length (messages self))))
        /\ d !! "status" = None).
Proof.
  intros Hr. apply reachable_consistent in Hr.
  unfold DialogueSession.consistent in Hr. unfold DialogueSession.get_session_info.
  destruct (no_session self) eqn:Hs.
  - eexists _, w. split; [reflexivity|]. split; [auto|discriminate].
  - destruct (Hr eq_refl) as [start Hstart]. rewrite Hstart.
    unfold no_session in Hs.
    destruct (current_session_id self) as [id|]; [|discriminate].
    destruct (clock_now w) as [now w'].
    eexists _, w'. split; [reflexivity|]. split; [discriminate|].
    intros _. split; reflexivity.
Qed.

End DialogueContextMore.

(* ===================================================================== *)
(** * The registry: registration, lookup, fault isolation                 *)
(* ===================================================================== *)

Section RegistryMore.
Context `{Backends}.

Lemma lookup_register (reg : ToolRegistry.t) (tool : BaseTool.t) (n : string) :
  ToolRegistry._tools (ToolRegistry.register reg tool) !! n
  = if String.eqb n (BaseTool.name tool) then Some tool
    else ToolRegistry._tools reg !! n.
Proof.
  unfold ToolRegistry.register. cbn [ToolRegistry._tools].
  destruct (String.eqb_spec n (BaseTool.name tool)) as [->|Hne].
  - apply lookup_insert_eq.
  - apply lookup_insert_ne. congruence.
Qed.

(** The six names of the agent's registry. *)
Lemma agent_registry_lookup :
  ToolRegistry._tools Agent.registry !! "data_inspector" = Some DataInspectorTool.tool
  /\ ToolRegistry._tools Agent.registry !! "sql_query" = Some SQLQueryTool.tool
  /\ ToolRegistry._tools Agent.registry !! "data_visualization"
     = Some DataVisualizationTool.tool
  /\ ToolRegistry._tools Agent.registry !! "statistical_analysis"
     = Some StatisticalAnalysisTool.tool
  /\ ToolRegistry._tools Agent.registry !! "data_profiling" = Some DataProfilingTool.tool
  /\ ToolRegistry._tools Agent.registry !! "report_generator"
     = Some ReportGeneratorTool.tool.
Proof.
  unfold Agent.registry, DataAnalysisAgent._register_tools.
  repeat split; rewrite !lookup_register; reflexivity.
Qed.

(** X8. [register] then [get]: the name of the tool just registered
    resolves to it, also when the name was taken before, and every other
    name resolves as it did. The registry holds one tool for each name:
    a new name adds one description, a taken name adds none. *)
Theorem register_then_get (reg : ToolRegistry.t) (tool : BaseTool.t) (n : string) :
  ToolRegistry.get (ToolRegistry.register reg tool) (PStr n)
  = Ret (if String.eqb n (BaseTool.name tool) then Some tool
         else ToolRegistry._tools reg !! n)
  /\ length (ToolRegistry.get_descriptions (ToolRegistry.register reg tool))
     = match ToolRegistry._tools reg !! BaseTool.name tool with
       | Some _ => length (ToolRegistry.get_descriptions reg)
       | None => S (length (ToolRegistry.get_descriptions reg))
       end
  /\ BaseTool.get_description tool
     ∈ ToolRegistry.get_descriptions (ToolRegistry.register reg tool).
Proof.
  split; [unfold ToolRegistry.get; rewrite lookup_register; reflexivity|].
  unfold ToolRegistry.get_descriptions, ToolRegistry.list_tools, ToolRegistry.register.
  cbn [ToolRegistry._tools]. split.
  - rewrite ?length_map, ?length_fmap, !length_map_to_list, map_size_insert.
    destruct (ToolRegistry._tools reg !! BaseTool.name tool); reflexivity.
  - apply list_elem_of_In, in_map, list_elem_of_In.
    apply (list_elem_of_fmap_2 snd _ (BaseTool.name tool, tool)).
    apply elem_of_map_to_list, lookup_insert_eq.
Qed.


(** X10. A tool name that is not a string: a list, an object or a frame
    cannot be a key, and the lookup raises an exception of class
    [TypeError] out of [registry.execute]; any other value is simply not
    registered. *)
Theorem registry_execute_name_not_a_string (reg : ToolRegistry.t) (name : pyval)
    (kwargs : pydict) (w : World) :
  kwargs !! "self" = None -> kwargs !! "name" = None ->
  (forall s, name <> PStr s) ->
  match name with
  | PList _ | PDict _ | PFrame _ =>
      exists e, ToolRegistry.execute reg name kwargs w = (Raise e, w)
                /\ exc_class e = "TypeError"
  | _ => ToolRegistry.execute reg name kwargs w
         = (Ret (BaseTool.failure ("未找到工具: " +:+ py_str name)), w)
  end.
Proof.
  intros Hself Hname Hstr. unfold ToolRegistry.execute, ToolRegistry.execute_body.
  rewrite (bind_kwargs_free _ ["self"; "name"] kwargs)
    by (repeat constructor; assumption).
  unfold bind, lift_outcome, ToolRegistry.get.
  destruct name; try reflexivity;
    try (eexists; split; reflexivity).
  exfalso. eapply Hstr. reflexivity.
Qed.

Ltac fresh_name := vm_compute; reflexivity.

(** X11. The six tools that the agent registers have six different names:
    none replaces another, each name resolves to its own tool, and
    [get_available_tools] lists six descriptions. *)
Theorem agent_registers_six_tools (schema : string) :
  length (DataAnalysisAgent.get_available_tools (Agent.__init__ schema)) = 6%nat
  /\ Forall (fun tool =>
               ToolRegistry.get Agent.registry (PStr (BaseTool.name tool))
               = Ret (Some tool))
       [ DataInspectorTool.tool; SQLQueryTool.tool; DataVisualizationTool.tool;
         StatisticalAnalysisTool.tool; DataProfilingTool.tool; ReportGeneratorTool.tool ].
Proof.
  split.
  - unfold DataAnalysisAgent.get_available_tools, ToolRegistry.get_descriptions,
      ToolRegistry.list_tools, Agent.__init__, Agent.registry,
      DataAnalysisAgent._register_tools, ToolRegistry.register, ToolRegistry.__init__.
    cbn [DataAnalysisAgent.registry ToolRegistry._tools].
    rewrite ?length_map, ?length_fmap, length_map_to_list.
    repeat (rewrite map_size_insert_None; [|fresh_name]).
    rewrite map_size_empty. reflexivity.
  - destruct agent_registry_lookup as (H1 & H2 & H3 & H4 & H5 & H6).
    unfold ToolRegistry.get.
    repeat first [apply Forall_nil | apply Forall_cons; split];
      f_equal; first [exact H1|exact H2|exact H3|exact H4|exact H5|exact H6].
Qed.

End RegistryMore.

(* ===================================================================== *)
(** * The orchestrator: arguments, results, the recorded answer           *)
(* ===================================================================== *)

Section AgentMore.
Context `{Backends} `{JSONDecoder}.
Import DataAnalysisAgent.

(** ** The state through the loop *)

Lemma run_steps_state_invariant (J : State -> Prop) self user_query history :
  (forall step l st, J st -> J (run_step self user_query history step l st).2) ->
  forall steps l st, J st -> J (run_steps self user_query history steps l st).2.
Proof.
  intros Hstep. induction steps as [|step rest IH]; intros l st HJ; [exact HJ|].
  cbn [run_steps]. rewrite bind_run.
  specialize (Hstep step l st HJ).
  destruct (run_step self user_query history step l st) as [[l1|e] st1];
    cbn [snd] in *; [apply IH, Hstep|exact Hstep].
Qed.

Lemma run_steps_loop_invariant (I : Loop -> Prop) self user_query history :
  (forall step l st l' st',
     I l -> run_step self user_query history step l st = (Ret l', st') -> I l') ->
  forall steps l st l' st',
    I l -> run_steps self user_query history steps l st = (Ret l', st') -> I l'.
Proof.
  intros Hstep. induction steps as [|step rest IH]; intros l st l' st' HI.
  - cbn. intros [= <- _]. exact HI.
  - cbn [run_steps]. rewrite bind_run.
    destruct (run_step self user_query history step l st) as [[l1|e] st1] eqn:Hs;
      [|discriminate].
    apply IH. eapply Hstep; eassumption.
Qed.

Lemma lift_world_context {A} (m : SE World A) st :
  context (lift_world m st).2 = context st.
Proof. unfold lift_world. destruct (m (world st)). reflexivity. Qed.

Lemma registry_execute_context self tool_name kwargs st :
  context (registry_execute self tool_name kwargs st).2 = context st.
Proof.
  unfold registry_execute. rewrite bind_run. cbv beta iota.
  rewrite lift_world_context. reflexivity.
Qed.

Lemma run_step_context self user_query history step l st :
  context (run_step self user_query history step l st).2 = context st.
Proof.
  destruct step as [|b|n|f|s0|l0|d|df]; try reflexivity.
  rewrite run_step_dict. cbv zeta.
  destruct (is_str _ _); [reflexivity|].
  destruct (prepare_kwargs _ _ _ _ _) as [kwargs|e]; [|reflexivity].
  pose proof (registry_execute_context self (dict_get d "tool" (PStr "")) kwargs st) as Hc.
  destruct (registry_execute self _ kwargs st) as [[result|e] st']; exact Hc.
Qed.

Lemma run_steps_context self user_query history steps l st :
  context (run_steps self user_query history steps l st).2 = context st.
Proof.
  apply (run_steps_state_invariant (fun st' => context st' = context st));
    [|reflexivity].
  intros step l0 st0 Hc. rewrite run_step_context. exact Hc.
Qed.

Lemma context_add_message_run role content md st :
  context_add_message role content md st =
    (Ret tt,
     mkState (DialogueContext.add_message (context st) role content md (world st)).2
             (DialogueContext.add_message (context st) role content md (world st)).1
             (calls st)).
Proof.
  unfold context_add_message.
  destruct (DialogueContext.add_message _ _ _ _ _). reflexivity.
Qed.

Lemma final_response_context user_query history l st :
  context (final_response user_query history l st).2 = context st.
Proof. unfold final_response. destruct (l_tool_results l); apply lift_world_context. Qed.

(** The planning prefix: the user turn is added, nothing else happens to
    the conversation. *)
Lemma plan_query_context self user_query st :
  context (plan_query self user_query st).2
  = (DialogueContext.add_message (context st) "user" user_query None (world st)).1.
Proof.
  unfold plan_query. rewrite bind_run, context_add_message_run. cbv beta iota.
  rewrite bind_run. unfold context_history at 1. cbv beta iota.
  rewrite bind_run.
  set (st1 := mkState _ _ _).
  pose proof (lift_world_context
    (LLMClient.plan_tools user_query (ToolRegistry.get_descriptions (registry self))
       (DialogueContext.get_formatted_history (context st1) 10) (_data_schema self)) st1) as Hp.
  destruct (lift_world _ st1) as [[plan|e] st2]; cbn [snd] in *; [|exact Hp].
  rewrite bind_run. unfold lift_outcome.
  destruct (plan_steps plan); cbn; exact Hp.
Qed.

(** ** Plans that call no tool *)

Lemma run_steps_chat_only self user_query history steps l st :
  Forall chat_step steps ->
  run_steps self user_query history steps l st = (Ret l, st).
Proof.
  induction 1 as [|step rest (d & -> & Htool) _ IH]; [reflexivity|].
  cbn [run_steps]. rewrite bind_run, run_step_dict. cbv zeta.
  unfold dict_get at 1. rewrite Htool. cbn [is_str String.eqb]. exact IH.
Qed.

Lemma is_general_chat_not_single plan :
  length plan <> 1%nat -> is_general_chat plan = Ret false.
Proof. destruct plan as [|s1 [|s2 rest]]; cbn; intros; try lia; reflexivity. Qed.

(** X12. A plan that is empty, or holds several steps that are all
    [general_chat], calls no tool: the answer is the one of [general_chat],
    no result and no image is returned, and the assistant turn is recorded
    with the metadata of an analysis that used no tool. *)
Theorem chat_only_plan_calls_no_tool self user_query st0 history plan st :
  plan_query self user_query st0 = (Ret (history, plan), st) ->
  length plan <> 1%nat ->
  Forall chat_step (take MAX_STEPS plan) ->
  calls (process_query self user_query st0).2 = calls st0
  /\ forall answer w,
       LLMClient.general_chat user_query (world st) = (Ret answer, w) ->
       (process_query self user_query st0).1 = Ret (mkResult answer [] [])
       /\ context (process_query self user_query st0).2
          = (DialogueContext.add_message (context st) "assistant" answer
               (Some (<["type" := PStr "analysis"]>
                     (<["tools_used" := PList []]> (<["images" := PList []]> ∅)))) w).1.
Proof.
  intros Hp Hlen Hchat.
  pose proof (plan_query_calls self user_query st0) as Hc0. rewrite Hp in Hc0.
  cbn [snd] in Hc0.
  rewrite (process_query_planned _ _ _ _ _ _ Hp).
  rewrite (execute_plan_loop _ _ _ _ _ (is_general_chat_not_single _ Hlen)).
  rewrite (run_steps_chat_only _ _ _ _ _ _ Hchat).
  unfold final_response. cbn [l_tool_results l_images]. unfold lift_world.
  destruct (LLMClient.general_chat user_query (world st)) as [[answer|e] w] eqn:Hg.
  - rewrite context_add_message_run. cbn [fst snd calls world context].
    split; [exact Hc0|]. intros answer' w' [= <- <-]. split; reflexivity.
  - cbn [fst snd calls]. split; [exact Hc0|]. discriminate.
Qed.

(** X13. A step that is not an object but [None], a boolean, a number, a
    string or a list (a frame, which has a [get] of its own, is no value
    of a decoded plan) stops the query: [step.get] raises [AttributeError]
    with the message that names the type of the step, after the steps
    before it have run and before any later step; the exception leaves
    [process_query]. *)
Theorem step_not_an_object_raises self user_query st0 history pre v post st l st1 :
  plan_query self user_query st0 = (Ret (history, pre ++ v :: post), st) ->
  (length pre < MAX_STEPS)%nat ->
  (forall d, v <> PDict d) ->
  (forall df, v <> PFrame df) ->
  run_steps self user_query history pre (mkLoop [] [] "") st = (Ret l, st1) ->
  process_query self user_query st0
  = (Raise (AttributeError ("'" +:+ py_type_name v
                            +:+ "' object has no attribute 'get'")), st1).
Proof.
  intros Hp Hlen Hv _ Hpre.
  assert (Hget : forall k default,
            py_get v k default
            = Raise (AttributeError ("'" +:+ py_type_name v
                                     +:+ "' object has no attribute 'get'"))).
  { intros k default. destruct v; try reflexivity. destruct (Hv d eq_refl). }
  rewrite (process_query_planned _ _ _ _ _ _ Hp).
  destruct pre as [|p pre].
  - cbn in Hpre. injection Hpre as <- <-.
    destruct post as [|q post].
    + unfold execute_plan. rewrite bind_run. unfold lift_outcome.
      cbn [app is_general_chat]. rewrite Hget. reflexivity.
    + rewrite execute_plan_loop by reflexivity.
      cbn [app take MAX_STEPS run_steps]. rewrite bind_run.
      unfold run_step at 1. rewrite bind_run. unfold lift_outcome at 1.
      rewrite Hget. reflexivity.
  - rewrite execute_plan_loop
      by (apply is_general_chat_long; cbn [length app]; rewrite length_app; cbn; lia).
    rewrite take_app, (take_ge (p :: pre)) by lia.
    destruct (MAX_STEPS - length (p :: pre))%nat as [|k] eqn:Hk; [lia|].
    cbn [take]. rewrite run_steps_app, Hpre.
    cbn [run_steps]. rewrite bind_run.
    unfold run_step at 1. rewrite bind_run. unfold lift_outcome at 1.
    rewrite Hget. reflexivity.
Qed.

(** ** The keyword arguments of a call *)

Lemma dict_setdefault_lookup (d : pydict) k v k' :
  dict_setdefault d k v !! k'
  = match d !! k' with
    | Some x => Some x
    | None => if String.eqb k' k then Some v else None
    end.
Proof.
  unfold dict_setdefault. destruct (String.eqb_spec k' k) as [->|Hne].
  - destruct (d !! k) eqn:Hk; [rewrite Hk; reflexivity|].
    rewrite lookup_insert_eq. reflexivity.
  - destruct (d !! k) eqn:Hk.
    + destruct (d !! k'); reflexivity.
    + rewrite lookup_insert_ne by congruence. destruct (d !! k'); reflexivity.
Qed.

Lemma context_default (m : pydict) (x : pyval) :
  (has_context <- py_contains "context" (PDict m) ;;
   args <- (if negb has_context then py_setitem (PDict m) "context" x
            else Ret (PDict m)) ;;
   py_kwargs "agent.tool_registry.ToolRegistry.execute" args)%out
  = Ret (dict_setdefault m "context" x).
Proof.
  cbn [py_contains obind]. unfold dict_mem, dict_setdefault.
  destruct (m !! "context"); reflexivity.
Qed.

Lemma prepare_kwargs_dict user_query history tool_name (a : pydict) acc :
  prepare_kwargs user_query history tool_name (PDict a) acc =
    let a1 := if is_str tool_name "report_generator" && negb (String.eqb acc "")
              then dict_setdefault (dict_setdefault a "analysis_results" (PStr acc))
                                   "question" (PStr user_query)
              else a in
    Ret (dict_setdefault a1 "context" (PStr history)).
Proof.
  unfold prepare_kwargs. cbv zeta.
  destruct (is_str tool_name "report_generator" && negb (String.eqb acc ""));
    cbn [py_setdefault obind]; apply context_default.
Qed.

(** X14. For an argument mapping the loop always has keyword arguments to
    pass: what the planner supplied is kept as it is, [context] is the
    planner's or else the formatted history, and no key is added beyond
    [context], [analysis_results] and [question]. *)
Theorem prepare_kwargs_keeps_planner_arguments
    user_query history tool_name (a : pydict) acc :
  exists kwargs,
    prepare_kwargs user_query history tool_name (PDict a) acc = Ret kwargs
    /\ (forall k v, a !! k = Some v -> kwargs !! k = Some v)
    /\ kwargs !! "context" = Some (default (PStr history) (a !! "context"))
    /\ (forall k, a !! k = None -> is_Some (kwargs !! k) ->
          k = "context" \/ k = "analysis_results" \/ k = "question").
Proof.
  rewrite prepare_kwargs_dict. cbv zeta. eexists. split; [reflexivity|].
  destruct (is_str tool_name "report_generator" && negb (String.eqb acc "")).
  - split; [|split].
    + intros k v Hk. rewrite !dict_setdefault_lookup, Hk. reflexivity.
    + rewrite !dict_setdefault_lookup.
      destruct (a !! "context"); reflexivity.
    + intros k Hk. rewrite !dict_setdefault_lookup, Hk.
      destruct (String.eqb_spec k "analysis_results"); [auto|].
      destruct (String.eqb_spec k "question"); [auto|].
      destruct (String.eqb_spec k "context"); [auto|].
      intros [x Hx]. discriminate Hx.
  - split; [|split].
    + intros k v Hk. rewrite dict_setdefault_lookup, Hk. reflexivity.
    + rewrite dict_setdefault_lookup. destruct (a !! "context"); reflexivity.
    + intros k Hk. rewrite dict_setdefault_lookup, Hk.
      destruct (String.eqb_spec k "context"); [auto|].
      intros [x Hx]. discriminate Hx.
Qed.

Lemma prepare_kwargs_has_context user_query history tool_name args acc kwargs :
  prepare_kwargs user_query history tool_name args acc = Ret kwargs ->
  is_Some (kwargs !! "context").
Proof.
  destruct args as [|b|n|f|s0|l0|a|df].
  7:{ rewrite prepare_kwargs_dict. cbv zeta. intros [= <-].
      rewrite dict_setdefault_lookup.
      match goal with |- context [?m !! "context"] => destruct (m !! "context") end;
        eauto. }
  all: unfold prepare_kwargs;
    destruct (is_str tool_name "report_generator" && negb (String.eqb acc ""));
    cbn [py_setdefault obind py_contains py_setitem py_kwargs]; try discriminate.
  all: match goal with
       | |- context [negb ?b] => destruct b
       end; cbn [negb obind py_setitem py_kwargs]; discriminate.
Qed.

Lemma execute_plan_calls self user_query history plan st :
  calls (execute_plan self user_query history plan st).2 = calls st
  \/ calls (execute_plan self user_query history plan st).2
     = calls (run_steps self user_query history (take MAX_STEPS plan) (mkLoop [] [] "") st).2.
Proof.
  destruct (is_general_chat plan) as [[|]|e] eqn:Hg.
  - left. rewrite (execute_plan_general_chat _ _ _ _ _ Hg).
    pose proof (lift_world_calls (LLMClient.general_chat user_query) st) as Hc.
    destruct (lift_world _ st) as [[answer|e] st1]; cbn [snd] in *; [|exact Hc].
    rewrite add_message_calls. exact Hc.
  - right. apply execute_plan_loop_calls, Hg.
  - left. unfold execute_plan. rewrite bind_run. unfold lift_outcome. rewrite Hg.
    reflexivity.
Qed.

(** X15. Every call that [process_query] makes to [registry.execute]
    carries a [context] argument, whatever the plan is and however the
    query ends. *)
Theorem every_call_carries_context self user_query st0 :
  exists new,
    calls (process_query self user_query st0).2 = calls st0 ++ new
    /\ Forall has_context new.
Proof.
  set (J := fun base st => exists new, calls st = calls base ++ new /\ Forall has_context new).
  assert (Hrefl : forall st, J st st).
  { intros st. exists []. rewrite app_nil_r. split; [reflexivity|constructor]. }
  assert (Hstep : forall base history step l st,
            J base st -> J base (run_step self user_query history step l st).2).
  { intros base history step l st (new & Hc & Hall).
    destruct step as [|b|n|f|s0|l0|d|df]; try (exists new; split; assumption).
    rewrite run_step_dict. cbv zeta.
    destruct (is_str _ _); [exists new; split; assumption|].
    destruct (prepare_kwargs _ _ _ _ _) as [kwargs|e] eqn:Hk;
      [|exists new; split; assumption].
    pose proof (registry_execute_calls self (dict_get d "tool" (PStr "")) kwargs st) as Hcalls.
    exists (new ++ [(dict_get d "tool" (PStr ""), kwargs)]). split.
    - destruct (registry_execute self _ kwargs st) as [[result|e] st']; cbn [snd] in *;
        rewrite Hcalls, Hc, app_assoc; reflexivity.
    - apply Forall_app. split; [exact Hall|]. constructor; [|constructor].
      eapply prepare_kwargs_has_context, Hk. }
  change (J st0 (process_query self user_query st0).2).
  unfold process_query. rewrite bind_run.
  pose proof (plan_query_calls self user_query st0) as Hc0.
  destruct (plan_query self user_query st0) as [[[history plan]|e] st] eqn:Hp;
    cbn [fst snd] in *.
  2:{ exists []. rewrite app_nil_r. split; [exact Hc0|constructor]. }
  destruct (execute_plan_calls self user_query history plan st) as [Hc|Hc].
  - exists []. rewrite app_nil_r. split; [congruence|constructor].
  - destruct (run_steps_state_invariant (J st) self user_query history
                (fun step l st' => Hstep st history step l st')
                (take MAX_STEPS plan) (mkLoop [] [] "") st (Hrefl st)) as (new & Hn & Hall).
    exists new. split; [congruence|exact Hall].
Qed.

(** X16. A step whose [args] is not an object cannot be turned into
    keyword arguments: the step raises [TypeError] (or [AttributeError],
    when the defaults of the report generator are tried first) before the
    registry is called. *)
Theorem args_not_an_object_raises self user_query history d l st :
  is_str (dict_get d "tool" (PStr "")) "general_chat" = false ->
  (forall a, dict_get d "args" (PDict ∅) <> PDict a) ->
  exists e,
    run_step self user_query history (PDict d) l st = (Raise e, st)
    /\ (exc_class e = "TypeError" \/ exc_class e = "AttributeError").
Proof.
  intros Hgc Hargs. rewrite run_step_dict. cbv zeta. rewrite Hgc.
  set (args := dict_get d "args" (PDict ∅)) in *.
  assert (Hraise : exists e,
            prepare_kwargs user_query history (dict_get d "tool" (PStr "")) args
              (l_accumulated_context l) = Raise e
            /\ (exc_class e = "TypeError" \/ exc_class e = "AttributeError")).
  { unfold prepare_kwargs.
    destruct args as [|b|n|f|s0|l0|a|df]; try (destruct (Hargs a eq_refl));
      destruct (is_str _ "report_generator" && negb _);
      cbn [py_setdefault obind py_contains py_setitem py_kwargs];
      try (eexists; split; [reflexivity|]; cbn; auto; fail).
    all: match goal with
         | |- context [negb ?b] => destruct b
         end; cbn [negb obind py_setitem py_kwargs];
         eexists; (split; [reflexivity|]); cbn; auto. }
  destruct Hraise as (e & -> & He). exists e. split; [reflexivity|exact He].
Qed.

(** ** The results of a run *)

Lemma record_result_fields tool_name reason result l :
  tools_used (l_tool_results (record_result tool_name reason result l))
    = tools_used (l_tool_results l) ++ [tool_name]
  /\ (l_images l = omap image_of (l_tool_results l) ->
      l_images (record_result tool_name reason result l)
      = omap image_of (l_tool_results (record_result tool_name reason result l))).
Proof.
  rewrite record_result_entry. cbv zeta. cbn [l_tool_results l_images]. split.
  - unfold tools_used. rewrite map_app. cbn [map].
    rewrite dict_get_insert_ne by discriminate. rewrite dict_get_insert_eq. reflexivity.
  - intros Himg. rewrite omap_app. cbn [omap list_omap]. unfold image_of at 2.
    cbv zeta. rewrite <- Himg.
    destruct (truthy _); [reflexivity|]. rewrite app_nil_r. reflexivity.
Qed.

Lemma run_steps_results self user_query history steps : forall l st l' st',
  l_images l = omap image_of (l_tool_results l) ->
  run_steps self user_query history steps l st = (Ret l', st') ->
  l_images l' = omap image_of (l_tool_results l')
  /\ exists new,
       calls st' = calls st ++ new
       /\ tools_used (l_tool_results l') = tools_used (l_tool_results l) ++ new.*1.
Proof.
  induction steps as [|step rest IH]; intros l st l' st' Himg.
  - cbn. intros [= <- <-]. split; [exact Himg|]. exists [].
    rewrite !app_nil_r. split; reflexivity.
  - cbn [run_steps]. rewrite bind_run.
    destruct (run_step self user_query history step l st) as [[l1|e] st1] eqn:Hs;
      [|discriminate].
    intros Hrest.
    assert (Hone : l_images l1 = omap image_of (l_tool_results l1)
                   /\ exists new, calls st1 = calls st ++ new
                        /\ tools_used (l_tool_results l1)
                           = tools_used (l_tool_results l) ++ new.*1).
    { destruct step as [|b|n|f|s0|l0|d|df]; try discriminate Hs.
      rewrite run_step_dict in Hs. cbv zeta in Hs.
      destruct (is_str _ _).
      { injection Hs as <- <-. split; [exact Himg|]. exists [].
        rewrite !app_nil_r. split; reflexivity. }
      destruct (prepare_kwargs _ _ _ _ _) as [kwargs|e]; [|discriminate].
      pose proof (registry_execute_calls self (dict_get d "tool" (PStr "")) kwargs st) as Hc.
      destruct (registry_execute self _ kwargs st) as [[result|e] st2]; [|discriminate].
      injection Hs as <- <-. cbn [snd] in Hc.
      destruct (record_result_fields (dict_get d "tool" (PStr ""))
                  (dict_get d "reason" (PStr "")) result l) as [Ht Hi].
      split; [apply Hi, Himg|].
      exists [(dict_get d "tool" (PStr ""), kwargs)]. split; [exact Hc|exact Ht]. }
    destruct Hone as (Himg1 & new1 & Hc1 & Ht1).
    destruct (IH l1 st1 l' st' Himg1 Hrest) as (Himg' & new2 & Hc2 & Ht2).
    split; [exact Himg'|]. exists (new1 ++ new2). split.
    + rewrite Hc2, Hc1, app_assoc. reflexivity.
    + rewrite Ht2, Ht1, fmap_app, app_assoc. reflexivity.
Qed.

(** X17. What [process_query] returns matches what it did: the [tool]
    entries of the results are, in order, the tool names of the calls it
    made to the registry, and the images are, in order, the artifact paths
    of the results that have one. *)
Theorem results_match_calls_and_images self user_query st0 r st' :
  process_query self user_query st0 = (Ret r, st') ->
  images r = omap image_of (tool_results r)
  /\ exists new,
       calls st' = calls st0 ++ new
       /\ tools_used (tool_results r) = new.*1.
Proof.
  unfold process_query. rewrite bind_run.
  pose proof (plan_query_calls self user_query st0) as Hc0.
  destruct (plan_query self user_query st0) as [[[history plan]|e] st] eqn:Hp;
    [|discriminate].
  cbn [fst snd] in *.
  destruct (is_general_chat plan) as [[|]|e] eqn:Hg.
  - rewrite (execute_plan_general_chat _ _ _ _ _ Hg).
    pose proof (lift_world_calls (LLMClient.general_chat user_query) st) as Hc.
    destruct (lift_world _ st) as [[answer|e] st1]; [|discriminate].
    cbn [snd] in Hc. intros [= <- <-]. split; [reflexivity|].
    exists []. rewrite add_message_calls, app_nil_r. split; [congruence|reflexivity].
  - rewrite (execute_plan_loop _ _ _ _ _ Hg).
    destruct (run_steps self user_query history (take MAX_STEPS plan)
                (mkLoop [] [] "") st) as [[l|e] st1] eqn:Hrun; [|discriminate].
    pose proof (final_response_calls user_query history l st1) as Hf.
    destruct (final_response user_query history l st1) as [[answer|e] st2]; [|discriminate].
    cbn [snd] in Hf. intros [= <- <-].
    destruct (run_steps_results _ _ _ _ (mkLoop [] [] "") _ _ _ eq_refl Hrun)
      as (Himg & new & Hc & Ht).
    cbn [tool_results images]. split; [exact Himg|].
    exists new. rewrite add_message_calls. split; [congruence|exact Ht].
  - unfold execute_plan. rewrite bind_run. unfold lift_outcome. rewrite Hg. discriminate.
Qed.

(** X18. With a bound that is not negative, the answer that
    [process_query] returns is the last turn of the conversation
    afterwards, recorded for the assistant. *)
Theorem returned_answer_is_last_turn self user_query st0 r st' :
  0 <= DialogueContext.max_history (context st0) ->
  process_query self user_query st0 = (Ret r, st') ->
  exists older t md,
    DialogueContext.messages (context st')
    = older ++ [DialogueContext.mkMessage "assistant" (response r) t md].
Proof.
  intros Hm. unfold process_query. rewrite bind_run.
  pose proof (plan_query_context self user_query st0) as Hctx.
  destruct (plan_query self user_query st0) as [[[history plan]|e] st] eqn:Hp;
    [|discriminate].
  cbn [fst snd] in *.
  assert (Hm1 : 0 <= DialogueContext.max_history (context st)).
  { rewrite Hctx, add_message_max_history. exact Hm. }
  assert (Hlast : forall answer md st2,
            context st2 = context st ->
            exists older t md',
              DialogueContext.messages
                (context (context_add_message "assistant" answer md st2).2)
              = older ++ [DialogueContext.mkMessage "assistant" answer t md']).
  { intros answer md st2 Hc. rewrite context_add_message_run. cbn [snd context].
    destruct (add_message_last (context st2) "assistant" answer md (world st2))
      as (older & t & Hmsgs); [rewrite Hc; exact Hm1|].
    eauto. }
  destruct (is_general_chat plan) as [[|]|e] eqn:Hg.
  - rewrite (execute_plan_general_chat _ _ _ _ _ Hg).
    pose proof (lift_world_context (LLMClient.general_chat user_query) st) as Hc.
    destruct (lift_world _ st) as [[answer|e] st1]; [|discriminate].
    cbn [snd] in Hc. intros [= <- <-]. cbn [response]. apply Hlast, Hc.
  - rewrite (execute_plan_loop _ _ _ _ _ Hg).
    pose proof (run_steps_context self user_query history (take MAX_STEPS plan)
                  (mkLoop [] [] "") st) as Hr.
    destruct (run_steps self user_query history (take MAX_STEPS plan)
                (mkLoop [] [] "") st) as [[l|e] st1]; [|discriminate].
    pose proof (final_response_context user_query history l st1) as Hf.
    destruct (final_response user_query history l st1) as [[answer|e] st2]; [|discriminate].
    cbn [snd] in *. intros [= <- <-]. cbn [response]. apply Hlast. congruence.
  - unfold execute_plan. rewrite bind_run. unfold lift_outcome. rewrite Hg. discriminate.
Qed.

(** X19. A report step that comes before any result: no digest is there
    to be handed over, the tool gets no [analysis_results] and refuses.
    Its failure is recorded as the result of the step; neither the model
    nor the file system is used. *)
Theorem report_step_without_prior_results_is_refused
    (schema user_query history : string) (d a : pydict) (l : Loop) (st : State) :
  d !! "tool" = Some (PStr "report_generator") ->
  dict_get d "args" (PDict ∅) = PDict a ->
  a !! "analysis_results" = None ->
  a !! "self" = None -> a !! "name" = None ->
  l_accumulated_context l = "" ->
  exists l' st' r,
    run_step (Agent.__init__ schema) user_query history (PDict d) l st = (Ret l', st')
    /\ world st' = world st
    /\ l_tool_results l' = l_tool_results l ++ [r]
    /\ l_images l' = l_images l
    /\ r !! "success" = Some (PBool false)
    /\ r !! "result" = Some (PStr "没有可用的分析结果").
Proof.
  intros Htool Hargs Hres Hself Hname Hacc.
  assert (Ht : dict_get d "tool" (PStr "") = PStr "report_generator").
  { unfold dict_get. rewrite Htool. reflexivity. }
  rewrite run_step_dict. cbv zeta. rewrite Ht, Hargs, Hacc.
  cbn [is_str String.eqb Ascii.eqb Bool.eqb].
  rewrite prepare_kwargs_dict. cbv zeta. cbn [String.eqb negb andb].
  rewrite andb_false_r.
  set (kwargs := dict_setdefault a "context" (PStr history)).
  assert (Hk : forall k, k <> "context" -> kwargs !! k = a !! k).
  { intros k Hne. subst kwargs. rewrite dict_setdefault_lookup.
    destruct (a !! k); [reflexivity|].
    destruct (String.eqb_spec k "context"); [contradiction|reflexivity]. }
  unfold registry_execute. rewrite bind_run. cbv beta iota.
  unfold lift_world. cbn [world context calls Agent.__init__ registry].
  rewrite registry_execute_isolates
    by (rewrite Hk by discriminate; assumption).
  destruct agent_registry_lookup as (_ & _ & _ & _ & _ & H6). rewrite H6.
  unfold ReportGeneratorTool.tool. cbn [BaseTool.execute_body].
  unfold ReportGeneratorTool.execute. cbv zeta.
  assert (Hnone : dict_get kwargs "analysis_results" (PStr "") = PStr "").
  { unfold dict_get. rewrite Hk by discriminate. rewrite Hres. reflexivity. }
  rewrite Hnone. cbn [truthy String.eqb negb ret].
  eexists _, _, _. split; [reflexivity|]. cbn [world].
  rewrite record_result_entry. cbv zeta. cbn [l_tool_results l_images].
  split; [reflexivity|]. split; [reflexivity|].
  split; [|split]; reflexivity.
Qed.

End AgentMore.

Section PlanParsingMore.
Context `{Collaborators} `{JSONDecoder}.
Import LLMClient.

(** X20. A reply that holds the plan inside prose: when the reply as a
    whole does not decode ([json.loads] raises [JSONDecodeError]), and the
    text before the array has no opening bracket and the text after it no
    closing one, the parser recovers the array and returns its steps. *)
Theorem parse_tool_plan_recovers_array_in_prose (pre s post : string) (l : list pyval)
    (e : PyExc) :
  json_loads s = Ret (PList l) ->
  PyStr.from_first "[" pre = None ->
  PyStr.upto_last "]" post = None ->
  json_loads (unfenced (pre +:+ s +:+ post)) = Raise e ->
  is_JSONDecodeError e = true ->
  _parse_tool_plan (pre +:+ s +:+ post) = Ret (PList l).
Proof.
  intros Hs Hpre Hpost Hwhole He. rewrite parse_tool_plan_cases, Hwhole, He.
  destruct (loads_array_core s l Hs) as (core & Hcore & Hl).
  rewrite (re_search_brackets_frame pre s post core Hpre Hpost Hcore), Hl.
  reflexivity.
Qed.

End PlanParsingMore.

(* ===================================================================== *)
(** * The tools: chart type, title, queries, refusals                     *)
(* ===================================================================== *)

Section CodePointFacts.
Import PyStr.

Lemma cp_length_app a b : cp_length (a +:+ b) = (cp_length a + cp_length b)%nat.
Proof.
  induction a as [|c a IH]; [reflexivity|].
  rewrite str_app_cons. cbn [cp_length]. rewrite IH. destruct (is_cont c); reflexivity.
Qed.

Lemma take_drop_cont s : take_cont s +:+ drop_cont s = s.
Proof.
  induction s as [|c s IH]; [reflexivity|].
  cbn [take_cont drop_cont]. destruct (is_cont c); [|reflexivity].
  rewrite str_app_cons, IH. reflexivity.
Qed.

Lemma cp_length_take_cont s : cp_length (take_cont s) = 0%nat.
Proof.
  induction s as [|c s IH]; [reflexivity|].
  cbn [take_cont]. destruct (is_cont c) eqn:Hc; [|reflexivity].
  cbn [cp_length]. rewrite Hc. exact IH.
Qed.

Lemma cp_length_drop_cont s : cp_length (drop_cont s) = cp_length s.
Proof.
  induction s as [|c s IH]; [reflexivity|].
  cbn [drop_cont]. destruct (is_cont c) eqn:Hc; [|reflexivity].
  cbn [cp_length]. rewrite Hc. exact IH.
Qed.

(** A text that could be the encoding of a [str]: it does not start in
    the middle of a code point. *)
Lemma drop_cont_whole s : whole (drop_cont s).
Proof.
  induction s as [|c s IH]; [exact I|].
  cbn [drop_cont]. destruct (is_cont c) eqn:Hc; [exact IH|]. exact Hc.
Qed.

(** [s[:n] + s[n:] == s] *)
Lemma cp_take_drop n : forall s, cp_take n s +:+ cp_drop n s = s.
Proof.
  induction n as [|n IH]; intros s; [destruct s; reflexivity|].
  destruct s as [|c r]; [reflexivity|].
  cbn [cp_take cp_drop]. rewrite str_app_cons, str_app_assoc, IH, take_drop_cont.
  reflexivity.
Qed.

Lemma cp_length_cp_take n : forall s, (cp_length (cp_take n s) <= n)%nat.
Proof.
  induction n as [|n IH]; intros s; [destruct s; cbn; lia|].
  destruct s as [|c r]; [cbn; lia|].
  cbn [cp_take cp_length]. rewrite cp_length_app, cp_length_take_cont.
  specialize (IH (drop_cont r)). destruct (is_cont c); lia.
Qed.

Lemma cp_take_all n : forall s,
  whole s -> (cp_length s <= n)%nat -> cp_take n s = s.
Proof.
  induction n as [|n IH]; intros s Hw Hlen.
  - destruct s as [|c r]; [reflexivity|].
    cbn [whole] in Hw. cbn [cp_length] in Hlen. rewrite Hw in Hlen. lia.
  - destruct s as [|c r]; [reflexivity|].
    cbn [whole] in Hw. cbn [cp_length] in Hlen. rewrite Hw in Hlen.
    cbn [cp_take]. rewrite IH.
    + rewrite take_drop_cont. reflexivity.
    + apply drop_cont_whole.
    + rewrite cp_length_drop_cont. lia.
Qed.

Lemma rstrip_char_end c x c2 :
  c2 <> c ->
  rstrip_char c (x +:+ String c2 (String c "")) = x +:+ String c2 "".
Proof.
  intros Hne.
  assert (Hnot : forall y, all_char c (y +:+ String c2 (String c "")) = false).
  { induction y as [|a y IH].
    - rewrite str_app_nil_l. cbn [all_char].
      destruct (Ascii.eqb_spec c2 c); [contradiction|reflexivity].
    - rewrite str_app_cons. cbn [all_char]. rewrite IH. apply andb_false_r. }
  induction x as [|a x IH].
  - pose proof (Hnot "") as H0. rewrite str_app_nil_l in H0.
    rewrite !str_app_nil_l. cbn [rstrip_char]. rewrite H0.
    cbn [all_char]. rewrite Ascii.eqb_refl. reflexivity.
  - rewrite !str_app_cons. cbn [rstrip_char].
    pose proof (Hnot (String a x)) as Ha. rewrite str_app_cons in Ha.
    rewrite Ha, IH. reflexivity.
Qed.

End CodePointFacts.

Section ToolsMore.
Context `{Backends}.

(** ** The chart type *)

Lemma first_keyword_app q pre ctype keywords post kw :
  (forall c ks k, (c, ks) ∈ pre -> k ∈ ks -> PyStr.contains k q = false) ->
  kw ∈ keywords -> PyStr.contains kw q = true ->
  DataVisualizationTool.first_keyword q (pre ++ (ctype, keywords) :: post) = Some ctype.
Proof.
  intros Hpre Hkw Hc. induction pre as [|[c ks] pre IH].
  - cbn [app DataVisualizationTool.first_keyword].
    assert (Hex : existsb (fun kw => PyStr.contains kw q) keywords = true).
    { apply existsb_exists. exists kw. split; [apply list_elem_of_In, Hkw|exact Hc]. }
    rewrite Hex. reflexivity.
  - cbn [app DataVisualizationTool.first_keyword].
    assert (Hex : existsb (fun kw => PyStr.contains kw q) ks = false).
    { apply not_true_is_false. intros Hex.
      apply existsb_exists in Hex as (k & Hin & Hk).
      rewrite (Hpre c ks k) in Hk; [discriminate|apply list_elem_of_here|].
      apply list_elem_of_In, Hin. }
    rewrite Hex. apply IH. intros c' ks' k Hin Hk.
    apply (Hpre c' ks' k); [apply list_elem_of_further, Hin|exact Hk].
Qed.

(** X21. The chart type is the first one, in the order of the keyword
    map (pie, scatter, histogram, heatmap, line, bar), one of whose
    keywords occurs in the lower-cased question; the frame is not looked
    at. *)
Theorem infer_chart_type_first_keyword_wins
    (df : DataFrame) (question : string) pre ctype keywords post kw :
  DataVisualizationTool.keyword_map = pre ++ (ctype, keywords) :: post ->
  (forall c ks k, (c, ks) ∈ pre -> k ∈ ks ->
     PyStr.contains k (str_lower question) = false) ->
  kw ∈ keywords ->
  PyStr.contains kw (str_lower question) = true ->
  DataVisualizationTool._infer_chart_type df (PStr question) = Ret ctype.
Proof.
  intros Hmap Hpre Hkw Hc.
  unfold DataVisualizationTool._infer_chart_type, py_lower, obind.
  rewrite Hmap, (first_keyword_app _ _ _ _ _ _ Hpre Hkw Hc). reflexivity.
Qed.

(** X22. Without a keyword in the question, a frame whose first column is
    datetime-typed gets a line chart, whatever its other columns and its
    number of rows. *)
Theorem infer_chart_type_line_for_dates
    (rows : nat) (x_col : Series) (cols : list Series) (question : string) :
  is_datetime64_any_dtype x_col = true ->
  DataVisualizationTool.no_chart_keyword (str_lower question) ->
  DataVisualizationTool._infer_chart_type (mkFrame rows (x_col :: cols)) (PStr question)
  = Ret "line".
Proof.
  intros Hdt Hno.
  unfold DataVisualizationTool._infer_chart_type, py_lower, obind.
  rewrite (first_keyword_none _ _ Hno). cbn [df_columns]. rewrite Hdt. reflexivity.
Qed.

(** X23. The title made from a question is its beginning: at most fifty
    code points of it, cut between code points, and the whole question
    when it is no longer than that. *)
Theorem generate_title_is_bounded_prefix (question : string) (chart_type : pyval) :
  question <> "" ->
  whole question ->
  exists title rest,
    DataVisualizationTool._generate_title (PStr question) chart_type = Ret (PStr title)
    /\ question = title +:+ rest
    /\ (PyStr.cp_length title <= 50)%nat
    /\ ((PyStr.cp_length question <= 50)%nat -> title = question).
Proof.
  intros Hne Hw. unfold DataVisualizationTool._generate_title.
  assert (Ht : truthy (PStr question) = true).
  { cbn [truthy]. destruct (String.eqb_spec question ""); [contradiction|reflexivity]. }
  rewrite Ht. cbn [py_prefix].
  exists (PyStr.cp_take 50 question), (PyStr.cp_drop 50 question).
  split; [reflexivity|]. split; [symmetry; apply cp_take_drop|].
  split; [apply cp_length_cp_take|]. intros Hlen. apply cp_take_all; assumption.
Qed.

(** ** Refusals *)

(** X24. Through the registry of the agent, the four tools that need a
    question, a query or analysis results refuse when they get none:
    the result reports failure, carries no artifact, and neither the model
    nor the database nor the file system was used. *)
Theorem agent_tools_refuse_missing_input (kwargs : pydict) (w : World) :
  kwargs !! "self" = None -> kwargs !! "name" = None ->
  truthy (dict_get kwargs "question" (PStr "")) = false ->
  truthy (dict_get kwargs "sql" PNone) = false ->
  truthy (dict_get kwargs "analysis_results" (PStr "")) = false ->
  Forall (fun n => exists d,
            ToolRegistry.execute Agent.registry (PStr n) kwargs w = (Ret d, w)
            /\ BaseTool.refused d)
    ["sql_query"; "data_visualization"; "statistical_analysis"; "report_generator"].
Proof.
  intros Hself Hname Hq Hsql Hres.
  destruct agent_registry_lookup as (_ & H2 & H3 & H4 & _ & H6).
  repeat first [apply Forall_nil | apply Forall_cons; split];
    cbv beta; try exact I; rewrite registry_execute_isolates by assumption.
  - rewrite H2. unfold SQLQueryTool.tool. cbn [BaseTool.execute_body].
    unfold SQLQueryTool.execute. cbv zeta. rewrite Hq. cbn [negb].
    eexists. split; [reflexivity|apply failure_refused].
  - rewrite H3. unfold DataVisualizationTool.tool. cbn [BaseTool.execute_body].
    unfold DataVisualizationTool.execute. cbv zeta. rewrite Hsql, Hq.
    eexists. split; [reflexivity|apply failure_refused].
  - rewrite H4. unfold StatisticalAnalysisTool.tool. cbn [BaseTool.execute_body].
    unfold StatisticalAnalysisTool.execute. cbv zeta. rewrite Hsql, Hq.
    eexists. split; [reflexivity|apply failure_refused].
  - rewrite H6. unfold ReportGeneratorTool.tool. cbn [BaseTool.execute_body].
    unfold ReportGeneratorTool.execute. cbv zeta. rewrite Hres. cbn [negb].
    eexists. split; [reflexivity|apply failure_refused].
Qed.


(** ** Queries in the replies of the model *)

Lemma split_once_prefix sep s :
  PyStr.starts_with sep s = true ->
  PyStr.split_once sep s = Some ("", PyStr.drop (String.length sep) s).
Proof. intros Hs. destruct s; cbn [PyStr.split_once]; rewrite Hs; reflexivity. Qed.

Lemma semicolon_solid : PyStr.solid ";" = true.
Proof. reflexivity. Qed.

(** A query that starts and ends with a solid character, the last one not
    a semicolon: [rstrip(";").strip()] takes one semicolon off and leaves
    the query. *)
Lemma rstrip_semicolon_strip c1 x c2 :
  PyStr.solid c1 = true -> PyStr.solid c2 = true -> c2 <> ";"%char ->
  PyStr.strip (PyStr.rstrip_char ";" (String c1 (x +:+ String c2 "") +:+ ";"))
  = String c1 (x +:+ String c2 "").
Proof.
  intros H1 H2 Hne.
  assert (Hq : String c1 (x +:+ String c2 "") +:+ ";"
               = String c1 x +:+ String c2 (String ";" "")).
  { rewrite !str_app_cons, str_app_assoc. reflexivity. }
  rewrite Hq, rstrip_char_end by exact Hne.
  rewrite str_app_cons. apply strip_solid_ends; assumption.
Qed.

Lemma strip_with_semicolon c1 x :
  PyStr.solid c1 = true ->
  PyStr.strip (String c1 x +:+ ";") = String c1 x +:+ ";".
Proof.
  intros H1. rewrite str_app_cons. apply strip_solid_ends; [exact H1|reflexivity].
Qed.

(** X26. [_extract_sql] on a reply that holds one query in a [```sql]
    fence: the query comes back without the fence and without its final
    semicolon. The query starts with SELECT in upper case and holds no
    fence marker. *)
Theorem extract_sql_unwraps_fenced_query (c1 : ascii) (x : string) (c2 : ascii) :
  let q := String c1 (x +:+ String c2 "") in
  PyStr.solid c1 = true -> PyStr.solid c2 = true -> c2 <> ";"%char ->
  PyStr.contains "```" (q +:+ ";") = false ->
  PyStr.starts_with "SELECT" (str_upper (q +:+ ";")) = true ->
  extract_sql ("```sql" +:+ nl +:+ q +:+ ";" +:+ nl +:+ "```") = Some q.
Proof.
  intros q H1 H2 Hne Hfence Hselect. unfold extract_sql.
  set (response := "```sql" +:+ nl +:+ q +:+ ";" +:+ nl +:+ "```").
  assert (Hstrip : PyStr.strip response = response).
  { assert (Hr : response
                 = String "`" (("``sql" +:+ nl +:+ q +:+ ";" +:+ nl +:+ "``")
                               +:+ String "`" "")).
    { subst response. rewrite !str_app_assoc. reflexivity. }
    rewrite Hr. apply strip_solid_ends; reflexivity. }
  rewrite Hstrip.
  assert (Hsplit : PyStr.split_once "```sql" response
                   = Some ("", nl +:+ q +:+ ";" +:+ nl +:+ "```")).
  { rewrite split_once_prefix; [reflexivity|].
    subst response. apply starts_with_app. reflexivity. }
  rewrite Hsplit.
  assert (Hbefore : PyStr.split_before "```" (nl +:+ q +:+ ";" +:+ nl +:+ "```")
                    = nl +:+ (q +:+ ";") +:+ nl).
  { assert (Hs : PyStr.contains "```" (nl +:+ (q +:+ ";")) = false).
    { apply contains_cons_intro; [reflexivity|exact Hfence]. }
    pose proof (split_fence_tail (nl +:+ (q +:+ ";")) "" Hs) as Ht.
    rewrite str_app_nil_r in Ht. unfold PyStr.split_before.
    rewrite !str_app_assoc in Ht. rewrite Ht. rewrite !str_app_assoc. reflexivity. }
  rewrite Hbefore, strip_nl_wrap.
  subst q. rewrite strip_with_semicolon by exact H1.
  unfold PyStr.cp_find. rewrite (split_once_prefix _ _ Hselect).
  cbn [PyStr.cp_length PyStr.cp_drop].
  rewrite rstrip_semicolon_strip by assumption. reflexivity.
Qed.

(** X27. [_clean_sql_response] on a reply of the form [SQLQuery: q;]: the
    marker, the blank after it and the final semicolon go, the query
    stays as it is. *)
Theorem clean_sql_response_after_marker (c1 : ascii) (x : string) (c2 : ascii) :
  let q := String c1 (x +:+ String c2 "") in
  PyStr.solid c1 = true -> PyStr.solid c2 = true -> c2 <> ";"%char ->
  SQLQueryTool._clean_sql_response ("SQLQuery: " +:+ q +:+ ";") = q.
Proof.
  intros q H1 H2 Hne. unfold SQLQueryTool._clean_sql_response, SQLQueryTool.located_sql.
  assert (Hsplit : PyStr.split_once "SQLQuery:" ("SQLQuery: " +:+ q +:+ ";")
                   = Some ("", String " " (q +:+ ";"))).
  { rewrite split_once_prefix; [reflexivity|]. apply starts_with_app. reflexivity. }
  rewrite Hsplit.
  assert (Hstrip : PyStr.strip (String " " (q +:+ ";")) = q +:+ ";").
  { unfold PyStr.strip.
    change (String " " (q +:+ ";")) with ((String " " (String c1 (x +:+ String c2 "")))
                                          +:+ String ";" "").
    rewrite rstrip_solid_end by reflexivity.
    rewrite !str_app_cons. cbn [PyStr.lstrip PyStr.is_ascii_space].
    change (PyStr.is_ascii_space " ") with true. cbv iota.
    apply lstrip_solid. exact H1. }
  rewrite Hstrip. subst q. rewrite rstrip_semicolon_strip by assumption.
  apply str_app_nil_r.
Qed.

(** ** The database and the inspector *)

Lemma contains_shorter p q x :
  PyStr.starts_with p q = true -> PyStr.contains q x = true -> PyStr.contains p x = true.
Proof.
  intros Hpq Hq. destruct (PyStr.contains p x) eqn:Hp; [reflexivity|].
  rewrite (contains_longer _ _ _ Hpq Hp) in Hq. discriminate.
Qed.

Lemma type_among_dates (c : DatabaseManager.Column) :
  DatabaseManager.type_among DatabaseManager.date_types c
  = PyStr.contains "DATE" (str_upper (DatabaseManager.type c))
    || PyStr.contains "TIMESTAMP" (str_upper (DatabaseManager.type c)).
Proof.
  unfold DatabaseManager.type_among, DatabaseManager.date_types. cbn [existsb].
  set (u := str_upper (DatabaseManager.type c)).
  destruct (PyStr.contains "DATE" u) eqn:Hd; [reflexivity|].
  rewrite (contains_longer "DATE" "DATETIME" u eq_refl Hd).
  cbn [orb]. apply orb_false_r.
Qed.

Lemma type_among_numbers (c : DatabaseManager.Column) :
  DatabaseManager.type_among DatabaseManager.numeric_types c
  = PyStr.contains "INT" (str_upper (DatabaseManager.type c))
    || PyStr.contains "REAL" (str_upper (DatabaseManager.type c))
    || PyStr.contains "FLOAT" (str_upper (DatabaseManager.type c))
    || PyStr.contains "DOUBLE" (str_upper (DatabaseManager.type c))
    || PyStr.contains "DECIMAL" (str_upper (DatabaseManager.type c))
    || PyStr.contains "NUMERIC" (str_upper (DatabaseManager.type c)).
Proof.
  unfold DatabaseManager.type_among, DatabaseManager.numeric_types. cbn [existsb].
  set (u := str_upper (DatabaseManager.type c)).
  destruct (PyStr.contains "INT" u) eqn:Hd; [reflexivity|].
  rewrite (contains_longer "INT" "INTEGER" u eq_refl Hd).
  cbn [orb]. rewrite orb_false_r.
  destruct (PyStr.contains "REAL" u), (PyStr.contains "FLOAT" u),
    (PyStr.contains "DOUBLE" u), (PyStr.contains "DECIMAL" u); reflexivity.
Qed.

(** X28. The columns that count as dates and as numbers are picked by
    substring of the upper-cased declared type, in the order of the table:
    a date column is one whose type holds DATE or TIMESTAMP, a numeric one
    whose type holds INT, REAL, FLOAT, DOUBLE, DECIMAL or NUMERIC (the
    entries DATETIME and INTEGER add nothing). *)
Theorem date_and_numeric_columns_by_substring
    (table_name : pyval) (cols : list DatabaseManager.Column) (w w' : World) :
  DatabaseManager.get_column_info table_name w = (Ret cols, w') ->
  let u := fun c => str_upper (DatabaseManager.type c) in
  DatabaseManager.get_date_columns table_name w
  = (Ret (map DatabaseManager.name
            (List.filter (fun c => PyStr.contains "DATE" (u c)
                                   || PyStr.contains "TIMESTAMP" (u c)) cols)), w')
  /\ DatabaseManager.get_numeric_columns table_name w
     = (Ret (map DatabaseManager.name
               (List.filter (fun c => PyStr.contains "INT" (u c)
                                      || PyStr.contains "REAL" (u c)
                                      || PyStr.contains "FLOAT" (u c)
                                      || PyStr.contains "DOUBLE" (u c)
                                      || PyStr.contains "DECIMAL" (u c)
                                      || PyStr.contains "NUMERIC" (u c)) cols)), w').
Proof.
  intros Hcols u. unfold DatabaseManager.get_date_columns,
    DatabaseManager.get_numeric_columns, bind, ret.
  rewrite Hcols. split; do 3 f_equal; apply List.filter_ext; intros c.
  - apply type_among_dates.
  - apply type_among_numbers.
Qed.

(** X29. Without a table to look at, the inspector and the profiler
    refuse after asking for the table names: no table was named and the
    database lists none. *)
Theorem inspector_and_profiler_refuse_without_table (kwargs : pydict) (w w' : World) :
  truthy (dict_get kwargs "table_name" PNone) = false ->
  db_get_table_names w = (Ret [], w') ->
  DataInspectorTool.execute kwargs w
  = (Ret (BaseTool.failure "数据库中没有可用的表"), w')
  /\ DataProfilingTool.execute kwargs w
     = (Ret (BaseTool.failure "没有可用的数据表"), w').
Proof.
  intros Hname Htables. split.
  - unfold DataInspectorTool.execute, DatabaseManager.get_table_names, bind. cbv zeta.
    rewrite Htables, Hname. reflexivity.
  - unfold DataProfilingTool.execute, DatabaseManager.get_table_names, bind. cbv zeta.
    rewrite Htables, Hname. reflexivity.
Qed.


End ToolsMore.

(* ===================================================================== *)
(** * The theorems at work in the closed world                            *)
(* ===================================================================== *)

#[local] Existing Instance Demo.collaborators.
#[local] Existing Instance reference_decoder.

Lemma registry_execute_raises_witness :
  (<["name" := PStr "orders"]> ∅ : pydict) !! "name" = Some (PStr "orders")
  /\ exists p,
       (p = "self" \/ p = "name")
       /\ @ToolRegistry.execute Demo.collaborators Demo.registry (PStr "data_inspector")
            (<["name" := PStr "orders"]> ∅) (Demo.mkWorld [] 0)
          = (Raise (TypeError ("ToolRegistry.execute() got multiple values for argument '"
                               +:+ p +:+ "'")), Demo.mkWorld [] 0).
Proof.
  split; [vm_compute; reflexivity|].
  apply (@registry_execute_raises_on_name_key Demo.collaborators Demo.registry
           (PStr "data_inspector") (<["name" := PStr "orders"]> ∅) (PStr "orders")
           (Demo.mkWorld [] 0)).
  vm_compute. reflexivity.
Defined.

Lemma add_message_zero_bound_witness :
  DialogueContext.max_history (DialogueContext.__init__ 0) = 0
  /\ Z.of_nat (length (DialogueContext.messages
                         (@DialogueContext.add_message Demo.collaborators
                            (DialogueContext.__init__ 0) "user" "hi" None
                            (Demo.mkWorld [] 0)).1)) > 0.
Proof.
  split; [reflexivity|].
  pose proof (@add_message_zero_bound_keeps_turn Demo.collaborators
                (DialogueContext.__init__ 0) "user" "hi" None (Demo.mkWorld [] 0)) as Hthm.
  cbv zeta in Hthm. destruct Hthm as (Hmax & Hlen & _); [reflexivity|].
  rewrite Hmax in Hlen. exact Hlen.
Defined.

Lemma general_chat_plan_skips_tools_witness :
  DataAnalysisAgent.calls
    (@DataAnalysisAgent.process_query Demo.collaborators reference_decoder
       Demo.agent "hi" (Demo.start [Demo.chat_plan; "Hello!"])).2 = []
  /\ (@DataAnalysisAgent.process_query Demo.collaborators reference_decoder
       Demo.agent "hi" (Demo.start [Demo.chat_plan; "Hello!"])).1
     = Ret (DataAnalysisAgent.mkResult "Hello!" [] []).
Proof.
  pose proof (@general_chat_plan_skips_tools Demo.collaborators reference_decoder
    Demo.agent "hi" (Demo.start [Demo.chat_plan; "Hello!"])
    "用户: hi" Demo.chat_step
    (@DataAnalysisAgent.plan_query Demo.collaborators reference_decoder
       Demo.agent "hi" (Demo.start [Demo.chat_plan; "Hello!"])).2) as Hthm.
  destruct Hthm as (Hcalls & _ & Hret).
  - vm_compute. reflexivity.
  - vm_compute. reflexivity.
  - split; [exact Hcalls|]. eapply Hret. vm_compute. reflexivity.
Defined.

Lemma long_plan_is_cut_witness :
  exists new,
    DataAnalysisAgent.calls
      (@DataAnalysisAgent.process_query Demo.collaborators reference_decoder
         Demo.agent "profile everything"
         (Demo.start [Demo.nine_steps_plan; "Done."])).2 = [] ++ new
    /\ (length new <= 8)%nat.
Proof.
  destruct (@long_plan_is_cut_to_max_steps Demo.collaborators reference_decoder
    Demo.agent "profile everything" (Demo.start [Demo.nine_steps_plan; "Done."])
    "用户: profile everything" Demo.nine_steps
    (@DataAnalysisAgent.plan_query Demo.collaborators reference_decoder
       Demo.agent "profile everything"
       (Demo.start [Demo.nine_steps_plan; "Done."])).2) as (_ & new & Hcalls & _ & Hlen & _).
  - vm_compute. reflexivity.
  - vm_compute. lia.
  - exists new. split; [exact Hcalls|exact Hlen].
Defined.

Lemma report_generator_gets_digest_witness :
  exists kwargs,
    (DataAnalysisAgent.calls (@Demo.report_prior reference_decoder).2
       ++ [(PStr "report_generator", kwargs)])
      `prefix_of`
      DataAnalysisAgent.calls
        (@DataAnalysisAgent.process_query Demo.collaborators reference_decoder
           Demo.agent "stats please" Demo.report_start).2
    /\ kwargs !! "analysis_results"
       = Some (PStr (DataAnalysisAgent.digest
                       (DataAnalysisAgent.l_tool_results (@Demo.report_loop reference_decoder))))
    /\ kwargs !! "question" = Some (PStr "stats please").
Proof.
  destruct (@report_generator_gets_digest Demo.collaborators reference_decoder
    Demo.agent "stats please" Demo.report_start "用户: stats please"
    [PDict Demo.statistics_step] Demo.report_step [] (@Demo.report_planned reference_decoder)
    ∅ (@Demo.report_loop reference_decoder) (@Demo.report_prior reference_decoder).2)
    as (kwargs & Hprefix & _ & Hresults & Hquestion).
  - vm_compute. reflexivity.
  - vm_compute. lia.
  - vm_compute. reflexivity.
  - vm_compute. reflexivity.
  - apply lookup_empty.
  - vm_compute. reflexivity.
  - eexists. split.
    + vm_compute. apply list_elem_of_here.
    + vm_compute. reflexivity.
  - exists kwargs. split; [exact Hprefix|]. split; [exact Hresults|exact Hquestion].
Defined.

Lemma query_tools_refuse_witness :
  (* the model answers without a query *)
  (exists d w, @DataVisualizationTool.execute Demo.collaborators (Demo.ask "sales by region")
                 (Demo.mkWorld ["I cannot help with that."] 0) = (Ret d, w)
               /\ BaseTool.refused d)
  /\ (exists d w, @StatisticalAnalysisTool.execute Demo.collaborators (Demo.ask "sales by region")
                 (Demo.mkWorld ["I cannot help with that."] 0) = (Ret d, w)
               /\ BaseTool.refused d)
  (* the given query brings no rows *)
  /\ (exists d w, @DataVisualizationTool.execute Demo.collaborators (Demo.given Demo.no_rows_sql)
                 (Demo.mkWorld [] 0) = (Ret d, w)
               /\ BaseTool.refused d)
  /\ (exists d w, @StatisticalAnalysisTool.execute Demo.collaborators (Demo.given Demo.no_rows_sql)
                 (Demo.mkWorld [] 0) = (Ret d, w)
               /\ BaseTool.refused d)
  (* the generated query brings no rows *)
  /\ (exists d w, @DataVisualizationTool.execute Demo.collaborators (Demo.ask "sales by region")
                 (Demo.mkWorld [Demo.no_rows_sql] 0) = (Ret d, w)
               /\ BaseTool.refused d)
  /\ (exists d w, @StatisticalAnalysisTool.execute Demo.collaborators (Demo.ask "sales by region")
                 (Demo.mkWorld [Demo.no_rows_sql] 0) = (Ret d, w)
               /\ BaseTool.refused d).
Proof.
  destruct (@query_tools_refuse_without_data Demo.collaborators)
    as (V1 & V2 & V3 & S1 & S2 & S3).
  repeat split.
  - edestruct (V1 (Demo.ask "sales by region") None
                 (Demo.mkWorld ["I cannot help with that."] 0)) as (d & Hd & Hr);
      [vm_compute; reflexivity..|eauto].
  - edestruct (S1 (Demo.ask "sales by region") None
                 (Demo.mkWorld ["I cannot help with that."] 0)) as (d & Hd & Hr);
      [vm_compute; reflexivity..|eauto].
  - edestruct (V2 (Demo.given Demo.no_rows_sql) Demo.no_rows_frame (Demo.mkWorld [] 0))
      as (d & Hd & Hr); [vm_compute; reflexivity..|eauto].
  - edestruct (S2 (Demo.given Demo.no_rows_sql) Demo.no_rows_frame (Demo.mkWorld [] 0))
      as (d & Hd & Hr); [vm_compute; reflexivity..|eauto].
  - edestruct (V3 (Demo.ask "sales by region") Demo.no_rows_sql Demo.no_rows_frame
                 (Demo.mkWorld [Demo.no_rows_sql] 0)) as (d & Hd & Hr);
      [vm_compute; reflexivity..|eauto].
  - edestruct (S3 (Demo.ask "sales by region") Demo.no_rows_sql Demo.no_rows_frame
                 (Demo.mkWorld [Demo.no_rows_sql] 0)) as (d & Hd & Hr);
      [vm_compute; reflexivity..|eauto].
Defined.

(* ===================================================================== *)
(** * The further theorems at work in the closed world                    *)
(* ===================================================================== *)

#[local] Existing Instance DemoBackends.backends.

Lemma add_message_keeps_positive_bound_witness :
  0 < DialogueContext.max_history (DialogueContext.__init__ 2)
  /\ Z.of_nat (length (DialogueContext.messages
                 (DialogueContext.add_message (DialogueContext.__init__ 2)
                    "user" "hi" None (DemoBackends.world_at [] 0)).1)) <= 2.
Proof.
  split; [reflexivity|].
  destruct (add_message_keeps_positive_bound (DialogueContext.__init__ 2)
              "user" "hi" None (DemoBackends.world_at [] 0)) as [Hmax Hlen]; [reflexivity|].
  rewrite Hmax in Hlen. exact Hlen.
Defined.

Lemma add_message_at_capacity_witness :
  exists t,
    DialogueContext.messages
      (DialogueContext.add_message DemoBackends.full_context "assistant" "second" None
         (DemoBackends.world_at [] 3)).1
    = [DialogueContext.mkMessage "assistant" "second" t ∅].
Proof.
  destruct (add_message_at_capacity_drops_oldest DemoBackends.full_context "assistant" "second"
              None (DemoBackends.world_at [] 3)
              (DialogueContext.mkMessage "user" "first" "2026-01-01T00:00:2" ∅) [])
    as (t & Hmsgs & _); [reflexivity..|].
  exists t. exact Hmsgs.
Defined.

Lemma get_context_window_witness :
  exists older,
    DialogueContext.messages DemoBackends.full_context
    = older ++ DialogueContext.get_context_window DemoBackends.full_context 10.
Proof.
  destruct (get_context_window_is_recent_suffix DemoBackends.full_context 10) as (older & Hs & _);
    [lia|].
  exists older. exact Hs.
Defined.

Lemma clear_context_then_add_message_witness :
  DialogueContext.get_formatted_history (DialogueContext.clear_context DemoBackends.full_context) 10
  = "无历史对话"
  /\ exists t,
       DialogueContext.messages
         (DialogueContext.add_message (DialogueContext.clear_context DemoBackends.full_context)
            "user" "again" None (DemoBackends.world_at [] 3)).1
       = [DialogueContext.mkMessage "user" "again" t ∅].
Proof.
  destruct (clear_context_then_add_message_starts_afresh DemoBackends.full_context
              "user" "again" None (DemoBackends.world_at [] 3) 10) as (Hh & Hm & _);
    [vm_compute; discriminate|].
  split; [exact Hh|exact Hm].
Defined.

Lemma formatted_history_witness :
  exists before,
    DialogueContext.get_formatted_history
      (DialogueContext.add_message (DialogueContext.__init__ 50)
         "user" "sales by region" None (DemoBackends.world_at [] 0)).1 10
    = before +:+ "用户" +:+ ": " +:+ "sales by region".
Proof.
  apply (formatted_history_ends_with_new_turn (DialogueContext.__init__ 50)
           "user" "sales by region" None (DemoBackends.world_at [] 0) 10);
    vm_compute; discriminate.
Defined.

Lemma add_message_negative_bound_witness :
  DialogueContext.messages
    (DialogueContext.add_message (DialogueContext.__init__ (-1))
       "user" "hi" None (DemoBackends.world_at [] 0)).1 = [].
Proof.
  destruct (add_message_negative_bound_drops_turns (DialogueContext.__init__ (-1))
              "user" "hi" None (DemoBackends.world_at [] 0)) as [Hnew _]; [reflexivity|].
  apply Hnew. reflexivity.
Defined.

Lemma get_session_info_witness :
  exists d w',
    DialogueSession.get_session_info DemoBackends.full_context (DemoBackends.world_at [] 3) = (Ret d, w')
    /\ d !! "message_count" = Some (PInt 1).
Proof.
  destruct (get_session_info_returns DemoBackends.full_context (DemoBackends.world_at [] 3))
    as (d & w' & Hrun & _ & Hopen).
  - apply DialogueSession.reach_add_message, DialogueSession.reach_init.
  - exists d, w'. split; [exact Hrun|]. apply Hopen. reflexivity.
Defined.


Lemma registry_execute_name_not_a_string_witness :
  exists e,
    ToolRegistry.execute Agent.registry (PList [PStr "sql_query"]) ∅
      (DemoBackends.world_at [] 0)
    = (Raise e, DemoBackends.world_at [] 0)
    /\ exc_class e = "TypeError".
Proof.
  apply (registry_execute_name_not_a_string Agent.registry (PList [PStr "sql_query"]) ∅
           (DemoBackends.world_at [] 0)); [reflexivity..|discriminate].
Defined.

Lemma chat_only_plan_witness :
  DataAnalysisAgent.calls
    (DataAnalysisAgent.process_query DemoBackends.agent "hello"
       (DemoBackends.start ["[]"; "Hello!"])).2 = []
  /\ (DataAnalysisAgent.process_query DemoBackends.agent "hello"
        (DemoBackends.start ["[]"; "Hello!"])).1
     = Ret (DataAnalysisAgent.mkResult "Hello!" [] []).
Proof.
  destruct (chat_only_plan_calls_no_tool DemoBackends.agent "hello"
              (DemoBackends.start ["[]"; "Hello!"]) "用户: hello" []
              (DataAnalysisAgent.plan_query DemoBackends.agent "hello"
                 (DemoBackends.start ["[]"; "Hello!"])).2) as [Hcalls Hret].
  - vm_compute. reflexivity.
  - discriminate.
  - constructor.
  - split; [exact Hcalls|].
    edestruct (Hret "Hello!") as [Hr _]; [vm_compute; reflexivity|exact Hr].
Defined.

Lemma step_not_an_object_witness :
  (DataAnalysisAgent.process_query DemoBackends.agent "total sales"
     (DemoBackends.start ["42"])).1
  = Raise (AttributeError "'int' object has no attribute 'get'").
Proof.
  rewrite (step_not_an_object_raises DemoBackends.agent "total sales"
             (DemoBackends.start ["42"]) "用户: total sales" [] (PInt 42) []
             (DataAnalysisAgent.plan_query DemoBackends.agent "total sales"
                (DemoBackends.start ["42"])).2
             (DataAnalysisAgent.mkLoop [] [] "")
             (DataAnalysisAgent.plan_query DemoBackends.agent "total sales"
                (DemoBackends.start ["42"])).2).
  - reflexivity.
  - vm_compute. reflexivity.
  - vm_compute. lia.
  - discriminate.
  - discriminate.
  - reflexivity.
Defined.

Lemma args_not_an_object_witness :
  exists e,
    DataAnalysisAgent.run_step DemoBackends.agent "total sales" "用户: total sales"
      (PDict DemoBackends.listed_args_step) (DataAnalysisAgent.mkLoop [] [] "")
      (DemoBackends.start [])
    = (Raise e, DemoBackends.start [])
    /\ (exc_class e = "TypeError" \/ exc_class e = "AttributeError").
Proof.
  apply (args_not_an_object_raises DemoBackends.agent "total sales" "用户: total sales"
           DemoBackends.listed_args_step).
  - vm_compute. reflexivity.
  - intros a Ha. vm_compute in Ha. discriminate Ha.
Defined.

Lemma results_match_calls_and_images_witness :
  exists r st',
    DataAnalysisAgent.process_query DemoBackends.agent "chart the sales"
      (DemoBackends.start [DemoBackends.chart_plan; "Summary."]) = (Ret r, st')
    /\ DataAnalysisAgent.images r = omap image_of (DataAnalysisAgent.tool_results r)
    /\ tools_used (DataAnalysisAgent.tool_results r) = [PStr "data_visualization"]
    /\ DataAnalysisAgent.images r = [PStr "viz_images/viz_bar_20260101_000000.png"].
Proof.
  destruct (DataAnalysisAgent.process_query DemoBackends.agent "chart the sales"
              (DemoBackends.start [DemoBackends.chart_plan; "Summary."]))
    as [[r|e] st'] eqn:Hrun; [|vm_compute in Hrun; discriminate Hrun].
  destruct (results_match_calls_and_images DemoBackends.agent "chart the sales"
              (DemoBackends.start [DemoBackends.chart_plan; "Summary."]) r st' Hrun)
    as (Himg & new & Hcalls & Hused).
  exists r, st'. split; [reflexivity|]. split; [exact Himg|].
  vm_compute in Hrun. injection Hrun as <- <-. split; vm_compute; reflexivity.
Defined.

Lemma returned_answer_is_last_turn_witness :
  exists r st' older t md,
    DataAnalysisAgent.process_query DemoBackends.agent "chart the sales"
      (DemoBackends.start [DemoBackends.chart_plan; "Summary."]) = (Ret r, st')
    /\ DataAnalysisAgent.response r = "Summary."
    /\ DialogueContext.messages (DataAnalysisAgent.context st')
       = older ++ [DialogueContext.mkMessage "assistant" (DataAnalysisAgent.response r) t md].
Proof.
  destruct (DataAnalysisAgent.process_query DemoBackends.agent "chart the sales"
              (DemoBackends.start [DemoBackends.chart_plan; "Summary."]))
    as [[r|e] st'] eqn:Hrun; [|vm_compute in Hrun; discriminate Hrun].
  destruct (returned_answer_is_last_turn DemoBackends.agent "chart the sales"
              (DemoBackends.start [DemoBackends.chart_plan; "Summary."]) r st')
    as (older & t & md & Hlast); [vm_compute; discriminate|exact Hrun|].
  exists r, st', older, t, md. split; [reflexivity|]. split; [|exact Hlast].
  vm_compute in Hrun. injection Hrun as <- _. reflexivity.
Defined.

Lemma report_step_without_prior_results_witness :
  exists l' st' r,
    DataAnalysisAgent.run_step DemoBackends.agent "report please" "用户: report please"
      (PDict Demo.report_step) (DataAnalysisAgent.mkLoop [] [] "")
      (DemoBackends.start ["Report."]) = (Ret l', st')
    /\ DataAnalysisAgent.world st' = DataAnalysisAgent.world (DemoBackends.start ["Report."])
    /\ DataAnalysisAgent.l_tool_results l' = [r]
    /\ r !! "success" = Some (PBool false).
Proof.
  destruct (report_step_without_prior_results_is_refused
              "CREATE TABLE orders (region TEXT, amount INTEGER, sold_at DATETIME)"
              "report please" "用户: report please" Demo.report_step ∅
              (DataAnalysisAgent.mkLoop [] [] "") (DemoBackends.start ["Report."]))
    as (l' & st' & r & Hrun & Hw & Hres & _ & Hs & _); [reflexivity..|].
  exists l', st', r. split; [exact Hrun|]. split; [exact Hw|]. split; [exact Hres|exact Hs].
Defined.

Lemma infer_chart_type_first_keyword_witness :
  @DataVisualizationTool._infer_chart_type Demo.collaborators Demo.orders_frame
    (PStr DemoBackends.share_question) = Ret "pie".
Proof.
  apply (@infer_chart_type_first_keyword_wins Demo.collaborators Demo.orders_frame
           DemoBackends.share_question [] "pie"
           ["饼图"; "占比"; "比例"; "构成"; "pie"]
           (tail DataVisualizationTool.keyword_map) "占比").
  - reflexivity.
  - intros c ks k Hin. inversion Hin.
  - apply list_elem_of_further, list_elem_of_here.
  - vm_compute. reflexivity.
Defined.

Lemma infer_chart_type_line_for_dates_witness :
  @DataVisualizationTool._infer_chart_type Demo.collaborators DemoBackends.dated_frame
    (PStr "Sales by Day") = Ret "line".
Proof.
  apply (@infer_chart_type_line_for_dates Demo.collaborators 2
           (mkSeries "sold_at" DtDatetime64 [CTime 1; CTime 2])
           [mkSeries "amount" DtInt64 [CInt 10; CInt 32]] "Sales by Day").
  - reflexivity.
  - apply no_chart_keywordb_sound. vm_compute. reflexivity.
Defined.

Lemma generate_title_witness :
  exists title rest,
    DataVisualizationTool._generate_title (PStr "Sales by Region") PNone
    = Ret (PStr title)
    /\ "Sales by Region" = title +:+ rest
    /\ (PyStr.cp_length title <= 50)%nat.
Proof.
  destruct (generate_title_is_bounded_prefix "Sales by Region" PNone)
    as (title & rest & Hrun & Hsplit & Hlen & _); [discriminate|reflexivity|].
  exists title, rest. split; [exact Hrun|]. split; [exact Hsplit|exact Hlen].
Defined.

Lemma agent_tools_refuse_missing_input_witness :
  Forall (fun n => exists d,
            ToolRegistry.execute Agent.registry (PStr n) ∅ (DemoBackends.world_at [] 0)
            = (Ret d, DemoBackends.world_at [] 0)
            /\ BaseTool.refused d)
    ["sql_query"; "data_visualization"; "statistical_analysis"; "report_generator"].
Proof.
  apply (agent_tools_refuse_missing_input ∅ (DemoBackends.world_at [] 0)); reflexivity.
Defined.


Lemma extract_sql_unwraps_fenced_query_witness :
  @extract_sql Demo.collaborators
    ("```sql" +:+ nl +:+ "SELECT region FROM orders" +:+ ";" +:+ nl +:+ "```")
  = Some "SELECT region FROM orders".
Proof.
  apply (@extract_sql_unwraps_fenced_query Demo.collaborators
           "S" "ELECT region FROM order" "s");
    [reflexivity|reflexivity|discriminate|reflexivity|reflexivity].
Defined.

Lemma clean_sql_response_after_marker_witness :
  SQLQueryTool._clean_sql_response ("SQLQuery: " +:+ "SELECT COUNT(*) FROM orders" +:+ ";")
  = "SELECT COUNT(*) FROM orders".
Proof.
  apply (clean_sql_response_after_marker "S" "ELECT COUNT(*) FROM order" "s");
    [reflexivity|reflexivity|discriminate].
Defined.

Lemma date_and_numeric_columns_witness :
  DatabaseManager.get_date_columns (PStr "orders") (DemoBackends.world_at [] 0)
  = (Ret ["sold_at"], DemoBackends.world_at [] 0)
  /\ DatabaseManager.get_numeric_columns (PStr "orders") (DemoBackends.world_at [] 0)
     = (Ret ["amount"], DemoBackends.world_at [] 0).
Proof.
  destruct (date_and_numeric_columns_by_substring (PStr "orders")
              (map DatabaseManager.column_of_row DemoBackends.orders_columns)
              (DemoBackends.world_at [] 0) (DemoBackends.world_at [] 0))
    as [Hd Hn]; [reflexivity|].
  split; [exact Hd|exact Hn].
Defined.

Lemma inspector_and_profiler_refuse_witness :
  @DataInspectorTool.execute Demo.collaborators DemoBackends.empty_backends ∅
    (DemoBackends.world_at [] 0)
  = (Ret (BaseTool.failure "数据库中没有可用的表"), DemoBackends.world_at [] 0)
  /\ @DataProfilingTool.execute Demo.collaborators DemoBackends.empty_backends ∅
       (DemoBackends.world_at [] 0)
     = (Ret (BaseTool.failure "没有可用的数据表"), DemoBackends.world_at [] 0).
Proof.
  apply (@inspector_and_profiler_refuse_without_table Demo.collaborators
           DemoBackends.empty_backends ∅ (DemoBackends.world_at [] 0)
           (DemoBackends.world_at [] 0)); reflexivity.
Defined.


Lemma parse_tool_plan_recovers_array_witness :
  @LLMClient._parse_tool_plan reference_decoder
    (DemoBackends.prose_before +:+ Demo.plain_plan +:+ DemoBackends.prose_after)
  = Ret (PList [PDict Demo.plain_step]).
Proof.
  apply (@parse_tool_plan_recovers_array_in_prose reference_decoder
           DemoBackends.prose_before Demo.plain_plan DemoBackends.prose_after
           [PDict Demo.plain_step] (JSONDecodeError "Expecting value"));
    vm_compute; reflexivity.
Defined.
